(** * Stock forecasting and replenishment: a shallow embedding

    The development follows two source files of the repository:

    - the time-series utilities ([calculateMovingAverage],
      [calculateSeasonalFactor], [calculateConfidence], [detectTrend],
      [predictStockNeeds], [generateRestockRecommendations],
      [calculateEOQ]);
    - [services/forecasting-service.ts] ([getSalesHistory],
      [predictSingleProduct], [getRestockRecommendations]);
    - the handler of the tool [get_restock_recommendations] of the
      server.

    Modelling choices.

    - A JavaScript [number] is a rational extended with the three special
      values of IEEE 754: arithmetic on finite values is exact, a division
      by zero yields an infinity or NaN exactly as in JavaScript, and NaN
      and the infinities propagate through the operations as they do there.
      Rounding, overflow and the sign of zero are outside the model.
    - [Math.sqrt] is the square root truncated to 52 fractional bits.
    - The system clock is an oracle: the n-th reading of the clock is
      [clock w n], and every [new Date()] or [Date.now()] consumes one
      reading.  The host time zone is UTC.
    - The hosted database is a record of tables; a table is either a list of
      rows (in storage order) or unavailable, in which case every request on
      it answers with an error and no data. *)

From Stdlib Require Import String.
From Stdlib Require Import ZArith QArith Qround Qabs List Bool Lia Lqa.
From Stdlib Require Import Permutation Sorted.
Import ListNotations.

Open Scope Q_scope.

(** ** JavaScript numbers *)

Inductive number : Type :=
| Fin (q : Q)
| PosInf
| NegInf
| NaN.

Definition of_Z (z : Z) : number := Fin (inject_Z z).
Definition of_nat (n : nat) : number := of_Z (Z.of_nat n).

Definition Qltb (a b : Q) : bool := negb (Qle_bool b a).

Definition neg (x : number) : number :=
  match x with
  | Fin a => Fin (- a)
  | PosInf => NegInf
  | NegInf => PosInf
  | NaN => NaN
  end.

Definition add (x y : number) : number :=
  match x, y with
  | NaN, _ | _, NaN => NaN
  | Fin a, Fin b => Fin (a + b)
  | PosInf, NegInf | NegInf, PosInf => NaN
  | PosInf, _ | _, PosInf => PosInf
  | NegInf, _ | _, NegInf => NegInf
  end.

Definition sub (x y : number) : number := add x (neg y).

(** The infinity whose sign is that of [s]; a zero [s] gives NaN. *)
Definition signed_inf (s : comparison) : number :=
  match s with
  | Gt => PosInf
  | Lt => NegInf
  | Eq => NaN
  end.

Definition sign (x : number) : option comparison :=
  match x with
  | Fin a => Some (a ?= 0)
  | PosInf => Some Gt
  | NegInf => Some Lt
  | NaN => None
  end.

Definition sign_mul (s t : comparison) : comparison :=
  match s, t with
  | Eq, _ | _, Eq => Eq
  | Gt, Gt | Lt, Lt => Gt
  | _, _ => Lt
  end.

Definition mul (x y : number) : number :=
  match x, y with
  | Fin a, Fin b => Fin (a * b)
  | _, _ =>
      match sign x, sign y with
      | Some s, Some t => signed_inf (sign_mul s t)
      | _, _ => NaN
      end
  end.

(** [x / y]: a finite dividend over zero is an infinity of its sign, zero
    over zero is NaN, a finite value over an infinity is zero. *)
Definition div (x y : number) : number :=
  match x, y with
  | NaN, _ | _, NaN => NaN
  | Fin a, Fin b =>
      if Qeq_bool b 0 then signed_inf (a ?= 0) else Fin (a / b)
  | Fin _, _ => Fin 0
  | _, Fin b =>
      match sign x with
      | Some s => signed_inf (sign_mul s (if Qltb b 0 then Lt else Gt))
      | None => NaN
      end
  | _, _ => NaN
  end.

(** Comparisons: every comparison with NaN is false. *)
Definition ltb (x y : number) : bool :=
  match x, y with
  | NaN, _ | _, NaN => false
  | Fin a, Fin b => Qltb a b
  | NegInf, NegInf | PosInf, _ | _, NegInf => false
  | _, _ => true
  end.

Definition leb (x y : number) : bool :=
  match x, y with
  | NaN, _ | _, NaN => false
  | Fin a, Fin b => Qle_bool a b
  | NegInf, _ | _, PosInf => true
  | _, _ => false
  end.

Definition gtb (x y : number) : bool := ltb y x.

Definition Math_max (x y : number) : number :=
  match x, y with
  | NaN, _ | _, NaN => NaN
  | _, _ => if ltb x y then y else x
  end.

Definition Math_min (x y : number) : number :=
  match x, y with
  | NaN, _ | _, NaN => NaN
  | _, _ => if ltb y x then y else x
  end.

Definition Math_floor (x : number) : number :=
  match x with
  | Fin a => of_Z (Qfloor a)
  | _ => x
  end.

Definition Math_ceil (x : number) : number :=
  match x with
  | Fin a => of_Z (Qceiling a)
  | _ => x
  end.

(** Square root of a non-negative rational, truncated to 52 fractional
    bits: sqrt (n/d) = sqrt (n*d) / d. *)
Definition Qsqrt (q : Q) : Q :=
  let s := (2 ^ 52)%Z in
  Qmake (Z.sqrt (Qnum q * Zpos (Qden q) * s * s)) (Qden q * Z.to_pos s).

Definition Math_sqrt (x : number) : number :=
  match x with
  | Fin a => if Qltb a 0 then NaN else Fin (Qsqrt a)
  | PosInf => PosInf
  | _ => NaN
  end.

(** [Math.pow(x, 2)]. *)
Definition Math_pow_2 (x : number) : number := mul x x.

(** ** Dates

    A [Date] holds a time value, a number of milliseconds since the epoch,
    or is invalid ([None]; its time value is then NaN). *)

Definition msPerDay : Z := (1000 * 60 * 60 * 24)%Z.
Definition maxTime : Z := 8640000000000000%Z.

Definition Date : Type := option Z.

Definition TimeClip (t : Z) : Date :=
  if (Z.abs t <=? maxTime)%Z then Some t else None.

(** [d.getTime()]. *)
Definition getTime (d : Date) : number :=
  match d with
  | Some t => of_Z t
  | None => NaN
  end.

(** Truncation towards zero (ToIntegerOrInfinity on a finite value). *)
Definition Qtrunc (q : Q) : Z :=
  if Qltb q 0 then Qceiling q else Qfloor q.

(** [d.setDate(d.getDate() + n)] on the valid date of time value [t]. *)
Definition Date_addDays (t : Z) (n : number) : Date :=
  match n with
  | Fin q => TimeClip (t + Qtrunc q * msPerDay)
  | _ => None
  end.

(** Day number of a time value, and [getDay]: 1 January 1970 was a
    Thursday. *)
Definition dayOf (t : Z) : Z := (t / msPerDay)%Z.
Definition getDay (t : Z) : nat := Z.to_nat ((dayOf t + 4) mod 7).

(** ** The system clock as an effect *)

Record World : Type := mkWorld { clock : nat -> Z; tick : nat }.

Definition M (A : Type) : Type := World -> A * World.

Definition ret {A} (a : A) : M A := fun w => (a, w).

Definition bind {A B} (m : M A) (k : A -> M B) : M B :=
  fun w => let (a, w') := m w in k a w'.

Notation "x <- m ;; k" := (bind m (fun x => k))
  (at level 61, m at next level, right associativity).

(** One reading of the clock: [new Date()] (its time value) and
    [Date.now()]. *)
Definition Date_now : M Z :=
  fun w => (clock w (tick w), mkWorld (clock w) (S (tick w))).

(** ** Time-series utilities *)

Record SalesDataPoint : Type := mkPoint { date : Z; quantity : Q }.

Record ForecastResult : Type := mkForecastResult {
  predictedRunoutDate : Date;
  suggestedReorderQuantity : number;
  confidence : number;
  dailyAverageSales : number;
  seasonalFactor : number
}.

Inductive Trend : Type := increasing | decreasing | stable.

(** [data.slice(-n)]; [slice(-0)] is [slice(0)], the whole array. *)
Definition slice_last {A} (n : nat) (l : list A) : list A :=
  if (n =? 0)%nat then l else skipn (length l - n) l.

(** [data.reduce((acc, point) => acc + point.quantity, 0)]. *)
Definition sumQuantity (data : list SalesDataPoint) : number :=
  fold_left (fun acc point => add acc (Fin (quantity point))) data (Fin 0).

Definition calculateMovingAverage (data : list SalesDataPoint)
    (windowSize : nat) : number :=
  if (length data =? 0)%nat then Fin 0
  else
    let recentData := slice_last windowSize data in
    let sum := sumQuantity recentData in
    div sum (of_nat (length recentData)).

(** [a[i] = v] on an array, for an index within its length. *)
Fixpoint update {A} (l : list A) (i : nat) (v : A) : list A :=
  match l, i with
  | [], _ => []
  | _ :: t, O => v :: t
  | h :: t, S j => h :: update t j v
  end.

(** The [forEach] of [calculateSeasonalFactor]: totals and counts by day of
    the week. *)
Definition groupByDay (data : list SalesDataPoint)
    : list number * list nat :=
  fold_left
    (fun (acc : list number * list nat) point =>
       let (dayTotals, dayCounts) := acc in
       let dayOfWeek := getDay (date point) in
       (update dayTotals dayOfWeek
          (add (nth dayOfWeek dayTotals NaN) (Fin (quantity point))),
        update dayCounts dayOfWeek (S (nth dayOfWeek dayCounts O))))
    data (repeat (Fin 0) 7, repeat O 7).

(** [dayTotals.map((total, i) => dayCounts[i] > 0 ? total / dayCounts[i] : 0)]:
    the two arrays have the same length, so the map over indices is a map
    over the paired arrays. *)
Definition dayAveragesOf (dayTotals : list number) (dayCounts : list nat)
    : list number :=
  map (fun tc : number * nat =>
         let (total, count) := tc in
         if (0 <? count)%nat then div total (of_nat count) else Fin 0)
      (combine dayTotals dayCounts).

Definition overallAvgOf (dayAverages : list number) : number :=
  div (fold_left (fun sum avg => add sum avg) dayAverages (Fin 0)) (Fin 7).

Definition calculateSeasonalFactor (data : list SalesDataPoint) : M number :=
  if (length data <? 14)%nat then ret (Fin 1)
  else
    let (dayTotals, dayCounts) := groupByDay data in
    let dayAverages := dayAveragesOf dayTotals dayCounts in
    let overallAvg := overallAvgOf dayAverages in
    now <- Date_now ;;
    let today := getDay now in
    let todayAvg := nth today dayAverages NaN in
    ret (if gtb overallAvg (Fin 0) then div todayAvg overallAvg else Fin 1).

Definition mean (data : list SalesDataPoint) : number :=
  div (sumQuantity data) (of_nat (length data)).

Definition varianceOf (data : list SalesDataPoint) (avg : number) : number :=
  div (fold_left
         (fun sum p => add sum (Math_pow_2 (sub (Fin (quantity p)) avg)))
         data (Fin 0))
      (of_nat (length data)).

Definition clampConfidence (coefficientOfVariation : number) : number :=
  Math_max (Fin 0.6)
    (Math_min (Fin 0.95)
       (sub (Fin 0.95) (mul coefficientOfVariation (Fin 0.35)))).

Definition calculateConfidence (data : list SalesDataPoint) : number :=
  if (length data =? 0)%nat then Fin 0.1
  else if (length data <? 7)%nat then Fin 0.4
  else if (length data <? 30)%nat then Fin 0.6
  else
    let avg := mean data in
    let variance := varianceOf data avg in
    let stdDev := Math_sqrt variance in
    let coefficientOfVariation :=
      if gtb avg (Fin 0) then div stdDev avg else Fin 1 in
    clampConfidence coefficientOfVariation.

(** The local [change] of [detectTrend], for a series of at least seven
    points. *)
Definition trendChange (data : list SalesDataPoint) : number :=
  let half := (length data / 2)%nat in
  let firstHalf := firstn half data in
  let secondHalf := skipn half data in
  let firstAvg := div (sumQuantity firstHalf) (of_nat (length firstHalf)) in
  let secondAvg := div (sumQuantity secondHalf) (of_nat (length secondHalf)) in
  div (sub secondAvg firstAvg) firstAvg.

Definition detectTrend (data : list SalesDataPoint) : Trend :=
  if (length data <? 7)%nat then stable
  else
    let change := trendChange data in
    if gtb change (Fin 0.15) then increasing
    else if ltb change (Fin (-0.15)) then decreasing
    else stable.

Definition trendFactorOf (trend : Trend) : number :=
  match trend with
  | increasing => Fin 1.15
  | decreasing => Fin 0.85
  | stable => Fin 1
  end.

Definition adjustedDailySalesOf (movingAvg seasonalFactor : number)
    (trend : Trend) : number :=
  mul (mul movingAvg seasonalFactor) (trendFactorOf trend).

Definition predictStockNeeds (salesHistory : list SalesDataPoint)
    (currentStock leadTimeDays safetyStockDays : number) : M ForecastResult :=
  let movingAvg := calculateMovingAverage salesHistory 7 in
  seasonalFactor <- calculateSeasonalFactor salesHistory ;;
  let confidence := calculateConfidence salesHistory in
  let trend := detectTrend salesHistory in
  let adjustedDailySales := adjustedDailySalesOf movingAvg seasonalFactor trend in
  let daysUntilStockout :=
    if gtb adjustedDailySales (Fin 0) then div currentStock adjustedDailySales
    else Fin 9999 in
  now <- Date_now ;;
  let runoutDate := Date_addDays now (Math_floor daysUntilStockout) in
  let reorderDays := add leadTimeDays safetyStockDays in
  let suggestedReorderQuantity :=
    Math_ceil (mul adjustedDailySales reorderDays) in
  ret {| predictedRunoutDate := runoutDate;
         suggestedReorderQuantity := Math_max suggestedReorderQuantity (Fin 10);
         confidence := confidence;
         dailyAverageSales := adjustedDailySales;
         seasonalFactor := seasonalFactor |}.

(** ** The hosted database *)

Record ProductRow : Type := mkProduct {
  p_id : string;
  p_user_id : string;
  p_name : string;
  p_quantity : Q;
  p_low_stock_threshold : Q
}.

(** A row of [sales_history_daily]; [sh_date] is the day number of its
    calendar date. *)
Record DailySalesRow : Type := mkDailySales {
  sh_user_id : string;
  sh_product_id : string;
  sh_date : Z;
  sh_quantity_sold : Q
}.

(** A row of [invoice_items] joined with its invoice. *)
Record InvoiceItemRow : Type := mkInvoiceItem {
  ii_product_id : string;
  ii_quantity : Q;
  inv_created_at : Z;
  inv_status : string;
  inv_user_id : string
}.

(** A row of [reorder_rules]; a column may hold null. *)
Record ReorderRuleRow : Type := mkReorderRule {
  rr_user_id : string;
  rr_product_id : string;
  lead_time_days : option Q;
  safety_stock : option Q
}.

Inductive Table (A : Type) : Type :=
| Rows (rows : list A)
| Unavailable (message : string).
Arguments Rows {A} rows.
Arguments Unavailable {A} message.

Record Supabase : Type := mkSupabase {
  products : Table ProductRow;
  sales_history_daily : Table DailySalesRow;
  invoice_items : Table InvoiceItemRow;
  reorder_rules : Table ReorderRuleRow
}.

Record Response (A : Type) : Type := mkResponse {
  data : option A;
  error : option string
}.
Arguments mkResponse {A} data error.
Arguments data {A} r.
Arguments error {A} r.

(** [from(table).select(...)] with the conjunction [p] of its filters. *)
Definition select {A} (t : Table A) (p : A -> bool) : Response (list A) :=
  match t with
  | Rows rows => mkResponse (Some (filter p rows)) None
  | Unavailable message => mkResponse None (Some message)
  end.

(** [.single()]: an error unless the request yields exactly one row. *)
Definition single {A} (r : Response (list A)) : Response A :=
  match data r, error r with
  | Some [row], None => mkResponse (Some row) None
  | Some _, None =>
      mkResponse None (Some "JSON object requested, multiple (or no) rows returned"%string)
  | _, e => mkResponse None e
  end.

(** A stable sort: [x] is placed before the first element it may precede. *)
Fixpoint insert {A} (le : A -> A -> bool) (x : A) (l : list A) : list A :=
  match l with
  | [] => [x]
  | y :: t => if le x y then x :: l else y :: insert le x t
  end.

Definition stable_sort {A} (le : A -> A -> bool) (l : list A) : list A :=
  fold_right (insert le) [] l.

(** [array.sort(compareFn)]: the sort is stable, and [a] stays before [b]
    unless [compareFn(a, b) > 0]. *)
Definition Array_sort {A} (compareFn : A -> A -> Z) (l : list A) : list A :=
  stable_sort (fun a b => (compareFn a b <=? 0)%Z) l.

(** ** Exceptions *)

Inductive Exception : Type :=
| Error (message : string)
| RangeError (message : string).

Inductive Completion (A : Type) : Type :=
| Return (a : A)
| Throw (e : Exception).
Arguments Return {A} a.
Arguments Throw {A} e.

Definition bindC {A B} (m : M (Completion A)) (k : A -> M (Completion B))
    : M (Completion B) :=
  r <- m ;;
  match r with
  | Return a => k a
  | Throw e => ret (Throw e)
  end.

Notation "x <-! m ;; k" := (bindC m (fun x => k))
  (at level 61, m at next level, right associativity).

(** [d.toISOString()]: the text of a valid date, stood for by its time
    value; a RangeError on an invalid date. *)
Definition toISOString (d : Date) : Completion Z :=
  match d with
  | Some t => Return t
  | None => Throw (RangeError "Invalid time value")
  end.

(** ** The forecasting service *)

Inductive Urgency : Type := critical | high | medium | low.

Record StockForecast : Type := mkStockForecast {
  product_id : string;
  product_name : string;
  current_stock : Q;
  predicted_runout_date : Z;
  days_until_runout : number;
  suggested_reorder_quantity : number;
  sf_confidence : number;
  urgency : Urgency;
  should_reorder : bool
}.

(** [dailyMap.set(date, (dailyMap.get(date) || 0) + quantity)] on a [Map],
    which keeps its keys in the order of their first insertion. *)
Fixpoint dailyMap_add (m : list (Z * Q)) (date : Z) (q : Q) : list (Z * Q) :=
  match m with
  | [] => [(date, 0 + q)]
  | (d, total) :: rest =>
      if (d =? date)%Z then (d, total + q) :: rest
      else (d, total) :: dailyMap_add rest date q
  end.

Definition getSalesHistory (supabase : Supabase) (userId productId : string)
    (days : Z) : M (Completion (list SalesDataPoint)) :=
  now <- Date_now ;;
  let startDate := Date_addDays now (of_Z (- days)) in
  match toISOString startDate with
  | Throw e => ret (Throw e)
  | Return startTime =>
      let aggregated :=
        data (select (sales_history_daily supabase)
                (fun row => String.eqb (sh_user_id row) userId
                            && String.eqb (sh_product_id row) productId
                            && (dayOf startTime <=? sh_date row)%Z)) in
      let aggregated :=
        option_map (stable_sort (fun a b => (sh_date a <=? sh_date b)%Z))
          aggregated in
      match aggregated with
      | Some ((_ :: _) as rows) =>
          ret (Return
                 (map (fun row =>
                         mkPoint (sh_date row * msPerDay) (sh_quantity_sold row))
                    rows))
      | _ =>
          let invoiceItems :=
            data (select (invoice_items supabase)
                    (fun item => String.eqb (ii_product_id item) productId
                                 && String.eqb (inv_user_id item) userId
                                 && String.eqb (inv_status item) "paid"
                                 && (startTime <=? inv_created_at item)%Z)) in
          let dailyMap :=
            fold_left
              (fun m item =>
                 dailyMap_add m (dayOf (inv_created_at item)) (ii_quantity item))
              (match invoiceItems with Some items => items | None => [] end)
              [] in
          ret (Return
                 (map (fun entry : Z * Q =>
                         let (dateStr, quantity) := entry in
                         mkPoint (dateStr * msPerDay) quantity)
                    dailyMap))
      end
  end.

(** [x || d] on a nullable numeric column: null and zero are falsy. *)
Definition truthy (x : option Q) : option Q :=
  match x with
  | Some q => if Qeq_bool q 0 then None else Some q
  | None => None
  end.

Definition classify (daysUntilRunout : number) : Urgency :=
  if leb daysUntilRunout (Fin 3) then critical
  else if leb daysUntilRunout (Fin 7) then high
  else if leb daysUntilRunout (Fin 14) then medium
  else low.

(** The request for the product, with [.single()]. *)
Definition findProduct (supabase : Supabase) (userId productId : string)
    : Response ProductRow :=
  single (select (products supabase)
            (fun p => String.eqb (p_id p) productId
                      && String.eqb (p_user_id p) userId)).

(** The request for the reorder rule, with [.single()]; only its data are
    read. *)
Definition findReorderRule (supabase : Supabase) (userId productId : string)
    : option ReorderRuleRow :=
  data (single (select (reorder_rules supabase)
                  (fun rule => String.eqb (rr_user_id rule) userId
                               && String.eqb (rr_product_id rule) productId))).

(** [reorderRule?.lead_time_days || 7]. *)
Definition leadTimeDaysOf (reorderRule : option ReorderRuleRow) : number :=
  match reorderRule with
  | Some rule =>
      match truthy (lead_time_days rule) with
      | Some q => Fin q
      | None => Fin 7
      end
  | None => Fin 7
  end.

(** [reorderRule?.safety_stock ? Math.ceil(reorderRule.safety_stock / 10) : 3]. *)
Definition safetyStockDaysOf (reorderRule : option ReorderRuleRow) : number :=
  match reorderRule with
  | Some rule =>
      match truthy (safety_stock rule) with
      | Some q => Math_ceil (div (Fin q) (Fin 10))
      | None => Fin 3
      end
  | None => Fin 3
  end.

(** [Math.max(0, Math.floor((runoutDate.getTime() - Date.now()) / msPerDay))]. *)
Definition daysUntil (runoutDate : Date) (now : Z) : number :=
  Math_max (Fin 0)
    (Math_floor (div (sub (getTime runoutDate) (of_Z now)) (of_Z msPerDay))).

Definition predictSingleProduct (supabase : Supabase)
    (userId productId : string) (daysAhead : number)
    : M (Completion StockForecast) :=
  let r := findProduct supabase userId productId in
  match error r, data r with
  | None, Some product =>
      salesHistory <-! getSalesHistory supabase userId productId 30 ;;
      let reorderRule := findReorderRule supabase userId productId in
      let leadTimeDays := leadTimeDaysOf reorderRule in
      let safetyStockDays := safetyStockDaysOf reorderRule in
      forecast <-
        predictStockNeeds salesHistory (Fin (p_quantity product))
          leadTimeDays safetyStockDays ;;
      now <- Date_now ;;
      let daysUntilRunout := daysUntil (predictedRunoutDate forecast) now in
      let urgency := classify daysUntilRunout in
      match toISOString (predictedRunoutDate forecast) with
      | Throw e => ret (Throw e)
      | Return iso =>
          ret (Return
                 {| product_id := p_id product;
                    product_name := p_name product;
                    current_stock := p_quantity product;
                    predicted_runout_date := iso;
                    days_until_runout := daysUntilRunout;
                    suggested_reorder_quantity := suggestedReorderQuantity forecast;
                    sf_confidence := confidence forecast;
                    urgency := urgency;
                    should_reorder := leb daysUntilRunout leadTimeDays |})
      end
  | _, _ => ret (Throw (Error "Product not found"))
  end.

Inductive TimePeriod : Type := week | month.

Record Options : Type := mkOptions {
  includeAllProducts : option bool;
  onlyLowStock : option bool;
  timePeriod : option TimePeriod
}.

Definition urgencyOrder (u : Urgency) : Z :=
  match u with
  | critical => 0
  | high => 1
  | medium => 2
  | low => 3
  end.

(** The [for ... of] loop with its [try]/[catch]: a forecast is pushed, a
    thrown exception is logged and the loop goes on. *)
Fixpoint forecastEach (supabase : Supabase) (userId : string)
    (daysAhead : number) (products : list ProductRow)
    (forecasts : list StockForecast) : M (list StockForecast) :=
  match products with
  | [] => ret forecasts
  | product :: rest =>
      r <- predictSingleProduct supabase userId (p_id product) daysAhead ;;
      match r with
      | Return forecast =>
          forecastEach supabase userId daysAhead rest (forecasts ++ [forecast])
      | Throw _ =>
          forecastEach supabase userId daysAhead rest forecasts
      end
  end.

Definition getRestockRecommendations (supabase : Supabase) (userId : string)
    (options : Options) : M (Completion (list StockForecast)) :=
  let timePeriod :=
    match timePeriod options with Some t => t | None => week end in
  let daysAhead := match timePeriod with week => Fin 7 | month => Fin 30 end in
  let r := select (products supabase)
             (fun p => String.eqb (p_user_id p) userId) in
  match error r with
  | Some message =>
      ret (Throw (Error ("Failed to fetch products: " ++ message)))
  | None =>
      let allProducts := data r in
      let products :=
        match onlyLowStock options with
        | Some true =>
            Some (filter (fun p => Qle_bool (p_quantity p) (p_low_stock_threshold p))
                    (match allProducts with Some l => l | None => [] end))
        | _ => allProducts
        end in
      match products with
      | None | Some [] => ret (Return [])
      | Some products =>
          forecasts <- forecastEach supabase userId daysAhead products [] ;;
          ret (Return
                 (Array_sort
                    (fun a b => (urgencyOrder (urgency a) - urgencyOrder (urgency b))%Z)
                    forecasts))
      end
  end.

(** ** The other exports of the time-series module *)

(** An element of the [products] argument of
    [generateRestockRecommendations]; [leadTimeDays] is optional. *)
Record ProductInput : Type := mkProductInput {
  pi_id : string;
  pi_name : string;
  pi_quantity : Q;
  pi_salesHistory : list SalesDataPoint;
  pi_leadTimeDays : option Q
}.

Record Recommendation : Type := mkRecommendation {
  productId : string;
  productName : string;
  currentStock : Q;
  forecast : ForecastResult;
  rec_urgency : Urgency;
  shouldReorder : bool
}.

(** [product.leadTimeDays || 7]. *)
Definition leadTimeOr7 (product : ProductInput) : number :=
  match truthy (pi_leadTimeDays product) with
  | Some q => Fin q
  | None => Fin 7
  end.

(** The callback of the [map]: the safety-stock days are left to their
    default, 3, and the days until runout are not clamped at zero. *)
Definition recommend (product : ProductInput) : M Recommendation :=
  forecast <-
    predictStockNeeds (pi_salesHistory product) (Fin (pi_quantity product))
      (leadTimeOr7 product) (Fin 3) ;;
  now <- Date_now ;;
  let daysUntilRunout :=
    Math_floor
      (div (sub (getTime (predictedRunoutDate forecast)) (of_Z now))
         (of_Z msPerDay)) in
  ret {| productId := pi_id product;
         productName := pi_name product;
         currentStock := pi_quantity product;
         forecast := forecast;
         rec_urgency := classify daysUntilRunout;
         shouldReorder := leb daysUntilRunout (leadTimeOr7 product) |}.

Fixpoint generateRestockRecommendations (products : list ProductInput)
    : M (list Recommendation) :=
  match products with
  | [] => ret []
  | product :: rest =>
      r <- recommend product ;;
      rs <- generateRestockRecommendations rest ;;
      ret (r :: rs)
  end.

(** [x === 0] on numbers. *)
Definition is_zero (x : number) : bool :=
  match x with
  | Fin q => Qeq_bool q 0
  | _ => false
  end.

Definition calculateEOQ (annualDemand orderCost holdingCostPerUnit : number)
    : number :=
  if is_zero holdingCostPerUnit then div annualDemand (Fin 12)
  else
    let eoq :=
      Math_sqrt (div (mul (mul (Fin 2) annualDemand) orderCost)
                   holdingCostPerUnit) in
    Math_ceil eoq.

(** ** The tool [get_restock_recommendations] *)

Record RestockArgs : Type := mkRestockArgs {
  user_id : string;
  urgency_filter : option string;
  limit : option number
}.

(** [array.slice(0, end)]: [end] is truncated to an integer, a negative
    [end] counts from the end of the array, NaN counts as 0. *)
Definition Array_slice_0 {A} (l : list A) (stop : number) : list A :=
  match stop with
  | Fin q =>
      let k := Qtrunc q in
      if (k <? 0)%Z then firstn (length l - Z.to_nat (- k)) l
      else firstn (Z.to_nat k) l
  | PosInf => l
  | NegInf | NaN => []
  end.

(** The callback of the [filter], for a filter other than ["all"]. *)
Definition passesFilter (urgencyFilter : string) (r : StockForecast) : bool :=
  if String.eqb urgencyFilter "critical" then
    match urgency r with critical => true | _ => false end
  else if String.eqb urgencyFilter "high" then
    match urgency r with critical | high => true | _ => false end
  else if String.eqb urgencyFilter "medium" then
    match urgency r with critical | high | medium => true | _ => false end
  else true.

(** [(args.urgency_filter as string) || 'high']: the empty string is
    falsy. *)
Definition urgencyFilterOf (args : RestockArgs) : string :=
  match urgency_filter args with
  | Some s => if String.eqb s "" then "high"%string else s
  | None => "high"%string
  end.

(** [(args.limit as number) || 20]: zero and NaN are falsy. *)
Definition limitOf (args : RestockArgs) : number :=
  match limit args with
  | Some (Fin q) => if Qeq_bool q 0 then Fin 20 else Fin q
  | Some NaN | None => Fin 20
  | Some x => x
  end.

Definition selectRecommendations (args : RestockArgs)
    (recommendations : list StockForecast) : list StockForecast :=
  let urgencyFilter := urgencyFilterOf args in
  let filteredRecs :=
    if String.eqb urgencyFilter "all" then recommendations
    else filter (passesFilter urgencyFilter) recommendations in
  Array_slice_0 filteredRecs (limitOf args).

Definition tool_get_restock_recommendations (supabase : Supabase)
    (args : RestockArgs) : M (Completion (list StockForecast)) :=
  recommendations <-!
    getRestockRecommendations supabase (user_id args)
      (mkOptions None (Some true) (Some week)) ;;
  ret (Return (selectRecommendations args recommendations)).

(** ** Statements of the specification, in its own words *)

(** Equality of numbers up to the representation of a rational. *)
Definition eqN (x y : number) : Prop :=
  match x, y with
  | Fin a, Fin b => a == b
  | PosInf, PosInf | NegInf, NegInf | NaN, NaN => True
  | _, _ => False
  end.

(** A finite number whose value satisfies [P]. *)
Definition fin_sat (P : Q -> Prop) (x : number) : Prop :=
  match x with
  | Fin q => P q
  | _ => False
  end.

Definition finite (x : number) : Prop := fin_sat (fun _ => True) x.
Definition between (lo hi : Q) (x : number) : Prop :=
  fin_sat (fun q => lo <= q <= hi) x.
Definition at_least (lo : Q) (x : number) : Prop :=
  fin_sat (fun q => lo <= q) x.

Definition Qsum (data : list SalesDataPoint) : Q :=
  fold_left (fun acc p => acc + quantity p) data 0.

Definition Qmean (data : list SalesDataPoint) : Q :=
  Qsum data / inject_Z (Z.of_nat (length data)).

Definition Qvariance (data : list SalesDataPoint) : Q :=
  fold_left (fun acc p => acc + (quantity p - Qmean data) * (quantity p - Qmean data))
    data 0
  / inject_Z (Z.of_nat (length data)).

Definition Qstddev (data : list SalesDataPoint) : Q := Qsqrt (Qvariance data).

Definition clamp (x lo hi : Q) : Q :=
  if Qltb x lo then lo else if Qltb hi x then hi else x.

(** The confidence as the specification words it: the coefficient of
    variation is [stddev/mean], and a mean of zero is guarded to 1. *)
Definition confidence_claimed (data : list SalesDataPoint) : number :=
  if (length data <? 1)%nat then Fin 0.1
  else if (length data <? 7)%nat then Fin 0.4
  else if (length data <? 30)%nat then Fin 0.6
  else
    let CV := if Qeq_bool (Qmean data) 0 then 1
              else Qstddev data / Qmean data in
    Fin (clamp (0.95 - CV * 0.35) 0.6 0.95).

(** The same with the guard the code has: any mean that is not positive. *)
Definition confidence_guarded (data : list SalesDataPoint) : number :=
  if (length data <? 1)%nat then Fin 0.1
  else if (length data <? 7)%nat then Fin 0.4
  else if (length data <? 30)%nat then Fin 0.6
  else
    let CV := if Qle_bool (Qmean data) 0 then 1
              else Qstddev data / Qmean data in
    Fin (clamp (0.95 - CV * 0.35) 0.6 0.95).

(** A series of [n] consecutive days from day [d0], each selling [q]. *)
Definition constSeries (d0 : Z) (n : nat) (q : Q) : list SalesDataPoint :=
  map (fun i => mkPoint ((d0 + Z.of_nat i) * msPerDay) q) (seq 0 n).

(** A clock that answers [now] at every reading. *)
Definition pinned (now : Z) (w : World) : Prop := forall n, clock w n = now.

Definition pinnedWorld (now : Z) : World := mkWorld (fun _ => now) 0.

(** The products a batch forecasts: the user's rows, in storage order,
    filtered to the low stock ones on request. *)
Definition catalog (rows : list ProductRow) (userId : string)
    (options : Options) : list ProductRow :=
  let mine := filter (fun p => String.eqb (p_user_id p) userId) rows in
  match onlyLowStock options with
  | Some true =>
      filter (fun p => Qle_bool (p_quantity p) (p_low_stock_threshold p)) mine
  | _ => mine
  end.

(** The outcome of forecasting each product in turn, one per product. *)
Fixpoint outcomes (supabase : Supabase) (userId : string) (daysAhead : number)
    (products : list ProductRow) (w : World)
    : list (ProductRow * Completion StockForecast) :=
  match products with
  | [] => []
  | product :: rest =>
      let (r, w') := predictSingleProduct supabase userId (p_id product) daysAhead w in
      (product, r) :: outcomes supabase userId daysAhead rest w'
  end.

(** The forecasts among the outcomes, in their order. *)
Fixpoint successes (os : list (ProductRow * Completion StockForecast))
    : list StockForecast :=
  match os with
  | [] => []
  | (_, Return f) :: rest => f :: successes rest
  | (_, Throw _) :: rest => successes rest
  end.

Definition Urgency_eqb (u v : Urgency) : bool :=
  (urgencyOrder u =? urgencyOrder v)%Z.

(** The forecasts of urgency [u], in their order. *)
Definition ofUrgency (u : Urgency) (l : list StockForecast) : list StockForecast :=
  filter (fun f => Urgency_eqb (urgency f) u) l.

(** The order the specification claims: by urgency rank, and by days until
    runout among equal ranks. *)
Definition claimed_before (a b : StockForecast) : Prop :=
  (urgencyOrder (urgency a) < urgencyOrder (urgency b))%Z
  \/ (urgency a = urgency b
      /\ leb (days_until_runout a) (days_until_runout b) = true).

Definition validNow (now : Z) : Prop :=
  (0 <= now <= maxTime - 9999 * msPerDay)%Z.

(** ** Further statements and sample data *)

(** Fourteen consecutive days from a Thursday (day 0), one unit sold on
    every day but the Thursdays. *)
Definition closedOnThursdays : list SalesDataPoint :=
  map (fun i => mkPoint (Z.of_nat i * msPerDay)
                  (if (i mod 7 =? 0)%nat then 0 else 1))
    (seq 0 14).

(** Seven days: three without a sale, then four selling one unit. *)
Definition idleThenSelling : list SalesDataPoint :=
  map (fun i => mkPoint (Z.of_nat i * msPerDay)
                  (if (i <? 3)%nat then 0 else 1))
    (seq 0 7).

(** The comparison function of the sort. *)
Definition byUrgency (a b : StockForecast) : Z :=
  (urgencyOrder (urgency a) - urgencyOrder (urgency b))%Z.

(** The horizon derived from [timePeriod]. *)
Definition daysAheadOf (options : Options) : number :=
  match timePeriod options with
  | Some month => Fin 30
  | _ => Fin 7
  end.

(** The order of the urgency ranks. *)
Definition rank_le (a b : StockForecast) : Prop :=
  (urgencyOrder (urgency a) <= urgencyOrder (urgency b))%Z.

(** Thirty daily rows, days 1 to 30, of [q] units of a product. *)
Definition monthOfSales (user product : string) (q : Q) : list DailySalesRow :=
  map (fun i => mkDailySales user product (Z.of_nat i) q) (seq 1 30).

(** A sample database: thirty days of sales, ten units a day, for the
    products [a], [x] and [y], one unit a day for [b]; [c] never sold.  The
    stock of [b] outlasts the range of dates. *)
Definition shop : Supabase :=
  mkSupabase
    (Rows [mkProduct "a" "u" "Atta" 50 5;
           mkProduct "b" "u" "Bolts" 1000000000 5;
           mkProduct "c" "u" "Chalk" 20 5;
           mkProduct "x" "v" "Oil" 30 5;
           mkProduct "y" "v" "Salt" 10 5])
    (Rows (monthOfSales "u" "a" 10 ++ monthOfSales "u" "b" 1
           ++ monthOfSales "v" "x" 10 ++ monthOfSales "v" "y" 10))
    (Rows [])
    (Rows []).

Definition noOptions : Options := mkOptions None None None.

Definition day30 : World := pinnedWorld (30 * msPerDay).

(** A clock that starts on day 30 and is one millisecond later at every
    reading. *)
Definition runningClock : World :=
  mkWorld (fun n => (30 * msPerDay + Z.of_nat n)%Z) 0.

(** The seasonal factor, the adjusted daily sales and the forecast as
    functions of a reference time. *)
Definition seasonalFactorAt (data : list SalesDataPoint) (now : Z) : number :=
  if (length data <? 14)%nat then Fin 1
  else
    let dayAverages :=
      dayAveragesOf (fst (groupByDay data)) (snd (groupByDay data)) in
    let overallAvg := overallAvgOf dayAverages in
    if gtb overallAvg (Fin 0)
    then div (nth (getDay now) dayAverages NaN) overallAvg
    else Fin 1.

Definition adjustedDailyRate (data : list SalesDataPoint) (now : Z) : number :=
  adjustedDailySalesOf (calculateMovingAverage data 7)
    (seasonalFactorAt data now) (detectTrend data).

Definition daysUntilStockoutAt (data : list SalesDataPoint)
    (currentStock : number) (now : Z) : number :=
  if gtb (adjustedDailyRate data now) (Fin 0)
  then div currentStock (adjustedDailyRate data now)
  else Fin 9999.

Definition predict (data : list SalesDataPoint)
    (currentStock leadTimeDays safetyStockDays : number) (now : Z)
    : ForecastResult :=
  {| predictedRunoutDate :=
       Date_addDays now (Math_floor (daysUntilStockoutAt data currentStock now));
     suggestedReorderQuantity :=
       Math_max
         (Math_ceil (mul (adjustedDailyRate data now)
                       (add leadTimeDays safetyStockDays)))
         (Fin 10);
     confidence := calculateConfidence data;
     dailyAverageSales := adjustedDailyRate data now;
     seasonalFactor := seasonalFactorAt data now |}.

(** Lines 110-133 of the service: the forecast emitted for a product. *)
Definition emit (product : ProductRow) (forecast : ForecastResult)
    (leadTimeDays : number) (now : Z) : Completion StockForecast :=
  match toISOString (predictedRunoutDate forecast) with
  | Throw e => Throw e
  | Return iso =>
      let daysUntilRunout := daysUntil (predictedRunoutDate forecast) now in
      Return
        {| product_id := p_id product;
           product_name := p_name product;
           current_stock := p_quantity product;
           predicted_runout_date := iso;
           days_until_runout := daysUntilRunout;
           suggested_reorder_quantity := suggestedReorderQuantity forecast;
           sf_confidence := confidence forecast;
           urgency := classify daysUntilRunout;
           should_reorder := leb daysUntilRunout leadTimeDays |}
  end.

(** The grouping by day of week reads a series through the week day and
    the quantity of its points only. *)
Definition weekView (data : list SalesDataPoint) : list (nat * Q) :=
  map (fun p => (getDay (date p), quantity p)) data.

Definition groupByWeekday (view : list (nat * Q)) : list number * list nat :=
  fold_left
    (fun (acc : list number * list nat) (dq : nat * Q) =>
       let (dayTotals, dayCounts) := acc in
       let (dayOfWeek, q) := dq in
       (update dayTotals dayOfWeek
          (add (nth dayOfWeek dayTotals NaN) (Fin q)),
        update dayCounts dayOfWeek (S (nth dayOfWeek dayCounts O))))
    view (repeat (Fin 0) 7, repeat O 7).

Definition seasonalOfView (view : list (nat * Q)) (today : nat) : number :=
  let g := groupByWeekday view in
  let dayAverages := dayAveragesOf (fst g) (snd g) in
  let overallAvg := overallAvgOf dayAverages in
  if gtb overallAvg (Fin 0) then div (nth today dayAverages NaN) overallAvg
  else Fin 1.

(** Thirty consecutive days of quantity 10, the first on week day [r]. *)
Definition monthView (r : nat) : list (nat * Q) :=
  map (fun i => (Z.to_nat ((Z.of_nat r + Z.of_nat i) mod 7), 10)) (seq 0 30).

(** The policy as the specification words it: a stored rule gives the lead
    time and the safety-stock days, the defaults 7 and 3 stand for a missing
    rule only (and for a column that holds null). *)
Definition leadTimeDays_claimed (reorderRule : option ReorderRuleRow) : number :=
  match reorderRule with
  | Some rule =>
      match lead_time_days rule with
      | Some q => Fin q
      | None => Fin 7
      end
  | None => Fin 7
  end.

Definition safetyStockDays_claimed (reorderRule : option ReorderRuleRow) : number :=
  match reorderRule with
  | Some rule =>
      match safety_stock rule with
      | Some q => Math_ceil (div (Fin q) (Fin 10))
      | None => Fin 3
      end
  | None => Fin 3
  end.

(** A column that holds no usable value: null or zero. *)
Definition unset (column : option Q) : Prop :=
  column = None \/ exists q, column = Some q /\ q == 0.

(** The shop with one rule, for product [a]. *)
Definition shopWithRule (lead safety : option Q) : Supabase :=
  mkSupabase (products shop) (sales_history_daily shop) (invoice_items shop)
    (Rows [mkReorderRule "u" "a" lead safety]).

(** The value a day holds in the map of daily totals (0 when absent). *)
Fixpoint dailyMap_get (m : list (Z * Q)) (day : Z) : Q :=
  match m with
  | [] => 0
  | (d, total) :: rest => if (d =? day)%Z then total else dailyMap_get rest day
  end.

(** The quantity the invoice items sold on a day. *)
Fixpoint soldOn (day : Z) (items : list InvoiceItemRow) : Q :=
  match items with
  | [] => 0
  | item :: rest =>
      if (dayOf (inv_created_at item) =? day)%Z
      then ii_quantity item + soldOn day rest
      else soldOn day rest
  end.

(** The rows of [sales_history_daily] that a request for the history of a
    product selects, from the day of [startTime] on. *)
Definition dailyRowsOf (rows : list DailySalesRow) (userId productId : string)
    (startTime : Z) : list DailySalesRow :=
  filter (fun row => String.eqb (sh_user_id row) userId
                     && String.eqb (sh_product_id row) productId
                     && (dayOf startTime <=? sh_date row)%Z) rows.

(** The paid invoice items of a product from [startTime] on. *)
Definition paidItemsOf (table : Table InvoiceItemRow) (userId productId : string)
    (startTime : Z) : list InvoiceItemRow :=
  match table with
  | Rows items =>
      filter (fun item => String.eqb (ii_product_id item) productId
                          && String.eqb (inv_user_id item) userId
                          && String.eqb (inv_status item) "paid"
                          && (startTime <=? inv_created_at item)%Z) items
  | Unavailable _ => []
  end.

(** Eight days: four selling 5 a day, then four selling 8 a day. *)
Definition risingSales : list SalesDataPoint :=
  constSeries 0 4 5 ++ constSeries 4 4 8.

(** One turn of the [forEach] of [calculateSeasonalFactor]. *)
Definition groupStep (acc : list number * list nat) (point : SalesDataPoint)
    : list number * list nat :=
  let (dayTotals, dayCounts) := acc in
  let dayOfWeek := getDay (date point) in
  (update dayTotals dayOfWeek
     (add (nth dayOfWeek dayTotals NaN) (Fin (quantity point))),
   update dayCounts dayOfWeek (S (nth dayOfWeek dayCounts O))).

(** The arrays of totals and counts while no quantity is negative. *)
Definition groupsOk (acc : list number * list nat) : Prop :=
  Forall (at_least 0) (fst acc)
  /\ length (fst acc) = 7%nat /\ length (snd acc) = 7%nat.

(** The total of a day of the week is zero. *)
Definition zeroAt (d : nat) (acc : list number * list nat) : Prop :=
  exists t, nth d (fst acc) NaN = Fin t /\ t == 0.

(** A day of the week has a positive total (and so a positive count). *)
Definition positiveAt (d : nat) (acc : list number * list nat) : Prop :=
  (exists t, nth d (fst acc) NaN = Fin t /\ 0 < t)
  /\ (0 < nth d (snd acc) O)%nat.

(** ** Numbers: basic facts *)

Lemma Qltb_lt a b : Qltb a b = true <-> a < b.
Proof.
  unfold Qltb. rewrite negb_true_iff. split; intro H.
  - apply Qnot_le_lt. intro Hle. apply Qle_bool_iff in Hle. congruence.
  - destruct (Qle_bool b a) eqn:E; [|reflexivity].
    apply Qle_bool_iff in E. exfalso. exact (Qlt_not_le _ _ H E).
Qed.

Lemma Qltb_ge a b : Qltb a b = false <-> b <= a.
Proof.
  unfold Qltb. rewrite negb_false_iff. apply Qle_bool_iff.
Qed.

Lemma eqN_refl x : eqN x x.
Proof. destruct x; simpl; auto. reflexivity. Qed.

Lemma inject_nat_pos n : (0 < n)%nat -> 0 < inject_Z (Z.of_nat n).
Proof.
  intro H. unfold Qlt. simpl. lia.
Qed.

Lemma div_of_nat a n :
  (0 < n)%nat -> div (Fin a) (of_nat n) = Fin (a / inject_Z (Z.of_nat n)).
Proof.
  intro H. unfold div, of_nat, of_Z.
  destruct (Qeq_bool (inject_Z (Z.of_nat n)) 0) eqn:E; [|reflexivity].
  apply Qeq_bool_iff in E. pose proof (inject_nat_pos n H) as Hp.
  rewrite E in Hp. exfalso. exact (Qlt_irrefl _ Hp).
Qed.

Lemma div_pos a b : 0 < b -> div (Fin a) (Fin b) = Fin (a / b).
Proof.
  intro H. unfold div.
  destruct (Qeq_bool b 0) eqn:E; [|reflexivity].
  apply Qeq_bool_iff in E. rewrite E in H. exfalso. exact (Qlt_irrefl _ H).
Qed.

Lemma sumQuantity_acc data a :
  fold_left (fun acc point => add acc (Fin (quantity point))) data (Fin a)
  = Fin (fold_left (fun acc p => acc + quantity p) data a).
Proof.
  revert a. induction data as [|p data IH]; intro a; simpl; [reflexivity|].
  apply IH.
Qed.

Lemma sumQuantity_Qsum data : sumQuantity data = Fin (Qsum data).
Proof. apply sumQuantity_acc. Qed.

Lemma mean_Qmean data :
  (0 < length data)%nat -> mean data = Fin (Qmean data).
Proof.
  intro H. unfold mean, Qmean. rewrite sumQuantity_Qsum. now apply div_of_nat.
Qed.

Lemma variance_acc data m a :
  fold_left (fun sum p => add sum (Math_pow_2 (sub (Fin (quantity p)) (Fin m))))
    data (Fin a)
  = Fin (fold_left (fun acc p => acc + (quantity p - m) * (quantity p - m)) data a).
Proof.
  revert a. induction data as [|p data IH]; intro a; simpl; [reflexivity|].
  apply IH.
Qed.

Lemma varianceOf_Qvariance data :
  (0 < length data)%nat ->
  varianceOf data (Fin (Qmean data)) = Fin (Qvariance data).
Proof.
  intro H. unfold varianceOf, Qvariance. rewrite variance_acc.
  now apply div_of_nat.
Qed.

Lemma Qsquare_nonneg x : 0 <= x * x.
Proof.
  destruct (Qlt_le_dec x 0) as [H|H].
  - setoid_replace (x * x) with ((- x) * (- x)) by ring.
    apply Qmult_le_0_compat; lra.
  - now apply Qmult_le_0_compat.
Qed.

Lemma sum_squares_nonneg data m a :
  0 <= a ->
  0 <= fold_left (fun acc p => acc + (quantity p - m) * (quantity p - m)) data a.
Proof.
  revert a. induction data as [|p data IH]; intros a Ha; simpl; [exact Ha|].
  apply IH. pose proof (Qsquare_nonneg (quantity p - m)). lra.
Qed.

Lemma Qdiv_nonneg a b : 0 <= a -> 0 < b -> 0 <= a / b.
Proof.
  intros Ha Hb. apply Qle_shift_div_l; [exact Hb|]. lra.
Qed.

Lemma Qvariance_nonneg data : (0 < length data)%nat -> 0 <= Qvariance data.
Proof.
  intro H. unfold Qvariance. apply Qdiv_nonneg.
  - apply sum_squares_nonneg. lra.
  - now apply inject_nat_pos.
Qed.

Lemma clamp_bounds x lo hi : lo <= hi -> lo <= clamp x lo hi <= hi.
Proof.
  intro H. unfold clamp.
  destruct (Qltb x lo) eqn:E1.
  - lra.
  - apply Qltb_ge in E1. destruct (Qltb hi x) eqn:E2.
    + lra.
    + apply Qltb_ge in E2. lra.
Qed.

Lemma clampConfidence_clamp cv :
  eqN (clampConfidence (Fin cv)) (Fin (clamp (0.95 - cv * 0.35) 0.6 0.95)).
Proof.
  unfold clampConfidence, clamp. cbn [mul sub neg add].
  set (x := 0.95 + - (cv * 0.35)).
  assert (Hx : 0.95 - cv * 0.35 == x) by (unfold x; ring).
  unfold Math_min. cbn [ltb].
  destruct (Qltb x 0.95) eqn:E1.
  - apply Qltb_lt in E1. unfold Math_max. cbn [ltb].
    destruct (Qltb 0.6 x) eqn:E2.
    + apply Qltb_lt in E2.
      destruct (Qltb (0.95 - cv * 0.35) 0.6) eqn:E3.
      { apply Qltb_lt in E3. lra. }
      destruct (Qltb 0.95 (0.95 - cv * 0.35)) eqn:E4.
      { apply Qltb_lt in E4. lra. }
      simpl. lra.
    + apply Qltb_ge in E2.
      destruct (Qltb (0.95 - cv * 0.35) 0.6) eqn:E3.
      { simpl. reflexivity. }
      apply Qltb_ge in E3.
      destruct (Qltb 0.95 (0.95 - cv * 0.35)) eqn:E4.
      { apply Qltb_lt in E4. lra. }
      simpl. lra.
  - apply Qltb_ge in E1. unfold Math_max. cbn [ltb].
    replace (Qltb 0.6 0.95) with true by reflexivity.
    destruct (Qltb (0.95 - cv * 0.35) 0.6) eqn:E3.
    { apply Qltb_lt in E3. lra. }
    destruct (Qltb 0.95 (0.95 - cv * 0.35)) eqn:E4.
    { simpl. reflexivity. }
    apply Qltb_ge in E4. simpl. lra.
Qed.

(** ** Confidence *)

Lemma calculateConfidence_eq_guarded data :
  eqN (calculateConfidence data) (confidence_guarded data).
Proof.
  unfold calculateConfidence, confidence_guarded.
  destruct (length data) as [|n] eqn:Hlen; [simpl; reflexivity|].
  replace (S n =? 0)%nat with false by reflexivity.
  replace (S n <? 1)%nat with false by reflexivity.
  destruct (S n <? 7)%nat; [simpl; reflexivity|].
  destruct (S n <? 30)%nat; [simpl; reflexivity|].
  assert (Hpos : (0 < length data)%nat) by lia.
  rewrite (mean_Qmean data Hpos), (varianceOf_Qvariance data Hpos).
  cbv zeta. unfold Math_sqrt.
  assert (Hv : Qltb (Qvariance data) 0 = false)
    by (apply Qltb_ge, Qvariance_nonneg, Hpos).
  rewrite Hv. unfold gtb. cbn [ltb].
  destruct (Qltb 0 (Qmean data)) eqn:Hm.
  - apply Qltb_lt in Hm. rewrite (div_pos _ _ Hm).
    destruct (Qle_bool (Qmean data) 0) eqn:Hle.
    + apply Qle_bool_iff in Hle. lra.
    + apply clampConfidence_clamp.
  - apply Qltb_ge in Hm.
    destruct (Qle_bool (Qmean data) 0) eqn:Hle.
    + apply clampConfidence_clamp.
    + apply Qle_bool_iff in Hm. congruence.
Qed.

Lemma confidence_guarded_between data :
  between 0.1 0.95 (confidence_guarded data).
Proof.
  unfold confidence_guarded, between.
  destruct (length data <? 1)%nat; [simpl; lra|].
  destruct (length data <? 7)%nat; [simpl; lra|].
  destruct (length data <? 30)%nat; [simpl; lra|].
  cbv zeta. simpl.
  match goal with |- _ <= clamp ?x _ _ <= _ =>
    pose proof (clamp_bounds x 0.6 0.95) as H end.
  lra.
Qed.

Lemma fin_sat_eqN (P : Q -> Prop) x y :
  (forall a b, a == b -> P a -> P b) -> eqN x y -> fin_sat P y -> fin_sat P x.
Proof.
  intros HP. destruct x, y; simpl; try tauto.
  intros E Hy. apply (HP q0); [symmetry; exact E | exact Hy].
Qed.

Lemma Qsum_nonneg_acc data a :
  Forall (fun p => 0 <= quantity p) data -> 0 <= a ->
  0 <= fold_left (fun acc p => acc + quantity p) data a.
Proof.
  intro H. revert a. induction H as [|p data Hp _ IH]; intros a Ha; simpl.
  - exact Ha.
  - apply IH. lra.
Qed.

Lemma Qmean_nonneg data :
  Forall (fun p => 0 <= quantity p) data -> (0 < length data)%nat ->
  0 <= Qmean data.
Proof.
  intros H Hlen. unfold Qmean. apply Qdiv_nonneg.
  - apply Qsum_nonneg_acc; [exact H | lra].
  - now apply inject_nat_pos.
Qed.

(** On the series of the data model (no negative quantity) the two guards
    agree. *)
Lemma confidence_claimed_guarded data :
  Forall (fun p => 0 <= quantity p) data ->
  confidence_claimed data = confidence_guarded data.
Proof.
  intro H. unfold confidence_claimed, confidence_guarded.
  destruct (length data <? 1)%nat eqn:E1; [reflexivity|].
  destruct (length data <? 7)%nat; [reflexivity|].
  destruct (length data <? 30)%nat; [reflexivity|].
  apply Nat.ltb_ge in E1.
  pose proof (Qmean_nonneg data H ltac:(lia)) as Hm.
  destruct (Qeq_bool (Qmean data) 0) eqn:Ee;
    destruct (Qle_bool (Qmean data) 0) eqn:El; try reflexivity.
  - apply Qeq_bool_iff in Ee. exfalso.
    assert (Qle_bool (Qmean data) 0 = true) by (apply Qle_bool_iff; lra).
    congruence.
  - apply Qle_bool_iff in El. exfalso.
    assert (Qeq_bool (Qmean data) 0 = true) by (apply Qeq_bool_iff; lra).
    congruence.
Qed.

(** C4, as the code has it: the confidence of every series lies in
    [0.1, 0.95]; it is 0.1 below one point, 0.4 below seven, 0.6 below
    thirty, and otherwise clamp(0.95 - CV*0.35, 0.6, 0.95) with
    CV = stddev/mean, where every mean that is not positive (zero or
    negative) is guarded to CV = 1. *)
Theorem calculateConfidence_guarded data :
  eqN (calculateConfidence data) (confidence_guarded data)
  /\ between 0.1 0.95 (calculateConfidence data).
Proof.
  split.
  - apply calculateConfidence_eq_guarded.
  - apply (fin_sat_eqN _ _ (confidence_guarded data)).
    + intros a b E Ha. rewrite <- E. exact Ha.
    + apply calculateConfidence_eq_guarded.
    + apply confidence_guarded_between.
Qed.

(** C4, as the claim words it, fails on a series of negative mean: thirty
    days of quantity -1 have mean -1 and deviation 0, the code answers 0.6
    (CV guarded to 1) and the claimed formula 0.95 (CV = 0 / -1). *)
Lemma calculateConfidence_not_claimed :
  calculateConfidence (constSeries 0 30 (-1)) = Fin 0.6
  /\ ~ eqN (calculateConfidence (constSeries 0 30 (-1)))
           (confidence_claimed (constSeries 0 30 (-1))).
Proof.
  split.
  - vm_compute. reflexivity.
  - vm_compute. discriminate.
Qed.

(** ** Finite results

    An invariant [P] of rationals that holds of 0 and 1 and is kept by sums
    and by quotients with a positive divisor is kept by the moving average
    and by the seasonal factor. *)

Section Invariant.
Variable P : Q -> Prop.
Hypothesis P_0 : P 0.
Hypothesis P_1 : P 1.
Hypothesis P_add : forall a b, P a -> P b -> P (a + b).
Hypothesis P_div : forall a b, P a -> 0 < b -> P (a / b).

Let good (data : list SalesDataPoint) : Prop :=
  Forall (fun p => P (quantity p)) data.

Lemma fold_add_sat (l : list number) (a : number) :
  Forall (fin_sat P) l -> fin_sat P a ->
  fin_sat P (fold_left (fun sum avg => add sum avg) l a).
Proof.
  intro H. revert a. induction H as [|x l Hx _ IH]; intros a Ha; simpl.
  - exact Ha.
  - apply IH. destruct a, x; simpl in *; try tauto. now apply P_add.
Qed.

Lemma Qsum_sat_acc data a :
  good data -> P a -> P (fold_left (fun acc p => acc + quantity p) data a).
Proof.
  intro H. revert a. induction H as [|p data Hp _ IH]; intros a Ha; simpl.
  - exact Ha.
  - apply IH. now apply P_add.
Qed.

Lemma sumQuantity_sat data : good data -> fin_sat P (sumQuantity data).
Proof.
  intro H. rewrite sumQuantity_Qsum. simpl. now apply Qsum_sat_acc.
Qed.

Lemma div_of_nat_sat x n :
  fin_sat P x -> (0 < n)%nat -> fin_sat P (div x (of_nat n)).
Proof.
  intros Hx Hn. destruct x; simpl in Hx; try tauto.
  rewrite (div_of_nat _ _ Hn). simpl. apply P_div; [exact Hx|].
  now apply inject_nat_pos.
Qed.

Lemma good_skipn n data : good data -> good (skipn n data).
Proof.
  unfold good. revert data. induction n as [|n IH]; intros data H; simpl.
  - exact H.
  - destruct data as [|p data]; [constructor|]. apply IH.
    now inversion H.
Qed.

Lemma good_firstn n data : good data -> good (firstn n data).
Proof.
  unfold good. revert data. induction n as [|n IH]; intros data H; simpl.
  - constructor.
  - destruct data as [|p data]; [constructor|].
    inversion H; subst. constructor; auto.
Qed.

Lemma calculateMovingAverage_sat data :
  good data -> fin_sat P (calculateMovingAverage data 7).
Proof.
  intro H. unfold calculateMovingAverage.
  destruct (length data =? 0)%nat eqn:E; [exact P_0|].
  apply Nat.eqb_neq in E. unfold slice_last. simpl (7 =? 0)%nat. cbv iota.
  apply div_of_nat_sat.
  - apply sumQuantity_sat, good_skipn, H.
  - rewrite length_skipn. lia.
Qed.

Lemma update_length {A} (l : list A) i v : length (update l i v) = length l.
Proof.
  revert i. induction l as [|h t IH]; intros [|i]; simpl; auto.
Qed.

Lemma update_Forall {A} (R : A -> Prop) (l : list A) i v :
  Forall R l -> ((i < length l)%nat -> R v) -> Forall R (update l i v).
Proof.
  intro H. revert i. induction H as [|h t Hh Ht IH]; intros [|i] Hv; simpl.
  - constructor.
  - constructor.
  - constructor; [apply Hv; simpl; lia | exact Ht].
  - constructor; [exact Hh|]. apply IH. intro Hi. apply Hv. simpl. lia.
Qed.

Lemma nth_sat (l : list number) i :
  Forall (fin_sat P) l -> (i < length l)%nat -> fin_sat P (nth i l NaN).
Proof.
  intros H Hi. rewrite Forall_forall in H. apply H. now apply nth_In.
Qed.

Lemma groupByDay_acc data totals counts :
  good data -> Forall (fin_sat P) totals ->
  let r := fold_left
    (fun (acc : list number * list nat) point =>
       let (dayTotals, dayCounts) := acc in
       let dayOfWeek := getDay (date point) in
       (update dayTotals dayOfWeek
          (add (nth dayOfWeek dayTotals NaN) (Fin (quantity point))),
        update dayCounts dayOfWeek (S (nth dayOfWeek dayCounts O))))
    data (totals, counts) in
  Forall (fin_sat P) (fst r)
  /\ length (fst r) = length totals /\ length (snd r) = length counts.
Proof.
  intro H. revert totals counts.
  induction H as [|p data Hp _ IH]; intros totals counts Ht; simpl.
  - auto.
  - match goal with |- context [fold_left ?f data (?t, ?c)] =>
      specialize (IH t c) end.
    rewrite !update_length in IH. apply IH.
    apply update_Forall; [exact Ht|]. intro Hi.
    pose proof (nth_sat totals _ Ht Hi) as Hn.
    destruct (nth (getDay (date p)) totals NaN); simpl in *; try tauto.
    now apply P_add.
Qed.

Lemma groupByDay_sat data :
  good data ->
  Forall (fin_sat P) (fst (groupByDay data))
  /\ length (fst (groupByDay data)) = 7%nat
  /\ length (snd (groupByDay data)) = 7%nat.
Proof.
  intro H. unfold groupByDay.
  apply (groupByDay_acc data (repeat (Fin 0) 7) (repeat O 7) H).
  repeat constructor; exact P_0.
Qed.

Lemma dayAveragesOf_sat totals counts :
  Forall (fin_sat P) totals ->
  Forall (fin_sat P) (dayAveragesOf totals counts).
Proof.
  intro H. unfold dayAveragesOf. apply Forall_map.
  rewrite Forall_forall. intros [total count] Hin.
  apply in_combine_l in Hin. rewrite Forall_forall in H.
  destruct (0 <? count)%nat eqn:E; [|exact P_0].
  apply Nat.ltb_lt in E. apply div_of_nat_sat; auto.
Qed.

Lemma dayAveragesOf_length totals counts :
  length (dayAveragesOf totals counts) = Nat.min (length totals) (length counts).
Proof.
  unfold dayAveragesOf. now rewrite length_map, length_combine.
Qed.

Lemma overallAvgOf_sat avgs :
  Forall (fin_sat P) avgs -> fin_sat P (overallAvgOf avgs).
Proof.
  intro H. unfold overallAvgOf.
  pose proof (fold_add_sat avgs (Fin 0) H P_0) as Hs.
  destruct (fold_left _ avgs (Fin 0)); simpl in Hs; try tauto.
  rewrite div_pos by reflexivity. simpl. apply P_div; [exact Hs | reflexivity].
Qed.

Lemma getDay_lt t : (getDay t < 7)%nat.
Proof.
  unfold getDay.
  pose proof (Z.mod_pos_bound (dayOf t + 4) 7 ltac:(lia)). lia.
Qed.

Lemma div_gtb_sat x y :
  fin_sat P x -> fin_sat P y ->
  fin_sat P (if gtb y (Fin 0) then div x y else Fin 1).
Proof.
  intros Hx Hy. destruct x, y; simpl in Hx, Hy; try tauto.
  unfold gtb. cbn [ltb]. destruct (Qltb 0 q0) eqn:E.
  - apply Qltb_lt in E. rewrite (div_pos _ _ E). simpl. now apply P_div.
  - simpl. exact P_1.
Qed.

Lemma calculateSeasonalFactor_sat data w :
  good data -> fin_sat P (fst (calculateSeasonalFactor data w)).
Proof.
  intro H. unfold calculateSeasonalFactor.
  destruct (length data <? 14)%nat; [exact P_1|].
  destruct (groupByDay_sat data H) as (Ht & Hlt & Hlc).
  destruct (groupByDay data) as [totals counts]. simpl in Ht, Hlt, Hlc.
  unfold bind, Date_now, ret. simpl.
  pose proof (dayAveragesOf_sat totals counts Ht) as Ha.
  apply div_gtb_sat.
  - apply nth_sat; [exact Ha|].
    rewrite dayAveragesOf_length, Hlt, Hlc. apply getDay_lt.
  - now apply overallAvgOf_sat.
Qed.
End Invariant.

(** ** The forecast of [predictStockNeeds] *)

Lemma predictStockNeeds_fields data currentStock leadTimeDays safetyStockDays w :
  let r := fst (predictStockNeeds data currentStock leadTimeDays safetyStockDays w) in
  seasonalFactor r = fst (calculateSeasonalFactor data w)
  /\ confidence r = calculateConfidence data
  /\ dailyAverageSales r =
       adjustedDailySalesOf (calculateMovingAverage data 7) (seasonalFactor r)
         (detectTrend data)
  /\ suggestedReorderQuantity r =
       Math_max
         (Math_ceil (mul (dailyAverageSales r) (add leadTimeDays safetyStockDays)))
         (Fin 10).
Proof.
  unfold predictStockNeeds, bind, Date_now, ret.
  destruct (calculateSeasonalFactor data w) as [sf w1]. simpl. auto.
Qed.

Lemma Forall_True {A} (l : list A) : Forall (fun _ => True) l.
Proof. induction l; constructor; auto. Qed.

Lemma calculateMovingAverage_finite data :
  finite (calculateMovingAverage data 7).
Proof.
  apply (calculateMovingAverage_sat (fun _ => True)); auto.
  apply Forall_True.
Qed.

Lemma calculateSeasonalFactor_finite data w :
  finite (fst (calculateSeasonalFactor data w)).
Proof.
  apply (calculateSeasonalFactor_sat (fun _ => True)); auto.
  apply Forall_True.
Qed.

Lemma calculateMovingAverage_nonneg data :
  Forall (fun p => 0 <= quantity p) data ->
  at_least 0 (calculateMovingAverage data 7).
Proof.
  apply (calculateMovingAverage_sat (fun q => 0 <= q)).
  - lra.
  - intros a b Ha Hb. lra.
  - intros a b Ha Hb. now apply Qdiv_nonneg.
Qed.

Lemma calculateSeasonalFactor_nonneg data w :
  Forall (fun p => 0 <= quantity p) data ->
  at_least 0 (fst (calculateSeasonalFactor data w)).
Proof.
  apply (calculateSeasonalFactor_sat (fun q => 0 <= q)).
  - lra.
  - lra.
  - intros a b Ha Hb. lra.
  - intros a b Ha Hb. now apply Qdiv_nonneg.
Qed.

Lemma trendFactorOf_pos trend : fin_sat (fun q => 0 < q) (trendFactorOf trend).
Proof. destruct trend; simpl; reflexivity. Qed.

Lemma adjustedDailySalesOf_finite m s trend :
  finite m -> finite s -> finite (adjustedDailySalesOf m s trend).
Proof.
  destruct m, s; simpl; try tauto. intros _ _.
  destruct trend; exact I.
Qed.

Lemma adjustedDailySalesOf_nonneg m s trend :
  at_least 0 m -> at_least 0 s -> at_least 0 (adjustedDailySalesOf m s trend).
Proof.
  destruct m as [a| | |], s as [b| | |]; simpl; try tauto. intros Ha Hb.
  pose proof (trendFactorOf_pos trend) as Ht.
  unfold adjustedDailySalesOf. cbn [mul].
  destruct (trendFactorOf trend) as [c| | |]; simpl in *; try tauto.
  apply Qmult_le_0_compat; [now apply Qmult_le_0_compat | lra].
Qed.

Lemma Math_max_10 x : finite x -> at_least 10 (Math_max x (Fin 10)).
Proof.
  destruct x as [a| | |]; simpl; try tauto. intros _.
  destruct (Qltb a 10) eqn:E; simpl.
  - lra.
  - now apply Qltb_ge in E.
Qed.

Lemma reorder_finite x (leadTimeDays safetyStockDays : Q) :
  finite x ->
  finite (Math_ceil (mul x (add (Fin leadTimeDays) (Fin safetyStockDays)))).
Proof.
  destruct x; simpl; try tauto.
Qed.

(** C5: whatever the series, the stock, the lead time and the safety-stock
    days, the suggested reorder quantity is a finite number and at least
    10. *)
Theorem suggestedReorderQuantity_at_least_10
    (data : list SalesDataPoint) (currentStock leadTimeDays safetyStockDays : Q)
    (w : World) :
  at_least 10
    (suggestedReorderQuantity
       (fst (predictStockNeeds data (Fin currentStock) (Fin leadTimeDays)
               (Fin safetyStockDays) w))).
Proof.
  destruct (predictStockNeeds_fields data (Fin currentStock) (Fin leadTimeDays)
              (Fin safetyStockDays) w) as (Hs & _ & Hd & Hq).
  rewrite Hq, Hd, Hs. apply Math_max_10, reorder_finite.
  apply adjustedDailySalesOf_finite.
  - apply calculateMovingAverage_finite.
  - apply calculateSeasonalFactor_finite.
Qed.

Lemma groupByDay_fold data :
  groupByDay data = fold_left groupStep data (repeat (Fin 0) 7, repeat O 7).
Proof. reflexivity. Qed.

Lemma nth_update_eq {A} (l : list A) i v d :
  (i < length l)%nat -> nth i (update l i v) d = v.
Proof.
  revert i. induction l as [|h t IH]; intros [|i] Hi; simpl in *; try lia.
  - reflexivity.
  - apply IH. lia.
Qed.

Lemma nth_update_neq {A} (l : list A) i j v d :
  i <> j -> nth j (update l i v) d = nth j l d.
Proof.
  revert i j. induction l as [|h t IH]; intros [|i] [|j] Hij; simpl;
    try reflexivity; try congruence.
  apply IH. congruence.
Qed.

Lemma zero_totals d :
  (d < 7)%nat -> nth d (fst (repeat (Fin 0) 7, repeat O 7)) NaN = Fin 0.
Proof.
  intro Hd. do 7 (destruct d as [|d]; [reflexivity|]). lia.
Qed.

Lemma groupsOk_init : groupsOk (repeat (Fin 0) 7, repeat O 7).
Proof.
  unfold groupsOk. simpl. repeat split.
  repeat constructor; simpl; discriminate.
Qed.

Lemma groupStep_ok acc p :
  0 <= quantity p -> groupsOk acc -> groupsOk (groupStep acc p).
Proof.
  destruct acc as [totals counts]. intros Hq (Hf & Hlt & Hlc).
  unfold groupsOk, groupStep. cbn [fst snd] in *.
  rewrite !update_length. repeat split; auto.
  apply update_Forall; [exact Hf|]. intro Hi.
  pose proof (nth_sat (fun q => 0 <= q) totals _ Hf Hi) as Hn.
  destruct (nth (getDay (date p)) totals NaN); simpl in *; try tauto. lra.
Qed.

Lemma fold_groupStep_ok data :
  Forall (fun p => 0 <= quantity p) data ->
  forall acc, groupsOk acc -> groupsOk (fold_left groupStep data acc).
Proof.
  induction 1 as [|p data Hp _ IH]; intros acc Hok; simpl.
  - exact Hok.
  - apply IH. now apply groupStep_ok.
Qed.

Lemma fold_groupStep_zero today data :
  (today < 7)%nat ->
  Forall (fun p => getDay (date p) = today -> quantity p == 0) data ->
  forall acc,
    length (fst acc) = 7%nat -> zeroAt today acc ->
    zeroAt today (fold_left groupStep data acc).
Proof.
  intros Ht. induction 1 as [|p data Hp _ IH]; intros acc Hl Hz; simpl.
  - exact Hz.
  - apply IH.
    + destruct acc as [totals counts]. unfold groupStep. cbn [fst] in *.
      now rewrite update_length.
    + destruct acc as [totals counts]. destruct Hz as (t & Hn & Hz).
      unfold zeroAt, groupStep. cbn [fst] in *.
      destruct (Nat.eq_dec (getDay (date p)) today) as [E|E].
      * rewrite E, nth_update_eq by lia. rewrite Hn. cbn [add].
        exists (t + quantity p). split; [reflexivity|].
        rewrite (Hp E), Hz. reflexivity.
      * rewrite nth_update_neq by exact E. exists t. auto.
Qed.

Lemma groupStep_positive_kept d acc p :
  0 <= quantity p -> groupsOk acc -> positiveAt d acc ->
  positiveAt d (groupStep acc p).
Proof.
  destruct acc as [totals counts].
  intros Hq (Hf & Hlt & Hlc) ((t & Hn & Ht) & Hc).
  unfold positiveAt, groupStep. cbn [fst snd] in *.
  destruct (Nat.eq_dec (getDay (date p)) d) as [E|E].
  - pose proof (getDay_lt (date p)) as Hd. rewrite E in *.
    rewrite !nth_update_eq by lia. rewrite Hn. cbn [add]. split; [|lia].
    exists (t + quantity p). split; [reflexivity | lra].
  - rewrite !nth_update_neq by exact E. split; [exists t; auto | exact Hc].
Qed.

Lemma fold_groupStep_positive_kept d data :
  Forall (fun p => 0 <= quantity p) data ->
  forall acc, groupsOk acc -> positiveAt d acc ->
              positiveAt d (fold_left groupStep data acc).
Proof.
  induction 1 as [|p data Hp _ IH]; intros acc Hok Hpos; simpl.
  - exact Hpos.
  - apply IH; [now apply groupStep_ok | now apply groupStep_positive_kept].
Qed.

Lemma groupStep_positive acc p :
  0 < quantity p -> groupsOk acc ->
  positiveAt (getDay (date p)) (groupStep acc p).
Proof.
  destruct acc as [totals counts]. intros Hq (Hf & Hlt & Hlc).
  unfold positiveAt, groupStep. cbn [fst snd] in *.
  pose proof (getDay_lt (date p)) as Hd.
  rewrite !nth_update_eq by lia. split; [|lia].
  pose proof (nth_sat (fun q => 0 <= q) totals (getDay (date p)) Hf
                ltac:(lia)) as Hn.
  destruct (nth (getDay (date p)) totals NaN) as [t| | |]; simpl in Hn;
    try tauto.
  exists (t + quantity p). split; [reflexivity | lra].
Qed.

Lemma fold_groupStep_positive d data :
  Forall (fun p => 0 <= quantity p) data ->
  Exists (fun p => getDay (date p) = d /\ 0 < quantity p) data ->
  forall acc, groupsOk acc -> positiveAt d (fold_left groupStep data acc).
Proof.
  intros Hall Hex. induction Hex as [p data [Hd Hq]|p data _ IH];
    intros acc Hok; simpl; inversion Hall as [|? ? Hp Hrest]; subst.
  - apply fold_groupStep_positive_kept; [exact Hrest | |].
    + now apply groupStep_ok.
    + now apply groupStep_positive.
  - apply IH; [exact Hrest | now apply groupStep_ok].
Qed.

Lemma nth_dayAveragesOf totals counts d :
  (d < length totals)%nat -> length counts = length totals ->
  nth d (dayAveragesOf totals counts) NaN
  = if (0 <? nth d counts O)%nat
    then div (nth d totals NaN) (of_nat (nth d counts O))
    else Fin 0.
Proof.
  intros Hd Hl. unfold dayAveragesOf.
  set (f := fun tc : number * nat =>
              let (total, count) := tc in
              if (0 <? count)%nat then div total (of_nat count) else Fin 0).
  rewrite (nth_indep _ NaN (f (NaN, O)))
    by (rewrite length_map, length_combine; lia).
  rewrite map_nth, combine_nth by lia. reflexivity.
Qed.

Lemma fold_add_positive l :
  Forall (at_least 0) l ->
  forall a, 0 <= a ->
            (0 < a \/ Exists (fin_sat (fun q => 0 < q)) l) ->
            fin_sat (fun q => 0 < q)
              (fold_left (fun sum avg => add sum avg) l (Fin a)).
Proof.
  induction 1 as [|x l Hx _ IH]; intros a Ha Hpos; simpl.
  - destruct Hpos as [Hpos|Hpos]; [exact Hpos | inversion Hpos].
  - destruct x as [b| | |]; simpl in Hx; try tauto. cbn [add].
    apply IH; [lra|]. destruct Hpos as [Hpos|Hpos]; [left; lra|].
    inversion Hpos as [? ? Hb|? ? Hl]; subst; [left; simpl in Hb; lra|].
    now right.
Qed.

Lemma dayAverage_positive d acc :
  groupsOk acc -> (d < 7)%nat -> positiveAt d acc ->
  fin_sat (fun q => 0 < q) (nth d (dayAveragesOf (fst acc) (snd acc)) NaN).
Proof.
  intros (Hf & Hlt & Hlc) Hd ((t & Hn & Ht) & Hc).
  rewrite nth_dayAveragesOf by lia. rewrite Hn.
  rewrite (proj2 (Nat.ltb_lt _ _) Hc), div_of_nat by exact Hc. simpl.
  apply Qlt_shift_div_l; [now apply inject_nat_pos | lra].
Qed.

Lemma overallAvg_positive d acc :
  groupsOk acc -> (d < 7)%nat -> positiveAt d acc ->
  fin_sat (fun q => 0 < q) (overallAvgOf (dayAveragesOf (fst acc) (snd acc))).
Proof.
  intros Hok Hd Hpos. pose proof Hok as (Hf & Hlt & Hlc).
  unfold overallAvgOf.
  pose proof (dayAveragesOf_sat (fun q => 0 <= q) (Qle_refl 0)
                (fun a b Ha Hb => Qdiv_nonneg a b Ha Hb)
                (fst acc) (snd acc) Hf) as Havg.
  assert (Hsum : fin_sat (fun q => 0 < q)
            (fold_left (fun sum avg => add sum avg)
               (dayAveragesOf (fst acc) (snd acc)) (Fin 0))).
  { apply fold_add_positive; [exact Havg | lra |]. right.
    apply Exists_exists.
    exists (nth d (dayAveragesOf (fst acc) (snd acc)) NaN). split.
    - apply nth_In. rewrite dayAveragesOf_length. lia.
    - now apply dayAverage_positive. }
  destruct (fold_left _ _ (Fin 0)) as [s| | |]; simpl in Hsum; try tauto.
  rewrite div_pos by reflexivity. simpl.
  apply Qlt_shift_div_l; [reflexivity | lra].
Qed.

Lemma calculateSeasonalFactor_at data w :
  fst (calculateSeasonalFactor data w)
  = if (length data <? 14)%nat then Fin 1
    else
      let acc := groupByDay data in
      let dayAverages := dayAveragesOf (fst acc) (snd acc) in
      let overallAvg := overallAvgOf dayAverages in
      if gtb overallAvg (Fin 0)
      then div (nth (getDay (clock w (tick w))) dayAverages NaN) overallAvg
      else Fin 1.
Proof.
  unfold calculateSeasonalFactor.
  destruct (length data <? 14)%nat; [reflexivity|].
  destruct (groupByDay data) as [totals counts]. reflexivity.
Qed.

(** The seasonal factor of a series of at least fourteen points, none
    negative: zero when something was sold but nothing on today's day of
    the week, positive when something was sold on it. *)
Lemma calculateSeasonalFactor_cases data w :
  Forall (fun p => 0 <= quantity p) data ->
  (14 <= length data)%nat ->
  let today := getDay (clock w (tick w)) in
  (Exists (fun p => 0 < quantity p) data ->
   Forall (fun p => getDay (date p) = today -> quantity p == 0) data ->
   eqN (fst (calculateSeasonalFactor data w)) (Fin 0))
  /\ (Exists (fun p => getDay (date p) = today /\ 0 < quantity p) data ->
      fin_sat (fun q => 0 < q) (fst (calculateSeasonalFactor data w))).
Proof.
  intros Hall Hlen today.
  rewrite calculateSeasonalFactor_at.
  replace (length data <? 14)%nat with false
    by (symmetry; apply Nat.ltb_ge; exact Hlen).
  cbv zeta. fold today. rewrite groupByDay_fold.
  set (acc := fold_left groupStep data (repeat (Fin 0) 7, repeat O 7)).
  assert (Hok : groupsOk acc)
    by (apply fold_groupStep_ok; [exact Hall | apply groupsOk_init]).
  assert (Htoday : (today < 7)%nat) by apply getDay_lt.
  split.
  - intros Hsome Hnone.
    apply Exists_exists in Hsome. destruct Hsome as (p & Hin & Hq).
    assert (Hpos : positiveAt (getDay (date p)) acc).
    { apply fold_groupStep_positive; [exact Hall | | apply groupsOk_init].
      apply Exists_exists. exists p. auto. }
    pose proof (overallAvg_positive _ acc Hok (getDay_lt (date p)) Hpos) as Ho.
    destruct (overallAvgOf (dayAveragesOf (fst acc) (snd acc))) as [o| | |];
      simpl in Ho; try tauto.
    unfold gtb. cbn [ltb]. rewrite (proj2 (Qltb_lt 0 o) Ho).
    assert (Hz : zeroAt today acc).
    { apply fold_groupStep_zero; auto.
      exists 0. split; [|reflexivity].
      now apply zero_totals. }
    destruct Hok as (Hf & Hlt & Hlc). destruct Hz as (t & Hn & Hz).
    rewrite nth_dayAveragesOf by lia. rewrite Hn.
    destruct (0 <? nth today (snd acc) 0)%nat eqn:Ec.
    + apply Nat.ltb_lt in Ec. rewrite div_of_nat by exact Ec.
      rewrite (div_pos _ _ Ho). simpl. rewrite Hz.
      unfold Qdiv. ring.
    + rewrite (div_pos _ _ Ho). simpl. unfold Qdiv. ring.
  - intro Hsale.
    assert (Hpos : positiveAt today acc)
      by (apply fold_groupStep_positive;
          [exact Hall | exact Hsale | apply groupsOk_init]).
    pose proof (overallAvg_positive _ acc Hok Htoday Hpos) as Ho.
    pose proof (dayAverage_positive _ acc Hok Htoday Hpos) as Ha.
    destruct (overallAvgOf (dayAveragesOf (fst acc) (snd acc))) as [o| | |];
      simpl in Ho; try tauto.
    destruct (nth today (dayAveragesOf (fst acc) (snd acc)) NaN) as [a| | |];
      simpl in Ha; try tauto.
    unfold gtb. cbn [ltb]. rewrite (proj2 (Qltb_lt 0 o) Ho).
    rewrite (div_pos _ _ Ho). simpl.
    apply Qlt_shift_div_l; [exact Ho | lra].
Qed.

Lemma calculateSeasonalFactor_idle data w :
  (14 <= length data)%nat ->
  Forall (fun p => quantity p == 0) data ->
  fst (calculateSeasonalFactor data w) = Fin 1.
Proof.
  intros Hlen Hall. rewrite calculateSeasonalFactor_at.
  replace (length data <? 14)%nat with false
    by (symmetry; apply Nat.ltb_ge; exact Hlen).
  cbv zeta.
  assert (Z0 : (fun q : Q => q == 0) 0) by reflexivity.
  assert (Zadd : forall a b : Q, a == 0 -> b == 0 -> a + b == 0)
    by (intros a b Ha Hb; rewrite Ha, Hb; reflexivity).
  assert (Zdiv : forall a b : Q, a == 0 -> 0 < b -> a / b == 0)
    by (intros a b Ha _; rewrite Ha; unfold Qdiv; ring).
  destruct (groupByDay_sat (fun q => q == 0) Z0 Zadd data Hall) as (Ht & _).
  pose proof (dayAveragesOf_sat (fun q => q == 0) Z0 Zdiv _
                (snd (groupByDay data)) Ht) as Ha.
  pose proof (overallAvgOf_sat (fun q => q == 0) Z0 Zadd Zdiv _ Ha) as Ho.
  destruct (overallAvgOf _) as [o| | |]; simpl in Ho; try tauto.
  unfold gtb. cbn [ltb].
  replace (Qltb 0 o) with false; [reflexivity|].
  symmetry. apply Qltb_ge. rewrite Ho. apply Qle_refl.
Qed.

(** C6, as the code has it: on a series without negative quantities the
    seasonal factor of the forecast is a finite number and not negative; it
    is 1 below fourteen points; from fourteen points on it is 1 when
    nothing was sold at all, 0 when something was sold but nothing on
    today's day of the week, and strictly positive when something was sold
    on today's day of the week (today being the day of the clock
    reading). *)
Theorem seasonalFactor_nonneg
    (data : list SalesDataPoint) (currentStock leadTimeDays safetyStockDays : number)
    (w : World) :
  Forall (fun p => 0 <= quantity p) data ->
  let today := getDay (clock w (tick w)) in
  let factor :=
    seasonalFactor
      (fst (predictStockNeeds data currentStock leadTimeDays safetyStockDays w)) in
  at_least 0 factor
  /\ ((length data < 14)%nat -> factor = Fin 1)
  /\ ((14 <= length data)%nat ->
      Forall (fun p => quantity p == 0) data -> factor = Fin 1)
  /\ ((14 <= length data)%nat ->
      Exists (fun p => 0 < quantity p) data ->
      Forall (fun p => getDay (date p) = today -> quantity p == 0) data ->
      eqN factor (Fin 0))
  /\ ((14 <= length data)%nat ->
      Exists (fun p => getDay (date p) = today /\ 0 < quantity p) data ->
      fin_sat (fun q => 0 < q) factor).
Proof.
  intros H today factor. subst factor.
  destruct (predictStockNeeds_fields data currentStock leadTimeDays
              safetyStockDays w) as (Hs & _).
  rewrite Hs. split; [now apply calculateSeasonalFactor_nonneg|].
  split; [|split; [|split]].
  - intro Hlen. rewrite calculateSeasonalFactor_at.
    now rewrite (proj2 (Nat.ltb_lt _ _) Hlen).
  - apply calculateSeasonalFactor_idle.
  - intro Hlen. now apply (calculateSeasonalFactor_cases data w H Hlen).
  - intro Hlen. now apply (calculateSeasonalFactor_cases data w H Hlen).
Qed.

Lemma seasonalFactor_nonneg_witness :
  let today := getDay (clock (pinnedWorld (14 * msPerDay))
                         (tick (pinnedWorld (14 * msPerDay)))) in
  let factor :=
    seasonalFactor
      (fst (predictStockNeeds closedOnThursdays (Fin 5) (Fin 7) (Fin 3)
              (pinnedWorld (14 * msPerDay)))) in
  at_least 0 factor
  /\ ((length closedOnThursdays < 14)%nat -> factor = Fin 1)
  /\ ((14 <= length closedOnThursdays)%nat ->
      Forall (fun p => quantity p == 0) closedOnThursdays -> factor = Fin 1)
  /\ ((14 <= length closedOnThursdays)%nat ->
      Exists (fun p => 0 < quantity p) closedOnThursdays ->
      Forall (fun p => getDay (date p) = today -> quantity p == 0)
        closedOnThursdays ->
      eqN factor (Fin 0))
  /\ ((14 <= length closedOnThursdays)%nat ->
      Exists (fun p => getDay (date p) = today /\ 0 < quantity p)
        closedOnThursdays ->
      fin_sat (fun q => 0 < q) factor).
Proof.
  apply (seasonalFactor_nonneg closedOnThursdays).
  unfold closedOnThursdays. simpl.
  repeat constructor; simpl; discriminate.
Defined.

(** C6, as the claim words it, fails: read on a Thursday, the series
    [closedOnThursdays] has no negative quantity and its seasonal factor
    is zero (the Thursday average 0 over the overall average 6/7). *)
Lemma seasonalFactor_zero :
  Forall (fun p => 0 <= quantity p) closedOnThursdays
  /\ eqN (seasonalFactor
            (fst (predictStockNeeds closedOnThursdays (Fin 5) (Fin 7) (Fin 3)
                    (pinnedWorld (14 * msPerDay)))))
         (Fin 0)
  /\ ~ fin_sat (fun q => 0 < q)
         (seasonalFactor
            (fst (predictStockNeeds closedOnThursdays (Fin 5) (Fin 7) (Fin 3)
                    (pinnedWorld (14 * msPerDay))))).
Proof.
  split; [|split].
  - unfold closedOnThursdays. simpl. repeat constructor; simpl; discriminate.
  - vm_compute. reflexivity.
  - vm_compute. discriminate.
Qed.

(** C1: [detectTrend] divides by the mean of the first half without a
    guard.  On seven days without a sale the relative change is 0/0, NaN;
    on [idleThenSelling] it is 1/0, an infinity, and the trend is then
    "increasing". *)
Theorem detectTrend_divides_by_zero :
  trendChange (constSeries 0 7 0) = NaN
  /\ detectTrend (constSeries 0 7 0) = stable
  /\ trendChange idleThenSelling = PosInf
  /\ detectTrend idleThenSelling = increasing.
Proof. vm_compute. repeat split. Qed.

(** The results of C1 that hold: on a series without negative quantities,
    every numeric field of the forecast is a finite number, none is
    negative, and the empty series is forecast like any other. *)
Theorem predictStockNeeds_numeric_fields
    (data : list SalesDataPoint) (currentStock leadTimeDays safetyStockDays : Q)
    (w : World) :
  Forall (fun p => 0 <= quantity p) data ->
  let r := fst (predictStockNeeds data (Fin currentStock) (Fin leadTimeDays)
                  (Fin safetyStockDays) w) in
  at_least 10 (suggestedReorderQuantity r)
  /\ between 0.1 0.95 (confidence r)
  /\ at_least 0 (dailyAverageSales r)
  /\ at_least 0 (seasonalFactor r).
Proof.
  intros H r. subst r.
  destruct (predictStockNeeds_fields data (Fin currentStock) (Fin leadTimeDays)
              (Fin safetyStockDays) w) as (Hs & Hc & Hd & Hq).
  split; [|split; [|split]].
  - rewrite Hq, Hd, Hs. apply Math_max_10, reorder_finite.
    apply adjustedDailySalesOf_finite.
    + apply calculateMovingAverage_finite.
    + apply calculateSeasonalFactor_finite.
  - rewrite Hc. apply (fin_sat_eqN _ _ (confidence_guarded data)).
    + intros a b E Ha. rewrite <- E. exact Ha.
    + apply calculateConfidence_eq_guarded.
    + apply confidence_guarded_between.
  - rewrite Hd, Hs. apply adjustedDailySalesOf_nonneg.
    + now apply calculateMovingAverage_nonneg.
    + now apply calculateSeasonalFactor_nonneg.
  - rewrite Hs. now apply calculateSeasonalFactor_nonneg.
Qed.

(** ** The batch: [getRestockRecommendations] *)

Lemma forecastEach_daysAhead supabase userId d1 d2 products :
  forall forecasts w,
    forecastEach supabase userId d1 products forecasts w
    = forecastEach supabase userId d2 products forecasts w.
Proof.
  induction products as [|product rest IH]; intros forecasts w; simpl.
  - reflexivity.
  - unfold bind.
    change (predictSingleProduct supabase userId (p_id product) d2 w)
      with (predictSingleProduct supabase userId (p_id product) d1 w).
    destruct (predictSingleProduct supabase userId (p_id product) d1 w)
      as [[forecast|e] w'].
    + apply IH.
    + apply IH.
Qed.

(** C10: two calls that differ only in [timePeriod] return the same
    completion (and leave the clock at the same reading): the horizon
    derived from it is handed to [predictSingleProduct], which never reads
    it, and the sales history is always requested for 30 days. *)
Theorem getRestockRecommendations_timePeriod
    (supabase : Supabase) (userId : string)
    (includeAll onlyLow : option bool) (period1 period2 : option TimePeriod)
    (w : World) :
  getRestockRecommendations supabase userId
    (mkOptions includeAll onlyLow period1) w
  = getRestockRecommendations supabase userId
      (mkOptions includeAll onlyLow period2) w.
Proof.
  unfold getRestockRecommendations. cbn [timePeriod onlyLowStock].
  destruct (error (select (products supabase) _)); [reflexivity|].
  match goal with |- context [match ?ps with None => _ | Some _ => _ end] =>
    destruct ps as [[|product rest]|] end; try reflexivity.
  unfold bind.
  destruct period1 as [[|]|], period2 as [[|]|]; cbv iota beta;
    try reflexivity;
    first [ rewrite (forecastEach_daysAhead supabase userId (Fin 7) (Fin 30));
            reflexivity
          | rewrite (forecastEach_daysAhead supabase userId (Fin 30) (Fin 7));
            reflexivity ].
Qed.

Lemma forecastEach_outcomes supabase userId daysAhead products :
  forall forecasts w,
    fst (forecastEach supabase userId daysAhead products forecasts w)
    = forecasts ++ successes (outcomes supabase userId daysAhead products w).
Proof.
  induction products as [|product rest IH]; intros forecasts w; simpl.
  - now rewrite app_nil_r.
  - unfold bind.
    destruct (predictSingleProduct supabase userId (p_id product) daysAhead w)
      as [[forecast|e] w']; simpl.
    + rewrite IH, <- app_assoc. reflexivity.
    + apply IH.
Qed.

Lemma outcomes_length supabase userId daysAhead products :
  forall w,
    length (outcomes supabase userId daysAhead products w) = length products.
Proof.
  induction products as [|product rest IH]; intro w; simpl.
  - reflexivity.
  - destruct (predictSingleProduct supabase userId (p_id product) daysAhead w).
    simpl. now rewrite IH.
Qed.


Lemma successes_In os f :
  In f (successes os) <-> exists product, In (product, Return f) os.
Proof.
  induction os as [|[product [g|e]] rest IH]; simpl.
  - split; [tauto | intros [? []]].
  - rewrite IH. split.
    + intros [->|[q Hq]]; [exists product; auto | exists q; auto].
    + intros [q [Hq|Hq]]; [left; congruence | right; exists q; exact Hq].
  - rewrite IH. split.
    + intros [q Hq]. exists q. auto.
    + intros [q [Hq|Hq]]; [discriminate | exists q; exact Hq].
Qed.

Lemma getRestockRecommendations_fetched supabase userId options rows w :
  products supabase = Rows rows ->
  fst (getRestockRecommendations supabase userId options w)
  = Return
      (Array_sort byUrgency
         (successes
            (outcomes supabase userId (daysAheadOf options)
               (catalog rows userId options) w))).
Proof.
  intro Hrows. unfold getRestockRecommendations, catalog, daysAheadOf.
  rewrite Hrows. cbn [select error data].
  assert (Hd : match match timePeriod options with Some t => t | None => week end with
               | week => Fin 7 | month => Fin 30 end
               = match timePeriod options with Some month => Fin 30 | _ => Fin 7 end)
    by (destruct (timePeriod options) as [[|]|]; reflexivity).
  rewrite Hd. clear Hd.
  set (mine := filter (fun p => String.eqb (p_user_id p) userId) rows).
  destruct (onlyLowStock options) as [[|]|].
  - destruct (filter _ mine) as [|product rest] eqn:E; [reflexivity|].
    unfold bind.
    match goal with |- context [forecastEach ?s ?u ?d ?ps ?acc ?w0] =>
      pose proof (forecastEach_outcomes s u d ps acc w0) as H;
      destruct (forecastEach s u d ps acc w0) as [fs w'] end.
    simpl in H. simpl. rewrite H. reflexivity.
  - destruct mine as [|product rest] eqn:E; [reflexivity|].
    unfold bind.
    match goal with |- context [forecastEach ?s ?u ?d ?ps ?acc ?w0] =>
      pose proof (forecastEach_outcomes s u d ps acc w0) as H;
      destruct (forecastEach s u d ps acc w0) as [fs w'] end.
    simpl in H. simpl. rewrite H. reflexivity.
  - destruct mine as [|product rest] eqn:E; [reflexivity|].
    unfold bind.
    match goal with |- context [forecastEach ?s ?u ?d ?ps ?acc ?w0] =>
      pose proof (forecastEach_outcomes s u d ps acc w0) as H;
      destruct (forecastEach s u d ps acc w0) as [fs w'] end.
    simpl in H. simpl. rewrite H. reflexivity.
Qed.

(** ** The sort *)

Section StableSort.
Context {A : Type} (le : A -> A -> bool).

Lemma insert_perm x l : Permutation (insert le x l) (x :: l).
Proof.
  induction l as [|y t IH]; simpl.
  - reflexivity.
  - destruct (le x y).
    + reflexivity.
    + rewrite IH. apply perm_swap.
Qed.

Lemma stable_sort_perm l : Permutation (stable_sort le l) l.
Proof.
  induction l as [|x t IH]; simpl.
  - reflexivity.
  - rewrite insert_perm. now apply perm_skip.
Qed.

(** [x] passes every element it may not precede... *)
Lemma insert_skip x l1 l2 :
  Forall (fun a => le x a = false) l1 ->
  insert le x (l1 ++ l2) = l1 ++ insert le x l2.
Proof.
  induction 1 as [|a l1 Ha _ IH]; simpl.
  - reflexivity.
  - now rewrite Ha, IH.
Qed.

(** ... and stops before the first one it may precede. *)
Lemma insert_front x l :
  Forall (fun b => le x b = true) l -> insert le x l = x :: l.
Proof.
  destruct 1 as [|b l Hb _]; simpl.
  - reflexivity.
  - now rewrite Hb.
Qed.
End StableSort.

Lemma ofUrgency_same u f l :
  urgency f = u -> ofUrgency u (f :: l) = f :: ofUrgency u l.
Proof.
  intros <-. unfold ofUrgency. simpl. unfold Urgency_eqb.
  now rewrite Z.eqb_refl.
Qed.

Lemma ofUrgency_other u f l :
  urgency f <> u -> ofUrgency u (f :: l) = ofUrgency u l.
Proof.
  intro H. unfold ofUrgency. simpl. unfold Urgency_eqb.
  destruct (urgency f), u; simpl; try reflexivity; congruence.
Qed.

Lemma ofUrgency_le u f l :
  Forall (fun a => (byUrgency f a <=? 0)%Z
                   = (urgencyOrder (urgency f) <=? urgencyOrder u)%Z)
    (ofUrgency u l).
Proof.
  apply Forall_forall. intros a Ha. unfold ofUrgency in Ha.
  apply filter_In in Ha. destruct Ha as [_ Ha]. unfold Urgency_eqb in Ha.
  apply Z.eqb_eq in Ha. unfold byUrgency. rewrite Ha.
  destruct (urgencyOrder (urgency f) <=? urgencyOrder u)%Z eqn:E.
  - apply Z.leb_le. apply Z.leb_le in E. lia.
  - apply Z.leb_gt. apply Z.leb_gt in E. lia.
Qed.

(** The sort by urgency keeps, within each urgency, the order of the
    array. *)
Lemma Array_sort_byUrgency l :
  Array_sort byUrgency l
  = ofUrgency critical l ++ ofUrgency high l
    ++ ofUrgency medium l ++ ofUrgency low l.
Proof.
  unfold Array_sort, stable_sort. induction l as [|f l IH]; [reflexivity|].
  cbn [fold_right]. rewrite IH. clear IH.
  destruct (urgency f) eqn:U.
  - rewrite (ofUrgency_same critical), !ofUrgency_other by congruence.
    apply insert_front. repeat rewrite Forall_app. repeat split.
    all: eapply Forall_impl; [|apply (ofUrgency_le _ f)];
      cbv beta; intros a ->; rewrite U; reflexivity.
  - rewrite (ofUrgency_same high), !ofUrgency_other by congruence.
    rewrite insert_skip.
    2:{ eapply Forall_impl; [|apply (ofUrgency_le _ f)].
        cbv beta; intros a ->; rewrite U; reflexivity. }
    f_equal. apply insert_front. repeat rewrite Forall_app. repeat split.
    all: eapply Forall_impl; [|apply (ofUrgency_le _ f)];
      cbv beta; intros a ->; rewrite U; reflexivity.
  - rewrite (ofUrgency_same medium), !ofUrgency_other by congruence.
    rewrite insert_skip.
    2:{ eapply Forall_impl; [|apply (ofUrgency_le _ f)].
        cbv beta; intros a ->; rewrite U; reflexivity. }
    f_equal. rewrite insert_skip.
    2:{ eapply Forall_impl; [|apply (ofUrgency_le _ f)].
        cbv beta; intros a ->; rewrite U; reflexivity. }
    f_equal. apply insert_front. repeat rewrite Forall_app. repeat split.
    all: eapply Forall_impl; [|apply (ofUrgency_le _ f)];
      cbv beta; intros a ->; rewrite U; reflexivity.
  - rewrite (ofUrgency_same low), !ofUrgency_other by congruence.
    rewrite insert_skip.
    2:{ eapply Forall_impl; [|apply (ofUrgency_le _ f)].
        cbv beta; intros a ->; rewrite U; reflexivity. }
    f_equal. rewrite insert_skip.
    2:{ eapply Forall_impl; [|apply (ofUrgency_le _ f)].
        cbv beta; intros a ->; rewrite U; reflexivity. }
    f_equal. rewrite insert_skip.
    2:{ eapply Forall_impl; [|apply (ofUrgency_le _ f)].
        cbv beta; intros a ->; rewrite U; reflexivity. }
    f_equal. apply insert_front.
    eapply Forall_impl; [|apply (ofUrgency_le _ f)];
      cbv beta; intros a ->; rewrite U; reflexivity.
Qed.

Lemma StronglySorted_app {A} (R : A -> A -> Prop) l1 l2 :
  StronglySorted R l1 -> StronglySorted R l2 ->
  (forall a b, In a l1 -> In b l2 -> R a b) ->
  StronglySorted R (l1 ++ l2).
Proof.
  induction 1 as [|a l1 Hs IH Ha]; intros H2 Hc; simpl.
  - exact H2.
  - constructor.
    + apply IH; [exact H2|]. intros x y Hx Hy. apply Hc; simpl; auto.
    + apply Forall_app. split; [exact Ha|].
      apply Forall_forall. intros y Hy. apply Hc; simpl; auto.
Qed.

Lemma ofUrgency_In u l f : In f (ofUrgency u l) -> urgency f = u.
Proof.
  unfold ofUrgency. intro H. apply filter_In in H. destruct H as [_ H].
  unfold Urgency_eqb in H. apply Z.eqb_eq in H.
  destruct (urgency f), u; simpl in H; try reflexivity; discriminate.
Qed.

Lemma ofUrgency_sorted u l : StronglySorted rank_le (ofUrgency u l).
Proof.
  assert (H : forall f, In f (ofUrgency u l) -> urgency f = u)
    by apply ofUrgency_In.
  induction (ofUrgency u l) as [|a t IH]; constructor.
  - apply IH. intros f Hf. apply H. simpl. auto.
  - apply Forall_forall. intros b Hb. unfold rank_le.
    rewrite (H a), (H b) by (simpl; auto). lia.
Qed.

Lemma buckets_sorted l :
  StronglySorted rank_le
    (ofUrgency critical l ++ ofUrgency high l
     ++ ofUrgency medium l ++ ofUrgency low l).
Proof.
  repeat apply StronglySorted_app; try apply ofUrgency_sorted.
  all: intros a b Ha Hb; unfold rank_le;
    repeat (apply in_app_or in Hb; destruct Hb as [Hb|Hb]);
    apply ofUrgency_In in Ha; apply ofUrgency_In in Hb;
    rewrite Ha, Hb; simpl; lia.
Qed.


(** C3, as the code has it: the returned list is sorted by urgency rank,
    and forecasts of equal urgency keep the order of the catalog (the
    order in which their products were fetched). *)
Theorem getRestockRecommendations_order
    (supabase : Supabase) (userId : string) (options : Options)
    (rows : list ProductRow) (w : World) :
  products supabase = Rows rows ->
  let fs := successes (outcomes supabase userId (daysAheadOf options)
                         (catalog rows userId options) w) in
  exists l,
    fst (getRestockRecommendations supabase userId options w) = Return l
    /\ StronglySorted rank_le l
    /\ l = ofUrgency critical fs ++ ofUrgency high fs
           ++ ofUrgency medium fs ++ ofUrgency low fs.
Proof.
  intros Hrows fs. exists (Array_sort byUrgency fs).
  split; [now apply getRestockRecommendations_fetched|].
  rewrite Array_sort_byUrgency. split; [apply buckets_sorted | reflexivity].
Qed.


(** In [shop] the forecast of [b] throws (its runout date is out of
    range); the batch returns the forecasts of [a] and [c]. *)
Example shop_batch :
  map (fun o => match snd o with Return _ => true | Throw _ => false end)
    (outcomes shop "u" (Fin 7)
       [mkProduct "a" "u" "Atta" 50 5;
        mkProduct "b" "u" "Bolts" 1000000000 5;
        mkProduct "c" "u" "Chalk" 20 5] day30)
  = [true; false; true]
  /\ match fst (getRestockRecommendations shop "u" noOptions day30) with
     | Return l => map product_id l = ["a"; "c"]%string
     | Throw _ => False
     end.
Proof. vm_compute. split; reflexivity. Qed.

Lemma getRestockRecommendations_order_witness :
  let fs := successes (outcomes shop "v" (daysAheadOf noOptions)
                         (catalog [mkProduct "a" "u" "Atta" 50 5;
                                   mkProduct "b" "u" "Bolts" 1000000000 5;
                                   mkProduct "c" "u" "Chalk" 20 5;
                                   mkProduct "x" "v" "Oil" 30 5;
                                   mkProduct "y" "v" "Salt" 10 5] "v" noOptions)
                         day30) in
  exists l,
    fst (getRestockRecommendations shop "v" noOptions day30) = Return l
    /\ StronglySorted rank_le l
    /\ l = ofUrgency critical fs ++ ofUrgency high fs
           ++ ofUrgency medium fs ++ ofUrgency low fs.
Proof.
  exact (getRestockRecommendations_order shop "v" noOptions _ day30 eq_refl).
Defined.

(** C3, as the claim words it, fails: the products [x] and [y] of user [v]
    are both critical, [x] runs out in 3 days and [y] in 1, and the list
    keeps [x] before [y]. *)
Lemma getRestockRecommendations_ties_unordered :
  exists x y,
    fst (getRestockRecommendations shop "v" noOptions day30) = Return [x; y]
    /\ urgency x = critical /\ urgency y = critical
    /\ days_until_runout x = Fin 3 /\ days_until_runout y = Fin 1
    /\ ~ StronglySorted claimed_before [x; y].
Proof.
  eexists. eexists. split; [vm_compute; reflexivity|].
  repeat split.
  intro H. apply StronglySorted_inv in H. destruct H as [_ H].
  apply Forall_inv in H. destruct H as [H|[_ H]].
  - vm_compute in H. discriminate.
  - vm_compute in H. discriminate.
Qed.

(** ** The forecast at a pinned clock

    With the clock pinned, [predictStockNeeds] is the pure function
    [predict] of the series, the stock, the policy and the reference
    time. *)

Lemma calculateSeasonalFactor_pinned data now w :
  pinned now w ->
  fst (calculateSeasonalFactor data w) = seasonalFactorAt data now
  /\ clock (snd (calculateSeasonalFactor data w)) = clock w.
Proof.
  intro Hp. unfold calculateSeasonalFactor, seasonalFactorAt.
  destruct (length data <? 14)%nat; [split; reflexivity|].
  destruct (groupByDay data) as [totals counts].
  unfold bind, Date_now, ret. simpl. rewrite (Hp (tick w)). split; reflexivity.
Qed.

Lemma predictStockNeeds_pinned data currentStock leadTimeDays safetyStockDays now w :
  pinned now w ->
  fst (predictStockNeeds data currentStock leadTimeDays safetyStockDays w)
  = predict data currentStock leadTimeDays safetyStockDays now
  /\ clock (snd (predictStockNeeds data currentStock leadTimeDays
                   safetyStockDays w)) = clock w.
Proof.
  intro Hp. unfold predictStockNeeds, bind.
  destruct (calculateSeasonalFactor_pinned data now w Hp) as [Hs Hc].
  destruct (calculateSeasonalFactor data w) as [sf w1]. simpl in Hs, Hc.
  subst sf. unfold Date_now, ret. simpl. rewrite Hc, (Hp (tick w1)).
  split; reflexivity.
Qed.

Lemma getSalesHistory_clock supabase userId productId days w :
  clock (snd (getSalesHistory supabase userId productId days w)) = clock w.
Proof.
  unfold getSalesHistory, bind, Date_now, ret.
  destruct (toISOString _); [|reflexivity].
  destruct (option_map _ _) as [[|row rows]|]; reflexivity.
Qed.

Lemma predictSingleProduct_anatomy supabase userId productId daysAhead w product :
  findProduct supabase userId productId = mkResponse (Some product) None ->
  predictSingleProduct supabase userId productId daysAhead w
  = let (h, w1) := getSalesHistory supabase userId productId 30 w in
    match h with
    | Throw e => (Throw e, w1)
    | Return salesHistory =>
        let rule := findReorderRule supabase userId productId in
        let (forecast, w2) :=
          predictStockNeeds salesHistory (Fin (p_quantity product))
            (leadTimeDaysOf rule) (safetyStockDaysOf rule) w1 in
        (emit product forecast (leadTimeDaysOf rule) (clock w2 (tick w2)),
         mkWorld (clock w2) (S (tick w2)))
    end.
Proof.
  intro Hf. unfold predictSingleProduct. rewrite Hf. cbn [error data].
  unfold bindC, bind.
  destruct (getSalesHistory supabase userId productId 30 w) as [[series|e] w1];
    [|reflexivity].
  destruct (predictStockNeeds series _ _ _ w1) as [forecast w2].
  unfold Date_now, emit, ret.
  destruct (toISOString (predictedRunoutDate forecast)); reflexivity.
Qed.

(** The forecast of a found product at a pinned clock. *)
Lemma predictSingleProduct_pinned supabase userId productId daysAhead w now
    product salesHistory :
  findProduct supabase userId productId = mkResponse (Some product) None ->
  fst (getSalesHistory supabase userId productId 30 w) = Return salesHistory ->
  pinned now w ->
  let rule := findReorderRule supabase userId productId in
  fst (predictSingleProduct supabase userId productId daysAhead w)
  = emit product
      (predict salesHistory (Fin (p_quantity product))
         (leadTimeDaysOf rule) (safetyStockDaysOf rule) now)
      (leadTimeDaysOf rule) now.
Proof.
  intros Hf Hh Hp rule. subst rule.
  rewrite (predictSingleProduct_anatomy _ _ _ _ _ _ Hf).
  pose proof (getSalesHistory_clock supabase userId productId 30 w) as Hc.
  destruct (getSalesHistory supabase userId productId 30 w) as [h w1].
  simpl in Hh, Hc. subst h. cbv zeta.
  assert (Hp1 : pinned now w1) by (intro n; rewrite Hc; apply Hp).
  set (rule := findReorderRule supabase userId productId).
  destruct (predictStockNeeds_pinned salesHistory (Fin (p_quantity product))
              (leadTimeDaysOf rule) (safetyStockDaysOf rule) now w1 Hp1)
    as [Hr Hc2].
  destruct (predictStockNeeds salesHistory (Fin (p_quantity product))
              (leadTimeDaysOf rule) (safetyStockDaysOf rule) w1)
    as [forecast w2].
  simpl in Hr, Hc2. subst forecast. cbn [fst].
  rewrite Hc2, (Hp1 (tick w2)). reflexivity.
Qed.

(** ** Scenarios *)

Lemma TimeClip_valid now k :
  validNow now -> (0 <= k <= 9999)%Z ->
  TimeClip (now + k * msPerDay) = Some (now + k * msPerDay)%Z.
Proof.
  unfold validNow, TimeClip. intros Hn Hk.
  assert (Hd : (0 < msPerDay)%Z) by reflexivity.
  destruct (Z.abs (now + k * msPerDay) <=? maxTime)%Z eqn:E; [reflexivity|].
  apply Z.leb_gt in E. nia.
Qed.

Lemma days_between now k :
  Math_floor (div (sub (of_Z (now + k * msPerDay)) (of_Z now)) (of_Z msPerDay))
  = of_Z k.
Proof.
  unfold of_Z, sub. cbn [neg add].
  rewrite div_pos by reflexivity. unfold Math_floor, of_Z. do 2 f_equal.
  assert (H : (inject_Z (now + k * msPerDay) + - inject_Z now) / inject_Z msPerDay
              == inject_Z k).
  { rewrite inject_Z_plus, inject_Z_mult. field. discriminate. }
  rewrite H. apply Qfloor_Z.
Qed.

Lemma daysUntil_after now k :
  daysUntil (Some (now + k * msPerDay)%Z) now = Math_max (Fin 0) (of_Z k).
Proof.
  unfold daysUntil, getTime. now rewrite days_between.
Qed.

Lemma floor_days t now :
  Math_floor (div (sub (of_Z t) (of_Z now)) (of_Z msPerDay))
  = of_Z ((t - now) / msPerDay).
Proof.
  unfold of_Z, sub. cbn [neg add].
  rewrite div_pos by reflexivity. unfold Math_floor, of_Z. do 2 f_equal.
  assert (H : (inject_Z t + - inject_Z now) / inject_Z msPerDay
              == (t - now) # 86400000).
  { unfold Qeq, Qdiv, Qmult, Qinv, Qplus, Qopp, inject_Z. simpl. lia. }
  rewrite H. reflexivity.
Qed.

Lemma daysUntil_valid t now :
  daysUntil (Some t) now = of_Z (Z.max 0 ((t - now) / msPerDay)).
Proof.
  unfold daysUntil, getTime. rewrite floor_days.
  set (k := ((t - now) / msPerDay)%Z).
  unfold Math_max, of_Z. cbn [ltb].
  destruct (Qltb 0 (inject_Z k)) eqn:E.
  - apply Qltb_lt in E. unfold Qlt in E. simpl in E.
    replace (Z.max 0 k) with k by lia. reflexivity.
  - apply Qltb_ge in E. unfold Qle in E. simpl in E.
    replace (Z.max 0 k) with 0%Z by lia. reflexivity.
Qed.

Lemma getSalesHistory_world supabase userId productId days w :
  snd (getSalesHistory supabase userId productId days w)
  = mkWorld (clock w) (S (tick w)).
Proof.
  unfold getSalesHistory, bind, Date_now, ret.
  destruct (toISOString _); [|reflexivity].
  destruct (option_map _ _) as [[|row rows]|]; reflexivity.
Qed.

(** On the empty series the forecast reads the clock once, for the runout
    date. *)
Lemma predictStockNeeds_empty currentStock leadTimeDays safetyStockDays w :
  predictStockNeeds [] currentStock leadTimeDays safetyStockDays w
  = (predict [] currentStock leadTimeDays safetyStockDays (clock w (tick w)),
     mkWorld (clock w) (S (tick w))).
Proof. reflexivity. Qed.

Lemma predict_empty_runout currentStock leadTimeDays safetyStockDays now :
  predictedRunoutDate (predict [] currentStock leadTimeDays safetyStockDays now)
  = TimeClip (now + 9999 * msPerDay).
Proof. reflexivity. Qed.

Lemma Qle_bool_above (k c : Z) :
  (c < k)%Z -> Qle_bool (inject_Z k) (inject_Z c) = false.
Proof.
  intro H. destruct (Qle_bool _ _) eqn:E; [|reflexivity].
  apply Qle_bool_iff in E. rewrite <- Zle_Qle in E. lia.
Qed.

Lemma beyond_two_weeks (k : Z) (leadTimeDays : Z) :
  (15 <= k)%Z -> (leadTimeDays <= 14)%Z ->
  classify (of_Z k) = low /\ leb (of_Z k) (of_Z leadTimeDays) = false.
Proof.
  intros Hk Hl. unfold classify.
  change (Fin 3) with (of_Z 3). change (Fin 7) with (of_Z 7).
  change (Fin 14) with (of_Z 14). unfold of_Z. cbn [leb].
  rewrite !Qle_bool_above by lia. split; reflexivity.
Qed.

(** C7, as the code has it: on the empty series, for any stock and the
    default lead time of 7 days, at any clock, the forecast has confidence
    0.1, daily average sales 0, seasonal factor 1 and a runout date 9999
    days after its reading of the clock.  The product's forecast reads the
    clock again: its days until runout are the whole days from that later
    reading to the runout date, 9999 when the two readings agree and 9998
    when the clock advanced by at most a day in between; its confidence is
    0.1, and its urgency is low with no reorder as long as the clock
    advanced by at most 9984 days. *)
Theorem empty_series_forecast :
  (forall (currentStock safetyStockDays : number) (w : World),
      let r := fst (predictStockNeeds [] currentStock (Fin 7) safetyStockDays w) in
      confidence r = Fin 0.1
      /\ eqN (dailyAverageSales r) (Fin 0)
      /\ seasonalFactor r = Fin 1
      /\ predictedRunoutDate r = TimeClip (clock w (tick w) + 9999 * msPerDay))
  /\ (forall (supabase : Supabase) (userId productId : string)
             (daysAhead : number) (w : World) (product : ProductRow),
         findProduct supabase userId productId = mkResponse (Some product) None ->
         fst (getSalesHistory supabase userId productId 30 w) = Return [] ->
         leadTimeDaysOf (findReorderRule supabase userId productId) = Fin 7 ->
         let forecastAt := clock w (S (tick w)) in
         let serviceAt := clock w (S (S (tick w))) in
         validNow forecastAt ->
         exists f,
           fst (predictSingleProduct supabase userId productId daysAhead w)
           = Return f
           /\ sf_confidence f = Fin 0.1
           /\ days_until_runout f
              = of_Z (Z.max 0
                        ((forecastAt + 9999 * msPerDay - serviceAt) / msPerDay))
           /\ (serviceAt = forecastAt -> days_until_runout f = Fin 9999)
           /\ ((forecastAt < serviceAt <= forecastAt + msPerDay)%Z ->
               days_until_runout f = Fin 9998)
           /\ ((serviceAt - forecastAt <= 9984 * msPerDay)%Z ->
               urgency f = low /\ should_reorder f = false)).
Proof.
  split.
  - intros stock safety w r. subst r. rewrite predictStockNeeds_empty.
    cbn [fst]. repeat split; reflexivity.
  - intros supabase userId productId daysAhead w product Hf Hh Hl
           forecastAt serviceAt Hv.
    rewrite (predictSingleProduct_anatomy _ _ _ _ _ _ Hf).
    pose proof (getSalesHistory_world supabase userId productId 30 w) as Hw.
    destruct (getSalesHistory supabase userId productId 30 w) as [h w1].
    cbn [fst snd] in Hh, Hw. subst h w1. cbv zeta. rewrite Hl.
    rewrite predictStockNeeds_empty. cbn [fst clock tick].
    fold forecastAt serviceAt. unfold emit.
    rewrite predict_empty_runout.
    rewrite (TimeClip_valid forecastAt 9999 Hv) by lia.
    cbn [toISOString]. rewrite daysUntil_valid.
    set (days := ((forecastAt + 9999 * msPerDay - serviceAt) / msPerDay)%Z).
    eexists. split; [reflexivity|].
    cbn [sf_confidence days_until_runout urgency should_reorder].
    assert (Hd : (0 < msPerDay)%Z) by reflexivity.
    split; [reflexivity|]. split; [reflexivity|]. split; [|split].
    + intro E. subst days. rewrite E.
      replace (forecastAt + 9999 * msPerDay - forecastAt)%Z
        with (9999 * msPerDay)%Z by lia.
      rewrite Z.div_mul by discriminate. reflexivity.
    + intro Hadv. replace days with 9998%Z; [reflexivity|].
      subst days.
      apply Z.div_unique
        with (r := (forecastAt + 9999 * msPerDay - serviceAt
                    - msPerDay * 9998)%Z); lia.
    + intro Hadv.
      assert (Hk : (15 <= days)%Z)
        by (subst days; apply Z.div_le_lower_bound; lia).
      replace (Z.max 0 days) with days by lia.
      change (Fin 7) with (of_Z 7). apply beyond_two_weeks; lia.
Qed.

Lemma empty_series_forecast_witness :
  exists f,
    fst (predictSingleProduct shop "u" "c" (Fin 30) runningClock) = Return f
    /\ sf_confidence f = Fin 0.1
    /\ days_until_runout f
       = of_Z (Z.max 0
                 ((clock runningClock 1 + 9999 * msPerDay - clock runningClock 2)
                  / msPerDay))
    /\ (clock runningClock 2 = clock runningClock 1 ->
        days_until_runout f = Fin 9999)
    /\ ((clock runningClock 1 < clock runningClock 2
         <= clock runningClock 1 + msPerDay)%Z ->
        days_until_runout f = Fin 9998)
    /\ ((clock runningClock 2 - clock runningClock 1 <= 9984 * msPerDay)%Z ->
        urgency f = low /\ should_reorder f = false).
Proof.
  apply (proj2 empty_series_forecast shop "u"%string "c"%string (Fin 30)
           runningClock
           (mkProduct "c" "u" "Chalk" 20 5)).
  - reflexivity.
  - vm_compute. reflexivity.
  - reflexivity.
  - unfold validNow. vm_compute. split; discriminate.
Defined.

(** C7, as the claim words it, fails: product [c] of user [u] has no sales
    and the default lead time, the clock advances by a millisecond between
    the forecast's reading and the service's, and the days until runout
    are 9998, not 9999. *)
Lemma empty_series_short_of_sentinel :
  fst (getSalesHistory shop "u" "c" 30 runningClock) = Return []
  /\ leadTimeDaysOf (findReorderRule shop "u" "c") = Fin 7
  /\ exists f,
       fst (predictSingleProduct shop "u" "c" (Fin 30) runningClock) = Return f
       /\ days_until_runout f = Fin 9998
       /\ days_until_runout f <> Fin 9999.
Proof.
  split; [vm_compute; reflexivity|]. split; [reflexivity|].
  eexists. split; [vm_compute; reflexivity|]. split; [reflexivity|].
  cbn [days_until_runout]. discriminate.
Qed.

Lemma groupByDay_weekView data : groupByDay data = groupByWeekday (weekView data).
Proof.
  unfold groupByDay, groupByWeekday, weekView.
  generalize (repeat (Fin 0) 7, repeat O 7).
  induction data as [|p data IH]; intro acc; simpl.
  - reflexivity.
  - rewrite IH. destruct acc. reflexivity.
Qed.

Lemma seasonalOfView_monthView r today :
  (r < 7)%nat -> (today < 7)%nat ->
  eqN (seasonalOfView (monthView r) today) (Fin 1).
Proof.
  intros Hr Ht.
  do 7 (destruct r as [|r];
        [ do 7 (destruct today as [|today]; [vm_compute; reflexivity|]); lia |]).
  lia.
Qed.

Lemma weekView_constSeries d0 :
  weekView (constSeries d0 30 10)
  = monthView (Z.to_nat ((d0 + 4) mod 7)).
Proof.
  unfold weekView, constSeries, monthView. rewrite map_map.
  apply map_ext. intro i. cbn [date quantity]. f_equal.
  unfold getDay, dayOf. f_equal.
  rewrite Z.div_mul by discriminate.
  pose proof (Z.mod_pos_bound (d0 + 4) 7 ltac:(lia)).
  rewrite Z2Nat.id by lia.
  rewrite Zplus_mod_idemp_l. f_equal. lia.
Qed.

Lemma seasonalFactorAt_view data now :
  seasonalFactorAt data now
  = if (length data <? 14)%nat then Fin 1
    else seasonalOfView (weekView data) (getDay now).
Proof.
  unfold seasonalFactorAt, seasonalOfView.
  destruct (length data <? 14)%nat; [reflexivity|].
  rewrite groupByDay_weekView. reflexivity.
Qed.

Lemma length_constSeries d0 n q : length (constSeries d0 n q) = n.
Proof. unfold constSeries. now rewrite length_map, length_seq. Qed.

Lemma seasonalFactorAt_constSeries d0 now :
  eqN (seasonalFactorAt (constSeries d0 30 10) now) (Fin 1).
Proof.
  rewrite seasonalFactorAt_view, length_constSeries, weekView_constSeries.
  change (30 <? 14)%nat with false. cbv iota.
  apply seasonalOfView_monthView.
  - pose proof (Z.mod_pos_bound (d0 + 4) 7 ltac:(lia)). lia.
  - apply getDay_lt.
Qed.

Lemma adjustedDailyRate_constSeries d0 now :
  eqN (adjustedDailyRate (constSeries d0 30 10) now) (Fin 10).
Proof.
  unfold adjustedDailyRate.
  pose proof (seasonalFactorAt_constSeries d0 now) as Hs.
  destruct (seasonalFactorAt (constSeries d0 30 10) now) as [s| | |];
    simpl in Hs; try tauto.
  assert (Hm : eqN (calculateMovingAverage (constSeries d0 30 10) 7) (Fin 10))
    by (vm_compute; reflexivity).
  destruct (calculateMovingAverage (constSeries d0 30 10) 7) as [m| | |];
    simpl in Hm; try tauto.
  replace (detectTrend (constSeries d0 30 10)) with stable
    by (vm_compute; reflexivity).
  simpl. rewrite Hm, Hs. reflexivity.
Qed.

Lemma predict_constSeries d0 now :
  validNow now ->
  let r := predict (constSeries d0 30 10) (Fin 50) (Fin 7) (Fin 3) now in
  eqN (dailyAverageSales r) (Fin 10)
  /\ eqN (seasonalFactor r) (Fin 1)
  /\ suggestedReorderQuantity r = Fin 100
  /\ predictedRunoutDate r = Some (now + 5 * msPerDay)%Z.
Proof.
  intros Hv r. subst r. unfold predict.
  cbn [dailyAverageSales seasonalFactor suggestedReorderQuantity
       predictedRunoutDate].
  pose proof (adjustedDailyRate_constSeries d0 now) as Ha.
  split; [exact Ha|]. split; [apply seasonalFactorAt_constSeries|].
  unfold daysUntilStockoutAt.
  destruct (adjustedDailyRate (constSeries d0 30 10) now) as [a| | |];
    simpl in Ha; try tauto.
  assert (Hpos : 0 < a) by (rewrite Ha; reflexivity).
  split.
  - cbn [add mul Math_ceil].
    assert (Hc : a * (7 + 3) == 100) by (rewrite Ha; reflexivity).
    rewrite Hc. reflexivity.
  - unfold gtb. cbn [ltb].
    rewrite (proj2 (Qltb_lt 0 a) Hpos), (div_pos _ _ Hpos).
    cbn [Math_floor].
    assert (Hq : 50 / a == 5) by (rewrite Ha; reflexivity).
    rewrite Hq.
    change (Date_addDays now (of_Z (Qfloor 5)))
      with (TimeClip (now + 5 * msPerDay)).
    apply TimeClip_valid; [exact Hv | lia].
Qed.

(** C8: thirty consecutive days of quantity 10 (from any day), a stock of
    50, a lead time of 7 days and 3 safety-stock days, at a pinned clock:
    daily average sales 10, seasonal factor 1, trend "stable", 5 days until
    runout, a suggested reorder quantity of 100, urgency high and a
    reorder. *)
Theorem constant_series_forecast
    (supabase : Supabase) (userId productId : string) (daysAhead : number)
    (w : World) (now d0 : Z) (product : ProductRow) :
  findProduct supabase userId productId = mkResponse (Some product) None ->
  p_quantity product = 50 ->
  fst (getSalesHistory supabase userId productId 30 w)
  = Return (constSeries d0 30 10) ->
  leadTimeDaysOf (findReorderRule supabase userId productId) = Fin 7 ->
  safetyStockDaysOf (findReorderRule supabase userId productId) = Fin 3 ->
  pinned now w -> validNow now ->
  (forall w' : World,
      pinned now w' ->
      let r := fst (predictStockNeeds (constSeries d0 30 10) (Fin 50) (Fin 7)
                      (Fin 3) w') in
      eqN (dailyAverageSales r) (Fin 10)
      /\ eqN (seasonalFactor r) (Fin 1)
      /\ suggestedReorderQuantity r = Fin 100
      /\ predictedRunoutDate r = Some (now + 5 * msPerDay)%Z)
  /\ detectTrend (constSeries d0 30 10) = stable
  /\ exists f,
       fst (predictSingleProduct supabase userId productId daysAhead w) = Return f
       /\ days_until_runout f = Fin 5
       /\ suggested_reorder_quantity f = Fin 100
       /\ urgency f = high
       /\ should_reorder f = true.
Proof.
  intros Hf Hq Hh Hl Hs Hp Hv.
  split; [|split].
  - intros w' Hp' r. subst r.
    destruct (predictStockNeeds_pinned (constSeries d0 30 10) (Fin 50) (Fin 7)
                (Fin 3) now w' Hp') as [-> _].
    now apply predict_constSeries.
  - vm_compute. reflexivity.
  - rewrite (predictSingleProduct_pinned _ _ _ _ _ now product _ Hf Hh Hp).
    rewrite Hl, Hs, Hq.
    destruct (predict_constSeries d0 now Hv) as (_ & _ & Hsq & Hr).
    unfold emit. rewrite Hr. cbn [toISOString]. rewrite daysUntil_after, Hsq.
    eexists. split; [reflexivity|]. repeat split.
Qed.

Lemma constant_series_forecast_witness :
  (forall w' : World,
      pinned (30 * msPerDay) w' ->
      let r := fst (predictStockNeeds (constSeries 1 30 10) (Fin 50) (Fin 7)
                      (Fin 3) w') in
      eqN (dailyAverageSales r) (Fin 10)
      /\ eqN (seasonalFactor r) (Fin 1)
      /\ suggestedReorderQuantity r = Fin 100
      /\ predictedRunoutDate r = Some (30 * msPerDay + 5 * msPerDay)%Z)
  /\ detectTrend (constSeries 1 30 10) = stable
  /\ exists f,
       fst (predictSingleProduct shop "u" "a" (Fin 30) day30) = Return f
       /\ days_until_runout f = Fin 5
       /\ suggested_reorder_quantity f = Fin 100
       /\ urgency f = high
       /\ should_reorder f = true.
Proof.
  apply (constant_series_forecast shop "u" "a" (Fin 30) day30 (30 * msPerDay) 1
           (mkProduct "a" "u" "Atta" 50 5)).
  - reflexivity.
  - reflexivity.
  - vm_compute. reflexivity.
  - reflexivity.
  - reflexivity.
  - intro n. reflexivity.
  - unfold validNow. vm_compute. split; discriminate.
Defined.

(** ** The reorder policy *)

Lemma truthy_set column q : column = Some q -> ~ q == 0 -> truthy column = Some q.
Proof.
  intros -> Hq. unfold truthy. destruct (Qeq_bool q 0) eqn:E; [|reflexivity].
  apply Qeq_bool_iff in E. contradiction.
Qed.

Lemma truthy_unset column : unset column -> truthy column = None.
Proof.
  intros [->|[q [-> Hq]]]; [reflexivity|]. unfold truthy.
  now rewrite (proj2 (Qeq_bool_iff q 0) Hq).
Qed.

(** C9, as the code has it: the forecast of a found product is computed by
    [predictStockNeeds] with the lead time and the safety-stock days of the
    policy, and [should_reorder] compares with that lead time.  The policy
    falls back field by field: the lead time is the rule's [lead_time_days]
    when a rule is stored and the column is neither null nor zero, and 7
    otherwise; the safety-stock days are ceil(safety_stock / 10) when a rule
    is stored and the column is neither null nor zero, and 3 otherwise. *)
Theorem predictSingleProduct_policy
    (supabase : Supabase) (userId productId : string) (daysAhead : number)
    (w : World) (product : ProductRow) :
  findProduct supabase userId productId = mkResponse (Some product) None ->
  let rule := findReorderRule supabase userId productId in
  let leadTimeDays := leadTimeDaysOf rule in
  let safetyStockDays := safetyStockDaysOf rule in
  predictSingleProduct supabase userId productId daysAhead w
  = (let (h, w1) := getSalesHistory supabase userId productId 30 w in
     match h with
     | Throw e => (Throw e, w1)
     | Return salesHistory =>
         let (forecast, w2) :=
           predictStockNeeds salesHistory (Fin (p_quantity product))
             leadTimeDays safetyStockDays w1 in
         (emit product forecast leadTimeDays (clock w2 (tick w2)),
          mkWorld (clock w2) (S (tick w2)))
     end)
  /\ (rule = None -> leadTimeDays = Fin 7 /\ safetyStockDays = Fin 3)
  /\ (forall r, rule = Some r ->
        (forall q, lead_time_days r = Some q -> ~ q == 0 -> leadTimeDays = Fin q)
        /\ (unset (lead_time_days r) -> leadTimeDays = Fin 7)
        /\ (forall q, safety_stock r = Some q -> ~ q == 0 ->
              safetyStockDays = of_Z (Qceiling (q / 10)))
        /\ (unset (safety_stock r) -> safetyStockDays = Fin 3)).
Proof.
  intros Hf rule leadTimeDays safetyStockDays.
  split; [apply (predictSingleProduct_anatomy _ _ _ _ _ _ Hf)|].
  subst leadTimeDays safetyStockDays. split.
  - intros ->. split; reflexivity.
  - intros r ->. unfold leadTimeDaysOf, safetyStockDaysOf. repeat split.
    + intros q Hq Hn. now rewrite (truthy_set _ _ Hq Hn).
    + intro Hu. now rewrite (truthy_unset _ Hu).
    + intros q Hq Hn. rewrite (truthy_set _ _ Hq Hn).
      rewrite div_pos by reflexivity. reflexivity.
    + intro Hu. now rewrite (truthy_unset _ Hu).
Qed.

Lemma predictSingleProduct_policy_witness :
  let rule := findReorderRule (shopWithRule (Some 14) (Some 45)) "u" "a" in
  let leadTimeDays := leadTimeDaysOf rule in
  let safetyStockDays := safetyStockDaysOf rule in
  predictSingleProduct (shopWithRule (Some 14) (Some 45)) "u" "a" (Fin 30) day30
  = (let (h, w1) :=
       getSalesHistory (shopWithRule (Some 14) (Some 45)) "u" "a" 30 day30 in
     match h with
     | Throw e => (Throw e, w1)
     | Return salesHistory =>
         let (forecast, w2) :=
           predictStockNeeds salesHistory (Fin 50) leadTimeDays safetyStockDays w1 in
         (emit (mkProduct "a" "u" "Atta" 50 5) forecast leadTimeDays
            (clock w2 (tick w2)),
          mkWorld (clock w2) (S (tick w2)))
     end)
  /\ (rule = None -> leadTimeDays = Fin 7 /\ safetyStockDays = Fin 3)
  /\ (forall r, rule = Some r ->
        (forall q, lead_time_days r = Some q -> ~ q == 0 -> leadTimeDays = Fin q)
        /\ (unset (lead_time_days r) -> leadTimeDays = Fin 7)
        /\ (forall q, safety_stock r = Some q -> ~ q == 0 ->
              safetyStockDays = of_Z (Qceiling (q / 10)))
        /\ (unset (safety_stock r) -> safetyStockDays = Fin 3)).
Proof.
  exact (predictSingleProduct_policy (shopWithRule (Some 14) (Some 45)) "u" "a"
           (Fin 30) day30 (mkProduct "a" "u" "Atta" 50 5) eq_refl).
Defined.

(** With the rule (14, 45) the policy is 14 days of lead time and
    ceil(45/10) = 5 safety-stock days: 190 units to reorder. *)
Example shopWithRule_forecast :
  leadTimeDaysOf (findReorderRule (shopWithRule (Some 14) (Some 45)) "u" "a")
  = Fin 14
  /\ safetyStockDaysOf (findReorderRule (shopWithRule (Some 14) (Some 45)) "u" "a")
     = Fin 5
  /\ match fst (predictSingleProduct (shopWithRule (Some 14) (Some 45)) "u" "a"
                  (Fin 30) day30) with
     | Return f => suggested_reorder_quantity f = Fin 190
                   /\ should_reorder f = true
     | Throw _ => False
     end.
Proof. vm_compute. repeat split. Qed.

(** C9, as the claim words it, fails on a stored rule whose columns are
    zero: the rule (0, 0) of product [a] is found, and the forecast is
    computed with the defaults 7 and 3 (100 units to reorder, reorder now),
    not with the rule's 0 and ceil(0/10) = 0. *)
Lemma zero_rule_falls_back :
  findReorderRule (shopWithRule (Some 0) (Some 0)) "u" "a"
  = Some (mkReorderRule "u" "a" (Some 0) (Some 0))
  /\ leadTimeDaysOf (Some (mkReorderRule "u" "a" (Some 0) (Some 0))) = Fin 7
  /\ safetyStockDaysOf (Some (mkReorderRule "u" "a" (Some 0) (Some 0))) = Fin 3
  /\ ~ eqN (leadTimeDaysOf (Some (mkReorderRule "u" "a" (Some 0) (Some 0))))
           (leadTimeDays_claimed (Some (mkReorderRule "u" "a" (Some 0) (Some 0))))
  /\ ~ eqN (safetyStockDaysOf (Some (mkReorderRule "u" "a" (Some 0) (Some 0))))
           (safetyStockDays_claimed (Some (mkReorderRule "u" "a" (Some 0) (Some 0))))
  /\ exists f,
       fst (predictSingleProduct (shopWithRule (Some 0) (Some 0)) "u" "a"
              (Fin 30) day30) = Return f
       /\ suggested_reorder_quantity f = Fin 100
       /\ should_reorder f = true.
Proof.
  split; [reflexivity|]. split; [reflexivity|]. split; [reflexivity|].
  split; [vm_compute; discriminate|]. split; [vm_compute; discriminate|].
  eexists. split; [vm_compute; reflexivity|]. split; reflexivity.
Qed.

(** ** Urgency and days until runout *)

Lemma Qle_bool_false x y : Qle_bool x y = false -> y < x.
Proof.
  intro H. apply Qnot_le_lt. intro Hle. apply Qle_bool_iff in Hle. congruence.
Qed.

Ltac by_thresholds :=
  unfold classify in *; cbn [leb] in *;
  repeat match goal with
         | |- context [Qle_bool ?x ?y] =>
             let E := fresh "E" in
             destruct (Qle_bool x y) eqn:E;
             [apply Qle_bool_iff in E | apply Qle_bool_false in E]
         | H : context [Qle_bool ?x ?y] |- _ =>
             let E := fresh "E" in
             destruct (Qle_bool x y) eqn:E;
             [apply Qle_bool_iff in E | apply Qle_bool_false in E]
         end;
  simpl; try reflexivity; try discriminate; try lia; try lra;
  try (exfalso; lra).

(** The urgency is a monotone step function of the days until runout,
    with steps at 3, 7 and 14 days: fewer days are never less urgent. *)
Theorem classify_monotone (a b : Q) :
  a <= b ->
  (urgencyOrder (classify (Fin a)) <= urgencyOrder (classify (Fin b)))%Z
  /\ (classify (Fin a) = critical <-> a <= 3)
  /\ (classify (Fin a) = high <-> 3 < a <= 7)
  /\ (classify (Fin a) = medium <-> 7 < a <= 14)
  /\ (classify (Fin a) = low <-> 14 < a).
Proof.
  intro Hab. split; [by_thresholds|].
  repeat apply conj; try (intro H; by_thresholds); try (intros [H1 H2]; by_thresholds).
Qed.

Lemma classify_monotone_witness :
  (urgencyOrder (classify (Fin 5)) <= urgencyOrder (classify (Fin 9999)))%Z
  /\ (classify (Fin 5) = critical <-> 5 <= 3)
  /\ (classify (Fin 5) = high <-> 3 < 5 <= 7)
  /\ (classify (Fin 5) = medium <-> 7 < 5 <= 14)
  /\ (classify (Fin 5) = low <-> 14 < 5).
Proof.
  apply (classify_monotone 5 9999). unfold Qle. simpl. lia.
Defined.

Lemma findProduct_found supabase userId productId product :
  findProduct supabase userId productId = mkResponse (Some product) None ->
  exists rows,
    products supabase = Rows rows
    /\ filter (fun p => String.eqb (p_id p) productId
                        && String.eqb (p_user_id p) userId) rows
       = [product].
Proof.
  unfold findProduct, select, single.
  destruct (products supabase) as [rows|message]; cbn [data error].
  - intro H. exists rows. split; [reflexivity|].
    destruct (filter _ rows) as [|row [|row' rest]]; try discriminate.
    now inversion H.
  - discriminate.
Qed.

(** What a successful call of [predictSingleProduct] went through. *)
Lemma predictSingleProduct_Return supabase userId productId daysAhead w f :
  fst (predictSingleProduct supabase userId productId daysAhead w) = Return f ->
  exists product forecast now,
    findProduct supabase userId productId = mkResponse (Some product) None
    /\ emit product forecast
         (leadTimeDaysOf (findReorderRule supabase userId productId)) now
       = Return f.
Proof.
  intro H.
  destruct (findProduct supabase userId productId) as [[product|] [e|]] eqn:Hf;
    try (unfold predictSingleProduct in H; rewrite Hf in H; discriminate).
  rewrite (predictSingleProduct_anatomy _ _ _ _ _ _ Hf) in H.
  destruct (getSalesHistory supabase userId productId 30 w) as [[series|e] w1];
    [|discriminate].
  cbv zeta in H.
  destruct (predictStockNeeds series _ _ _ w1) as [forecast w2].
  exists product, forecast, (clock w2 (tick w2)). split; [reflexivity|exact H].
Qed.

Lemma emit_Return product forecast leadTimeDays now f :
  emit product forecast leadTimeDays now = Return f ->
  exists t,
    predictedRunoutDate forecast = Some t
    /\ f = {| product_id := p_id product;
              product_name := p_name product;
              current_stock := p_quantity product;
              predicted_runout_date := t;
              days_until_runout := daysUntil (Some t) now;
              suggested_reorder_quantity := suggestedReorderQuantity forecast;
              sf_confidence := confidence forecast;
              urgency := classify (daysUntil (Some t) now);
              should_reorder := leb (daysUntil (Some t) now) leadTimeDays |}.
Proof.
  unfold emit. destruct (predictedRunoutDate forecast) as [t|]; simpl.
  - intro H. exists t. split; [reflexivity|]. now inversion H.
  - discriminate.
Qed.

(** Every forecast that [predictSingleProduct] returns, at any clock,
    carries a number of days until runout that is a non-negative integer,
    the urgency classified from it, and the comparison of it with the lead
    time of the policy. *)
Theorem forecast_days_nonneg
    (supabase : Supabase) (userId productId : string) (daysAhead : number)
    (w : World) (f : StockForecast) :
  fst (predictSingleProduct supabase userId productId daysAhead w) = Return f ->
  exists k : Z,
    (0 <= k)%Z
    /\ days_until_runout f = of_Z k
    /\ urgency f = classify (of_Z k)
    /\ should_reorder f
       = leb (of_Z k) (leadTimeDaysOf (findReorderRule supabase userId productId)).
Proof.
  intro H.
  destruct (predictSingleProduct_Return _ _ _ _ _ _ H)
    as (product & forecast & now & _ & He).
  destruct (emit_Return _ _ _ _ _ He) as (t & _ & ->).
  rewrite daysUntil_valid. cbn.
  exists (Z.max 0 ((t - now) / msPerDay)). repeat split. lia.
Qed.

Lemma forecast_days_nonneg_witness :
  exists k : Z,
    (0 <= k)%Z
    /\ days_until_runout
         {| product_id := "a"; product_name := "Atta"; current_stock := 50;
            predicted_runout_date := 3024000000; days_until_runout := Fin 5;
            suggested_reorder_quantity := Fin 100; sf_confidence := Fin 0.95;
            urgency := high; should_reorder := true |} = of_Z k
    /\ high = classify (of_Z k)
    /\ true = leb (of_Z k) (leadTimeDaysOf (findReorderRule shop "u" "a")).
Proof.
  apply (forecast_days_nonneg shop "u" "a" (Fin 30) day30).
  vm_compute. reflexivity.
Defined.

(** A product that the lookup does not find exactly once (no row, several
    rows, or an unavailable table) is not forecast: the call throws
    "Product not found" before any other request and before the clock is
    read. *)
Theorem predictSingleProduct_not_found
    (supabase : Supabase) (userId productId : string) (daysAhead : number)
    (w : World) :
  (forall rows product,
      products supabase = Rows rows ->
      filter (fun p => String.eqb (p_id p) productId
                       && String.eqb (p_user_id p) userId) rows
      <> [product]) ->
  predictSingleProduct supabase userId productId daysAhead w
  = (Throw (Error "Product not found"), w).
Proof.
  intro H. unfold predictSingleProduct.
  destruct (findProduct supabase userId productId) as [[product|] [e|]] eqn:Hf;
    try reflexivity.
  destruct (findProduct_found _ _ _ _ Hf) as (rows & Hr & Hfilter).
  exfalso. exact (H rows product Hr Hfilter).
Qed.

Lemma predictSingleProduct_not_found_witness :
  predictSingleProduct shop "u" "x" (Fin 30) day30
  = (Throw (Error "Product not found"), day30).
Proof.
  apply predictSingleProduct_not_found.
  intros rows product Hr. inversion Hr. subst rows. vm_compute. discriminate.
Defined.

(** ** The scope of a batch *)

Lemma outcomes_In supabase userId daysAhead products :
  forall w product f,
    In (product, Return f) (outcomes supabase userId daysAhead products w) ->
    In product products
    /\ exists w',
         fst (predictSingleProduct supabase userId (p_id product) daysAhead w')
         = Return f.
Proof.
  induction products as [|p rest IH]; intros w product f H; simpl in H.
  - contradiction.
  - destruct (predictSingleProduct supabase userId (p_id p) daysAhead w)
      as [r w1] eqn:E.
    destruct H as [H|H].
    + inversion H; subst. split; [now left|]. exists w. now rewrite E.
    + destruct (IH _ _ _ H) as [Hin Hw]. split; [now right | exact Hw].
Qed.

Lemma catalog_In rows userId options p :
  In p (catalog rows userId options) ->
  In p rows
  /\ p_user_id p = userId
  /\ (onlyLowStock options = Some true ->
      p_quantity p <= p_low_stock_threshold p).
Proof.
  unfold catalog. intro H.
  assert (Hmine : forall q,
             In q (filter (fun p => String.eqb (p_user_id p) userId) rows) ->
             In q rows /\ p_user_id q = userId).
  { intros q Hq. apply filter_In in Hq. destruct Hq as [Hq He].
    split; [exact Hq | now apply String.eqb_eq]. }
  destruct (onlyLowStock options) as [[|]|].
  - apply filter_In in H. destruct H as [H Hle].
    destruct (Hmine _ H) as [Hr Hu]. repeat split; auto.
    intros _. now apply Qle_bool_iff.
  - destruct (Hmine _ H) as [Hr Hu]. repeat split; auto. discriminate.
  - destruct (Hmine _ H) as [Hr Hu]. repeat split; auto. discriminate.
Qed.

(** A batch never answers with anything but the user's own products: every
    forecast it returns carries the id, the name and the stock of a row of
    [products] owned by the user, and, when only low stock is asked for, of
    a row whose stock is at or below its low-stock threshold. *)
Theorem getRestockRecommendations_scope
    (supabase : Supabase) (userId : string) (options : Options)
    (rows : list ProductRow) (w : World) (l : list StockForecast) :
  products supabase = Rows rows ->
  fst (getRestockRecommendations supabase userId options w) = Return l ->
  forall f, In f l ->
    exists p,
      In p rows
      /\ p_user_id p = userId
      /\ product_id f = p_id p
      /\ product_name f = p_name p
      /\ current_stock f = p_quantity p
      /\ (onlyLowStock options = Some true ->
          p_quantity p <= p_low_stock_threshold p).
Proof.
  intros Hrows Hl f Hf.
  rewrite (getRestockRecommendations_fetched _ _ _ _ _ Hrows) in Hl.
  inversion Hl as [Hl']. clear Hl. rewrite <- Hl' in Hf.
  apply (Permutation_in _ (stable_sort_perm _ _)) in Hf.
  apply successes_In in Hf. destruct Hf as [product Hf].
  apply outcomes_In in Hf. destruct Hf as [Hcat [w' Hw']].
  destruct (catalog_In _ _ _ _ Hcat) as (Hin & Hu & Hlow).
  destruct (predictSingleProduct_Return _ _ _ _ _ _ Hw')
    as (found & forecast & now & Hfound & He).
  destruct (findProduct_found _ _ _ _ Hfound) as (rows' & Hr' & Hfilter).
  rewrite Hrows in Hr'. inversion Hr'. subst rows'.
  assert (Hsame : In product
            (filter (fun p => String.eqb (p_id p) (p_id product)
                              && String.eqb (p_user_id p) userId) rows)).
  { apply filter_In. split; [exact Hin|].
    rewrite String.eqb_refl. simpl. now apply String.eqb_eq. }
  rewrite Hfilter in Hsame. destruct Hsame as [->|[]].
  destruct (emit_Return _ _ _ _ _ He) as (t & _ & ->).
  exists product. repeat split; auto.
Qed.

Lemma getRestockRecommendations_scope_witness :
  exists p,
    In p [mkProduct "a" "u" "Atta" 50 5;
          mkProduct "b" "u" "Bolts" 1000000000 5;
          mkProduct "c" "u" "Chalk" 20 5;
          mkProduct "x" "v" "Oil" 30 5;
          mkProduct "y" "v" "Salt" 10 5]
    /\ p_user_id p = "v"%string
    /\ "y"%string = p_id p
    /\ "Salt"%string = p_name p
    /\ 10 = p_quantity p
    /\ (onlyLowStock noOptions = Some true ->
        p_quantity p <= p_low_stock_threshold p).
Proof.
  apply (getRestockRecommendations_scope shop "v" noOptions _ day30
           [ {| product_id := "x"; product_name := "Oil"; current_stock := 30;
                predicted_runout_date := 2851200000; days_until_runout := Fin 3;
                suggested_reorder_quantity := Fin 100; sf_confidence := Fin 0.95;
                urgency := critical; should_reorder := true |};
             {| product_id := "y"; product_name := "Salt"; current_stock := 10;
                predicted_runout_date := 2678400000; days_until_runout := Fin 1;
                suggested_reorder_quantity := Fin 100; sf_confidence := Fin 0.95;
                urgency := critical; should_reorder := true |} ]
           eq_refl
           ltac:(vm_compute; reflexivity)
           {| product_id := "y"; product_name := "Salt"; current_stock := 10;
              predicted_runout_date := 2678400000; days_until_runout := Fin 1;
              suggested_reorder_quantity := Fin 100; sf_confidence := Fin 0.95;
              urgency := critical; should_reorder := true |}).
  right. left. reflexivity.
Defined.

(** The two ways a batch ends without forecasting: a failed request for the
    products throws "Failed to fetch products: ..." with the message of the
    failure, and an empty catalog returns the empty list; neither reads the
    clock. *)
Theorem getRestockRecommendations_edges
    (supabase : Supabase) (userId : string) (options : Options) (w : World) :
  (forall message,
      products supabase = Unavailable message ->
      getRestockRecommendations supabase userId options w
      = (Throw (Error ("Failed to fetch products: " ++ message)), w))
  /\ (forall rows,
        products supabase = Rows rows ->
        catalog rows userId options = [] ->
        getRestockRecommendations supabase userId options w = (Return [], w)).
Proof.
  split.
  - intros message H. unfold getRestockRecommendations. rewrite H. reflexivity.
  - intros rows H Hc. unfold getRestockRecommendations, catalog in *.
    rewrite H. cbn [select error data].
    destruct (onlyLowStock options) as [[|]|]; rewrite Hc; reflexivity.
Qed.

(** ** The sales history *)

Lemma Qtrunc_inject z : Qtrunc (inject_Z z) = z.
Proof.
  unfold Qtrunc. destruct (Qltb (inject_Z z) 0).
  - apply Qceiling_Z.
  - apply Qfloor_Z.
Qed.

Lemma Date_addDays_of_Z now k :
  Date_addDays now (of_Z k) = TimeClip (now + k * msPerDay).
Proof. unfold Date_addDays, of_Z. now rewrite Qtrunc_inject. Qed.

Section SortByKey.
Context {A : Type} (key : A -> Z).

Let le (a b : A) : bool := (key a <=? key b)%Z.

Lemma insert_In x l y : In y (insert le x l) <-> y = x \/ In y l.
Proof.
  split; intro H.
  - apply (Permutation_in _ (insert_perm le x l)) in H. simpl in H.
    destruct H; auto.
  - apply (Permutation_in _ (Permutation_sym (insert_perm le x l))).
    simpl. destruct H; auto.
Qed.

Lemma insert_sorted x l :
  StronglySorted (fun a b => (key a <= key b)%Z) l ->
  StronglySorted (fun a b => (key a <= key b)%Z) (insert le x l).
Proof.
  induction 1 as [|y t Hs IH Hy]; simpl.
  - repeat constructor.
  - unfold le at 1. destruct (key x <=? key y)%Z eqn:E.
    + apply Z.leb_le in E. constructor; [now constructor|].
      constructor; [exact E|].
      eapply Forall_impl; [|exact Hy]. cbv beta. intros. lia.
    + apply Z.leb_gt in E. constructor; [exact IH|].
      apply Forall_forall. intros z Hz. apply insert_In in Hz.
      destruct Hz as [->|Hz]; [lia|].
      rewrite Forall_forall in Hy. now apply Hy.
Qed.

Lemma stable_sort_sorted l :
  StronglySorted (fun a b => (key a <= key b)%Z) (stable_sort le l).
Proof.
  induction l as [|x t IH]; simpl.
  - constructor.
  - now apply insert_sorted.
Qed.
End SortByKey.

Lemma StronglySorted_map {A B} (f : A -> B) (R : A -> A -> Prop)
    (S : B -> B -> Prop) l :
  (forall a b, R a b -> S (f a) (f b)) ->
  StronglySorted R l -> StronglySorted S (map f l).
Proof.
  intros HRS. induction 1 as [|a l Hs IH Ha]; simpl; constructor.
  - exact IH.
  - apply Forall_map. eapply Forall_impl; [|exact Ha]. intros b. apply HRS.
Qed.

(** When the daily aggregates hold at least one row of the product within
    the window, the history is made of exactly those rows, one point per
    row at the midnight of its date, in ascending order of date, none
    before the first day of the window; the invoices are not read. *)
Theorem getSalesHistory_aggregated
    (supabase : Supabase) (userId productId : string) (days : Z) (w : World)
    (rows : list DailySalesRow) (startTime : Z) :
  sales_history_daily supabase = Rows rows ->
  TimeClip (clock w (tick w) + (- days) * msPerDay) = Some startTime ->
  dailyRowsOf rows userId productId startTime <> [] ->
  exists series,
    fst (getSalesHistory supabase userId productId days w) = Return series
    /\ Permutation series
         (map (fun row => mkPoint (sh_date row * msPerDay) (sh_quantity_sold row))
            (dailyRowsOf rows userId productId startTime))
    /\ StronglySorted (fun a b => (date a <= date b)%Z) series
    /\ Forall (fun point => (dayOf startTime * msPerDay <= date point)%Z) series.
Proof.
  intros Hrows Hstart Hne.
  unfold getSalesHistory, bind, Date_now.
  rewrite Date_addDays_of_Z, Hstart. cbn [toISOString].
  rewrite Hrows. cbn [select data option_map].
  fold (dailyRowsOf rows userId productId startTime).
  set (matching := dailyRowsOf rows userId productId startTime) in *.
  pose proof (stable_sort_perm (fun a b => (sh_date a <=? sh_date b)%Z) matching)
    as Hperm.
  pose proof (stable_sort_sorted sh_date matching) as Hsorted.
  cbv zeta in Hsorted.
  destruct (stable_sort (fun a b => (sh_date a <=? sh_date b)%Z) matching)
    as [|row sorted] eqn:E.
  - apply Permutation_nil in Hperm. contradiction.
  - unfold ret. cbn [fst]. eexists. split; [reflexivity|].
    assert (Hd : (0 < msPerDay)%Z) by reflexivity.
    split; [|split].
    + now apply Permutation_map.
    + apply (StronglySorted_map _ (fun a b => (sh_date a <= sh_date b)%Z));
        [|exact Hsorted].
      intros a b Hab. cbn [date]. nia.
    + apply Forall_map. apply Forall_forall. intros r Hr.
      apply (Permutation_in _ Hperm) in Hr. unfold matching, dailyRowsOf in Hr.
      apply filter_In in Hr. destruct Hr as [_ Hr].
      apply andb_true_iff in Hr. destruct Hr as [_ Hr].
      apply Z.leb_le in Hr. cbn [date]. nia.
Qed.

Lemma getSalesHistory_aggregated_witness :
  exists series,
    fst (getSalesHistory shop "u" "a" 30 day30) = Return series
    /\ Permutation series
         (map (fun row => mkPoint (sh_date row * msPerDay) (sh_quantity_sold row))
            (dailyRowsOf
               (monthOfSales "u" "a" 10 ++ monthOfSales "u" "b" 1
                ++ monthOfSales "v" "x" 10 ++ monthOfSales "v" "y" 10)
               "u" "a" 0))
    /\ StronglySorted (fun a b => (date a <= date b)%Z) series
    /\ Forall (fun point => (dayOf 0 * msPerDay <= date point)%Z) series.
Proof.
  apply (getSalesHistory_aggregated shop "u" "a" 30 day30).
  - reflexivity.
  - reflexivity.
  - vm_compute. discriminate.
Defined.

Lemma dailyMap_add_keys m day q :
  map fst (dailyMap_add m day q)
  = if existsb (Z.eqb day) (map fst m) then map fst m else map fst m ++ [day].
Proof.
  induction m as [|[d total] rest IH]; simpl.
  - reflexivity.
  - rewrite (Z.eqb_sym day d). destruct (d =? day)%Z eqn:E; simpl.
    + reflexivity.
    + rewrite IH. now destruct (existsb (Z.eqb day) (map fst rest)).
Qed.

Lemma existsb_eqb_false day l :
  existsb (Z.eqb day) l = false -> ~ In day l.
Proof.
  intros H Hin. assert (existsb (Z.eqb day) l = true).
  { apply existsb_exists. exists day. split; [exact Hin | apply Z.eqb_refl]. }
  congruence.
Qed.

Lemma dailyMap_add_NoDup m day q :
  NoDup (map fst m) -> NoDup (map fst (dailyMap_add m day q)).
Proof.
  intro H. rewrite dailyMap_add_keys.
  destruct (existsb (Z.eqb day) (map fst m)) eqn:E; [exact H|].
  apply existsb_eqb_false in E.
  apply (Permutation_NoDup (l := day :: map fst m)).
  - apply Permutation_cons_append.
  - now constructor.
Qed.

Lemma dailyMap_add_day m day q d :
  In d (map fst (dailyMap_add m day q)) <-> d = day \/ In d (map fst m).
Proof.
  rewrite dailyMap_add_keys.
  destruct (existsb (Z.eqb day) (map fst m)) eqn:E.
  - apply existsb_exists in E. destruct E as [x [Hx Ex]].
    apply Z.eqb_eq in Ex. subst x. split; [auto|].
    intros [->|H]; assumption.
  - rewrite in_app_iff. simpl. intuition.
Qed.

Lemma dailyMap_get_add m day q d :
  dailyMap_get (dailyMap_add m day q) d
  == dailyMap_get m d + (if (d =? day)%Z then q else 0).
Proof.
  induction m as [|[d0 total] rest IH]; simpl.
  - rewrite (Z.eqb_sym day d). destruct (d =? day)%Z; ring.
  - destruct (d0 =? day)%Z eqn:E0; simpl.
    + apply Z.eqb_eq in E0. subst d0. rewrite (Z.eqb_sym day d).
      destruct (d =? day)%Z; ring.
    + destruct (d0 =? d)%Z eqn:E1.
      * apply Z.eqb_eq in E1. subst d0. rewrite E0. ring.
      * exact IH.
Qed.

Lemma dailyMap_get_In m d total :
  NoDup (map fst m) -> In (d, total) m -> dailyMap_get m d = total.
Proof.
  induction m as [|[d0 t0] rest IH]; simpl; intros Hn Hin.
  - contradiction.
  - inversion Hn as [|? ? Hnot Hn']; subst.
    destruct Hin as [Hin|Hin].
    + inversion Hin; subst. now rewrite Z.eqb_refl.
    + destruct (d0 =? d)%Z eqn:E.
      * apply Z.eqb_eq in E. subst d0. exfalso. apply Hnot.
        change d with (fst (d, total)). now apply in_map.
      * now apply IH.
Qed.

(** The grouping loop: the days stay distinct, every day of an item is
    present, and a day holds what it held plus what the items sold on
    it. *)
Lemma dailyMap_fold items :
  forall m,
    NoDup (map fst m) ->
    let final :=
      fold_left
        (fun m item =>
           dailyMap_add m (dayOf (inv_created_at item)) (ii_quantity item))
        items m in
    NoDup (map fst final)
    /\ (forall d, In d (map fst final) <->
                  In d (map fst m)
                  \/ exists item, In item items /\ dayOf (inv_created_at item) = d)
    /\ (forall d, dailyMap_get final d == dailyMap_get m d + soldOn d items).
Proof.
  induction items as [|item rest IH]; intros m Hn; simpl.
  - split; [exact Hn|]. split.
    + intro d. split; [auto|]. intros [H|[item [[] _]]]. exact H.
    + intro d. ring.
  - destruct (IH _ (dailyMap_add_NoDup m (dayOf (inv_created_at item))
                      (ii_quantity item) Hn)) as (H1 & H2 & H3).
    split; [exact H1|]. split.
    + intro d. rewrite H2, dailyMap_add_day. split.
      * intros [[->|H]|[i [Hi Hd]]]; auto.
        -- right. exists item. auto.
        -- right. exists i. auto.
      * intros [H|[i [[<-|Hi] Hd]]]; auto.
        right. exists i. auto.
    + intro d. rewrite H3, dailyMap_get_add.
      rewrite (Z.eqb_sym d). destruct (dayOf (inv_created_at item) =? d)%Z; ring.
Qed.

(** When the daily aggregates give nothing for the product (no row in the
    window, or the table unavailable), the history is built from the paid
    invoice items of the window: one point per day with a sale, at the
    midnight of that day, days distinct, each holding the sum of what the
    items sold on that day.  With no such item (or the invoices
    unavailable as well) the history is empty; nothing is thrown. *)
Theorem getSalesHistory_fallback
    (supabase : Supabase) (userId productId : string) (days : Z) (w : World)
    (startTime : Z) :
  (forall rows, sales_history_daily supabase = Rows rows ->
                dailyRowsOf rows userId productId startTime = []) ->
  TimeClip (clock w (tick w) + (- days) * msPerDay) = Some startTime ->
  let items := paidItemsOf (invoice_items supabase) userId productId startTime in
  exists series,
    fst (getSalesHistory supabase userId productId days w) = Return series
    /\ NoDup (map date series)
    /\ (forall t, In t (map date series) <->
                  exists item, In item items
                               /\ t = (dayOf (inv_created_at item) * msPerDay)%Z)
    /\ (forall point, In point series ->
                      quantity point == soldOn (dayOf (date point)) items)
    /\ (items = [] -> series = []).
Proof.
  intros Hagg Hstart items.
  assert (Hnone :
    match option_map (stable_sort (fun a b => (sh_date a <=? sh_date b)%Z))
            (data (select (sales_history_daily supabase)
                     (fun row => String.eqb (sh_user_id row) userId
                                 && String.eqb (sh_product_id row) productId
                                 && (dayOf startTime <=? sh_date row)%Z))) with
    | Some (_ :: _) => False
    | _ => True
    end).
  { destruct (sales_history_daily supabase) as [rows|message] eqn:E;
      cbn [select data option_map]; [|exact I].
    specialize (Hagg rows eq_refl). unfold dailyRowsOf in Hagg.
    rewrite Hagg. exact I. }
  set (dailyMap :=
         fold_left
           (fun m item =>
              dailyMap_add m (dayOf (inv_created_at item)) (ii_quantity item))
           items []).
  assert (Hresult :
    fst (getSalesHistory supabase userId productId days w)
    = Return (map (fun entry : Z * Q =>
                     let (dateStr, quantity) := entry in
                     mkPoint (dateStr * msPerDay) quantity) dailyMap)).
  { unfold getSalesHistory, bind, Date_now.
    rewrite Date_addDays_of_Z, Hstart. cbn [toISOString].
    unfold dailyMap, items, paidItemsOf.
    destruct (option_map _ _) as [[|row sorted]|]; try contradiction;
      destruct (invoice_items supabase); reflexivity. }
  clear Hnone. rewrite Hresult. clear Hresult.
  destruct (dailyMap_fold items [] (NoDup_nil Z)) as (H1 & H2 & H3).
  fold dailyMap in H1, H2, H3. cbv zeta in H1, H2, H3.
  assert (Hd : (0 < msPerDay)%Z) by reflexivity.
  assert (Hdates : map date
            (map (fun entry : Z * Q =>
                    let (dateStr, quantity) := entry in
                    mkPoint (dateStr * msPerDay) quantity) dailyMap)
          = map (fun d => (d * msPerDay)%Z) (map fst dailyMap)).
  { rewrite !map_map. apply map_ext. intros [d q]. reflexivity. }
  eexists. split; [reflexivity|]. split; [|split; [|split]].
  - rewrite Hdates. apply Finite.Injective_map_NoDup; [|exact H1].
    intros a b Hab. nia.
  - intro t. rewrite Hdates, in_map_iff. split.
    + intros [d [<- Hin]]. apply H2 in Hin. destruct Hin as [[]|[item [Hi Hday]]].
      exists item. split; [exact Hi | now rewrite Hday].
    + intros [item [Hi ->]]. exists (dayOf (inv_created_at item)).
      split; [reflexivity|]. apply H2. right. exists item. auto.
  - intros point Hin. apply in_map_iff in Hin.
    destruct Hin as [[d q] [<- Hin]]. cbn [date quantity].
    unfold dayOf at 1. rewrite Z.div_mul by discriminate.
    rewrite <- (dailyMap_get_In dailyMap d q H1 Hin), H3. simpl. ring.
  - intro Hnil. unfold dailyMap. rewrite Hnil. reflexivity.
Qed.

Lemma getSalesHistory_fallback_witness :
  exists series,
    fst (getSalesHistory
           (mkSupabase (Rows [mkProduct "t" "u" "Tea" 12 5]) (Rows [])
              (Rows [mkInvoiceItem "t" 2 2419201000 "paid" "u";
                     mkInvoiceItem "t" 4 2505600000 "paid" "u";
                     mkInvoiceItem "t" 3 2419205000 "paid" "u";
                     mkInvoiceItem "t" 100 2505600000 "draft" "u"])
              (Rows []))
           "u" "t" 30 day30) = Return series
    /\ NoDup (map date series)
    /\ (forall t, In t (map date series) <->
                  exists item,
                    In item [mkInvoiceItem "t" 2 2419201000 "paid" "u";
                             mkInvoiceItem "t" 4 2505600000 "paid" "u";
                             mkInvoiceItem "t" 3 2419205000 "paid" "u"]
                    /\ t = (dayOf (inv_created_at item) * msPerDay)%Z)
    /\ (forall point, In point series ->
          quantity point
          == soldOn (dayOf (date point))
               [mkInvoiceItem "t" 2 2419201000 "paid" "u";
                mkInvoiceItem "t" 4 2505600000 "paid" "u";
                mkInvoiceItem "t" 3 2419205000 "paid" "u"])
    /\ ([mkInvoiceItem "t" 2 2419201000 "paid" "u";
         mkInvoiceItem "t" 4 2505600000 "paid" "u";
         mkInvoiceItem "t" 3 2419205000 "paid" "u"] = [] -> series = []).
Proof.
  apply (getSalesHistory_fallback
           (mkSupabase (Rows [mkProduct "t" "u" "Tea" 12 5]) (Rows [])
              (Rows [mkInvoiceItem "t" 2 2419201000 "paid" "u";
                     mkInvoiceItem "t" 4 2505600000 "paid" "u";
                     mkInvoiceItem "t" 3 2419205000 "paid" "u";
                     mkInvoiceItem "t" 100 2505600000 "draft" "u"])
              (Rows []))
           "u" "t" 30 day30 0).
  - intros rows H. inversion H. reflexivity.
  - reflexivity.
Defined.

(** ** The moving average *)

Lemma Qsum_bounds_acc data lo hi a :
  Forall (fun p => lo <= quantity p <= hi) data ->
  a + inject_Z (Z.of_nat (length data)) * lo
  <= fold_left (fun acc p => acc + quantity p) data a
  <= a + inject_Z (Z.of_nat (length data)) * hi.
Proof.
  intro H. revert a. induction H as [|p data Hp _ IH]; intro a.
  - cbn [fold_left length]. change (inject_Z (Z.of_nat 0)) with 0. lra.
  - cbn [fold_left length]. specialize (IH (a + quantity p)).
    rewrite Nat2Z.inj_succ. unfold Z.succ. rewrite inject_Z_plus.
    change (inject_Z 1) with 1. lra.
Qed.

Lemma slice_last_app {A} (older recent : list A) n :
  length recent = n -> (0 < n)%nat -> slice_last n (older ++ recent) = recent.
Proof.
  intros Hl Hn. unfold slice_last.
  destruct (n =? 0)%nat eqn:E; [apply Nat.eqb_eq in E; lia|].
  rewrite length_app, Hl.
  replace (length older + n - n)%nat with (length older) by lia.
  rewrite skipn_app, skipn_all, Nat.sub_diag. reflexivity.
Qed.

Lemma slice_last_all {A} (l : list A) n :
  length l = n -> (0 < n)%nat -> slice_last n l = l.
Proof. intros Hl Hn. exact (slice_last_app [] l n Hl Hn). Qed.

Lemma slice_last_Forall {A} (P : A -> Prop) n (l : list A) :
  Forall P l -> Forall P (slice_last n l).
Proof.
  intro H. unfold slice_last. destruct (n =? 0)%nat; [exact H|].
  apply Forall_forall. intros x Hx. rewrite Forall_forall in H. apply H.
  rewrite <- (firstn_skipn (length l - n) l). apply in_or_app. now right.
Qed.

(** The moving average reads the last seven points only, and it lies
    between any two bounds of their quantities: it is never below the
    smallest nor above the largest of them. *)
Theorem calculateMovingAverage_window
    (older recent : list SalesDataPoint) (lo hi : Q) :
  length recent = 7%nat ->
  Forall (fun p => lo <= quantity p <= hi) recent ->
  calculateMovingAverage (older ++ recent) 7 = calculateMovingAverage recent 7
  /\ between lo hi (calculateMovingAverage (older ++ recent) 7).
Proof.
  intros Hl Hb.
  assert (Heq : calculateMovingAverage (older ++ recent) 7
                = calculateMovingAverage recent 7).
  { unfold calculateMovingAverage.
    rewrite (slice_last_app older recent 7 Hl) by lia.
    rewrite (slice_last_all recent 7 Hl) by lia.
    rewrite length_app, Hl.
    replace (length older + 7 =? 0)%nat with false
      by (symmetry; apply Nat.eqb_neq; lia).
    reflexivity. }
  split; [exact Heq|]. rewrite Heq. unfold calculateMovingAverage.
  rewrite Hl. cbn [Nat.eqb]. rewrite (slice_last_all recent 7 Hl) by lia.
  rewrite sumQuantity_Qsum, Hl, div_of_nat by lia.
  pose proof (Qsum_bounds_acc recent lo hi 0 Hb) as Hs. rewrite Hl in Hs.
  unfold between, fin_sat, Qsum. change (inject_Z (Z.of_nat 7)) with 7 in *.
  split.
  - apply Qle_shift_div_l; [reflexivity | lra].
  - apply Qle_shift_div_r; [reflexivity | lra].
Qed.

Lemma calculateMovingAverage_window_witness :
  calculateMovingAverage (constSeries 0 23 99 ++ constSeries 23 7 10) 7
  = calculateMovingAverage (constSeries 23 7 10) 7
  /\ between 10 10
       (calculateMovingAverage (constSeries 0 23 99 ++ constSeries 23 7 10) 7).
Proof.
  apply (calculateMovingAverage_window (constSeries 0 23 99)
           (constSeries 23 7 10) 10 10).
  - reflexivity.
  - repeat constructor; simpl; discriminate.
Defined.

(** ** The trend *)

(** For a series of at least seven points whose first half has a positive
    mean, the trend is decided by the relative change of the mean of the
    second half: "increasing" above +15 %, "decreasing" below -15 %,
    "stable" in between (both bounds included). *)
Theorem detectTrend_thresholds (data : list SalesDataPoint) :
  (7 <= length data)%nat ->
  let firstAvg := Qmean (firstn (length data / 2) data) in
  let secondAvg := Qmean (skipn (length data / 2) data) in
  0 < firstAvg ->
  (detectTrend data = increasing <-> 0.15 * firstAvg < secondAvg - firstAvg)
  /\ (detectTrend data = decreasing <-> secondAvg - firstAvg < - 0.15 * firstAvg)
  /\ (detectTrend data = stable <->
      - 0.15 * firstAvg <= secondAvg - firstAvg <= 0.15 * firstAvg).
Proof.
  intros Hlen firstAvg secondAvg Hpos.
  assert (Hhalf : (3 <= length data / 2 < length data)%nat).
  { split.
    - change 3%nat with (6 / 2)%nat. apply Nat.Div0.div_le_mono. lia.
    - apply Nat.div_lt; lia. }
  unfold detectTrend.
  replace (length data <? 7)%nat with false
    by (symmetry; apply Nat.ltb_ge; exact Hlen).
  unfold trendChange.
  rewrite !sumQuantity_Qsum, !div_of_nat
    by (rewrite ?length_firstn, ?length_skipn; lia).
  fold (Qmean (firstn (length data / 2) data)).
  fold (Qmean (skipn (length data / 2) data)).
  fold firstAvg secondAvg. cbv zeta. unfold sub. cbn [neg add].
  rewrite (div_pos _ _ Hpos). unfold gtb. cbn [ltb].
  set (change := (secondAvg + - firstAvg) / firstAvg).
  assert (Hup : 0.15 < change <-> 0.15 * firstAvg < secondAvg - firstAvg).
  { unfold change. split; intro H.
    - apply (Qmult_lt_r _ _ firstAvg Hpos) in H.
      setoid_replace ((secondAvg + - firstAvg) / firstAvg * firstAvg)
        with (secondAvg + - firstAvg) in H by (field; lra).
      lra.
    - apply Qlt_shift_div_l; [exact Hpos | lra]. }
  assert (Hdown : change < -0.15 <-> secondAvg - firstAvg < - 0.15 * firstAvg).
  { unfold change. split; intro H.
    - apply (Qmult_lt_r _ _ firstAvg Hpos) in H.
      setoid_replace ((secondAvg + - firstAvg) / firstAvg * firstAvg)
        with (secondAvg + - firstAvg) in H by (field; lra).
      lra.
    - apply Qlt_shift_div_r; [exact Hpos | lra]. }
  destruct (Qltb 0.15 change) eqn:E1.
  - apply Qltb_lt in E1. pose proof (proj1 Hup E1).
    repeat split; intros; try reflexivity; try discriminate; try lra.
  - apply Qltb_ge in E1. destruct (Qltb change (-0.15)) eqn:E2.
    + apply Qltb_lt in E2. pose proof (proj1 Hdown E2).
      repeat split; intros; try reflexivity; try discriminate; try lra.
    + apply Qltb_ge in E2.
      assert (Hn1 : ~ 0.15 * firstAvg < secondAvg - firstAvg)
        by (intro Hx; apply Hup in Hx; lra).
      assert (Hn2 : ~ secondAvg - firstAvg < - 0.15 * firstAvg)
        by (intro Hx; apply Hdown in Hx; lra).
      repeat split; intros; try reflexivity; try discriminate; try lra.
Qed.

Lemma detectTrend_thresholds_witness :
  let firstAvg := Qmean (firstn (length risingSales / 2) risingSales) in
  let secondAvg := Qmean (skipn (length risingSales / 2) risingSales) in
  (detectTrend risingSales = increasing
   <-> 0.15 * firstAvg < secondAvg - firstAvg)
  /\ (detectTrend risingSales = decreasing
      <-> secondAvg - firstAvg < - 0.15 * firstAvg)
  /\ (detectTrend risingSales = stable <->
      - 0.15 * firstAvg <= secondAvg - firstAvg <= 0.15 * firstAvg).
Proof.
  apply (detectTrend_thresholds risingSales).
  - simpl. lia.
  - vm_compute. reflexivity.
Defined.

(** ** The economic order quantity *)

Lemma Qsqrt_nonneg q : 0 <= Qsqrt q.
Proof.
  unfold Qsqrt, Qle. cbn [Qnum Qden]. rewrite Z.mul_1_r. simpl (0 * _)%Z.
  apply Z.sqrt_nonneg.
Qed.

Lemma Qceiling_nonneg q : 0 <= q -> (0 <= Qceiling q)%Z.
Proof.
  intro H. pose proof (Qle_ceiling q) as Hc.
  apply (Qle_trans _ _ _ H) in Hc. rewrite Zle_Qle. exact Hc.
Qed.

(** [calculateEOQ] on finite arguments: a holding cost of zero is guarded
    and gives a twelfth of the annual demand; otherwise the result is a
    non-negative integer when 2DS/H is not negative, and NaN when it is
    (a negative demand, order cost or holding cost). *)
Theorem calculateEOQ_cases (annualDemand orderCost holdingCostPerUnit : Q) :
  let ratio := 2 * annualDemand * orderCost / holdingCostPerUnit in
  (holdingCostPerUnit == 0 ->
   calculateEOQ (Fin annualDemand) (Fin orderCost) (Fin holdingCostPerUnit)
   = Fin (annualDemand / 12))
  /\ (~ holdingCostPerUnit == 0 -> 0 <= ratio ->
      exists n : Z,
        (0 <= n)%Z
        /\ calculateEOQ (Fin annualDemand) (Fin orderCost) (Fin holdingCostPerUnit)
           = of_Z n)
  /\ (~ holdingCostPerUnit == 0 -> ratio < 0 ->
      calculateEOQ (Fin annualDemand) (Fin orderCost) (Fin holdingCostPerUnit)
      = NaN).
Proof.
  intro ratio. unfold calculateEOQ, is_zero. repeat split.
  - intro H. rewrite (proj2 (Qeq_bool_iff _ _) H).
    now rewrite div_pos by reflexivity.
  - intros Hn Hr.
    destruct (Qeq_bool holdingCostPerUnit 0) eqn:E;
      [apply Qeq_bool_iff in E; contradiction|].
    cbn [mul]. unfold div. rewrite E. fold ratio. unfold Math_sqrt.
    rewrite (proj2 (Qltb_ge ratio 0) Hr). cbn [Math_ceil].
    exists (Qceiling (Qsqrt ratio)). split; [|reflexivity].
    apply Qceiling_nonneg, Qsqrt_nonneg.
  - intros Hn Hr.
    destruct (Qeq_bool holdingCostPerUnit 0) eqn:E;
      [apply Qeq_bool_iff in E; contradiction|].
    cbn [mul]. unfold div. rewrite E. fold ratio. unfold Math_sqrt.
    rewrite (proj2 (Qltb_lt ratio 0) Hr). reflexivity.
Qed.

(** ** Recommendations of the time-series module *)

Lemma classify_rank_le a b :
  a <= b ->
  (urgencyOrder (classify (Fin a)) <= urgencyOrder (classify (Fin b)))%Z.
Proof. intro Hab. by_thresholds. Qed.

Lemma generateRestockRecommendations_ids products :
  forall w,
    map productId (fst (generateRestockRecommendations products w))
    = map pi_id products.
Proof.
  induction products as [|product rest IH]; intro w; simpl.
  - reflexivity.
  - unfold bind.
    destruct (recommend product w) as [r w1] eqn:E.
    specialize (IH w1).
    destruct (generateRestockRecommendations rest w1) as [rs w2].
    simpl in *. rewrite IH. f_equal.
    unfold recommend, bind, Date_now, ret in E.
    destruct (predictStockNeeds _ _ _ _ w) as [fc w']. now inversion E.
Qed.

Lemma recommend_pinned product now w :
  pinned now w ->
  let fc := predict (pi_salesHistory product) (Fin (pi_quantity product))
              (leadTimeOr7 product) (Fin 3) now in
  let daysUntilRunout :=
    Math_floor (div (sub (getTime (predictedRunoutDate fc)) (of_Z now))
                  (of_Z msPerDay)) in
  fst (recommend product w)
  = {| productId := pi_id product;
       productName := pi_name product;
       currentStock := pi_quantity product;
       forecast := fc;
       rec_urgency := classify daysUntilRunout;
       shouldReorder := leb daysUntilRunout (leadTimeOr7 product) |}.
Proof.
  intros Hp fc days. unfold recommend, bind.
  destruct (predictStockNeeds_pinned (pi_salesHistory product)
              (Fin (pi_quantity product)) (leadTimeOr7 product) (Fin 3) now w Hp)
    as [Hr Hc].
  destruct (predictStockNeeds _ _ _ _ w) as [fc' w1]. simpl in Hr, Hc.
  subst fc'. unfold Date_now, ret. cbn [fst]. rewrite Hc, (Hp (tick w1)).
  reflexivity.
Qed.

(** The two planners agree.  At a pinned clock, the recommendation that
    [generateRestockRecommendations] computes for a product carries the
    urgency that the service gives to the same forecast, although only the
    service clamps the days until runout at zero; and the same decision to
    reorder, provided the lead time given is not negative. *)
Theorem recommend_agrees
    (product : ProductInput) (row : ProductRow) (now : Z) (w : World)
    (f : StockForecast) :
  pinned now w ->
  (forall q, pi_leadTimeDays product = Some q -> 0 <= q) ->
  emit row (forecast (fst (recommend product w))) (leadTimeOr7 product) now
  = Return f ->
  urgency f = rec_urgency (fst (recommend product w))
  /\ should_reorder f = shouldReorder (fst (recommend product w))
  /\ suggested_reorder_quantity f
     = suggestedReorderQuantity (forecast (fst (recommend product w))).
Proof.
  intros Hp Hlead He. rewrite (recommend_pinned product now w Hp) in *.
  cbn [forecast rec_urgency shouldReorder] in *.
  destruct (emit_Return _ _ _ _ _ He) as (t & Ht & ->).
  cbn [urgency should_reorder suggested_reorder_quantity].
  rewrite Ht. cbn [getTime]. rewrite daysUntil_valid, floor_days.
  set (k := ((t - now) / msPerDay)%Z).
  assert (Hq : exists q, leadTimeOr7 product = Fin q /\ 0 <= q).
  { unfold leadTimeOr7, truthy. destruct (pi_leadTimeDays product) as [q|] eqn:E.
    - destruct (Qeq_bool q 0).
      + exists 7. split; [reflexivity | discriminate].
      + exists q. split; [reflexivity | now apply Hlead].
    - exists 7. split; [reflexivity | discriminate]. }
  destruct Hq as (q & -> & Hq).
  destruct (Z.max_spec 0 k) as [[Hk ->]|[Hk ->]]; [auto|].
  assert (Hneg : inject_Z k <= 0) by (rewrite Zle_Qle in Hk; exact Hk).
  repeat split.
  - unfold classify, of_Z. cbn [leb].
    replace (Qle_bool (inject_Z 0) 3) with true by reflexivity.
    replace (Qle_bool (inject_Z k) 3) with true; [reflexivity|].
    symmetry. apply Qle_bool_iff. lra.
  - unfold of_Z. cbn [leb].
    replace (Qle_bool (inject_Z 0) q) with true
      by (symmetry; apply Qle_bool_iff; exact Hq).
    symmetry. apply Qle_bool_iff. lra.
Qed.

Lemma recommend_agrees_witness :
  urgency
    {| product_id := "a"; product_name := "Atta"; current_stock := 50;
       predicted_runout_date := 3024000000; days_until_runout := Fin 5;
       suggested_reorder_quantity := Fin 100; sf_confidence := Fin 0.95;
       urgency := high; should_reorder := true |}
  = rec_urgency
      (fst (recommend (mkProductInput "a" "Atta" 50 (constSeries 1 30 10) None)
              day30))
  /\ should_reorder
       {| product_id := "a"; product_name := "Atta"; current_stock := 50;
          predicted_runout_date := 3024000000; days_until_runout := Fin 5;
          suggested_reorder_quantity := Fin 100; sf_confidence := Fin 0.95;
          urgency := high; should_reorder := true |}
     = shouldReorder
         (fst (recommend (mkProductInput "a" "Atta" 50 (constSeries 1 30 10) None)
                 day30))
  /\ suggested_reorder_quantity
       {| product_id := "a"; product_name := "Atta"; current_stock := 50;
          predicted_runout_date := 3024000000; days_until_runout := Fin 5;
          suggested_reorder_quantity := Fin 100; sf_confidence := Fin 0.95;
          urgency := high; should_reorder := true |}
     = suggestedReorderQuantity
         (forecast
            (fst (recommend
                    (mkProductInput "a" "Atta" 50 (constSeries 1 30 10) None)
                    day30))).
Proof.
  apply (recommend_agrees
           (mkProductInput "a" "Atta" 50 (constSeries 1 30 10) None)
           (mkProduct "a" "u" "Atta" 50 5) (30 * msPerDay) day30).
  - intro n. reflexivity.
  - discriminate.
  - vm_compute. reflexivity.
Defined.

(** ** Monotonicity in the stock *)

Lemma Date_addDays_floor_le now x y t1 t2 :
  x <= y ->
  Date_addDays now (Math_floor (Fin x)) = Some t1 ->
  Date_addDays now (Math_floor (Fin y)) = Some t2 ->
  (t1 <= t2)%Z.
Proof.
  intros Hxy. cbn [Math_floor]. rewrite !Date_addDays_of_Z. unfold TimeClip.
  destruct (Z.abs (now + Qfloor x * msPerDay) <=? maxTime)%Z; [|discriminate].
  destruct (Z.abs (now + Qfloor y * msPerDay) <=? maxTime)%Z; [|discriminate].
  intros H1 H2. inversion H1. inversion H2.
  pose proof (Qfloor_resp_le x y Hxy).
  assert (0 < msPerDay)%Z by reflexivity. nia.
Qed.

(** For one series, one policy and one reference time, more stock never
    brings the runout date forward, and so never makes the product more
    urgent. *)
Theorem more_stock_not_more_urgent
    (data : list SalesDataPoint) (stock1 stock2 : Q)
    (leadTimeDays safetyStockDays : number) (now : Z) (w : World) (t1 t2 : Z) :
  pinned now w ->
  stock1 <= stock2 ->
  predictedRunoutDate
    (fst (predictStockNeeds data (Fin stock1) leadTimeDays safetyStockDays w))
  = Some t1 ->
  predictedRunoutDate
    (fst (predictStockNeeds data (Fin stock2) leadTimeDays safetyStockDays w))
  = Some t2 ->
  (t1 <= t2)%Z
  /\ forall now' : Z,
       (urgencyOrder (classify (daysUntil (Some t1) now'))
        <= urgencyOrder (classify (daysUntil (Some t2) now')))%Z.
Proof.
  intros Hp Hs H1 H2.
  destruct (predictStockNeeds_pinned data (Fin stock1) leadTimeDays
              safetyStockDays now w Hp) as [E1 _].
  destruct (predictStockNeeds_pinned data (Fin stock2) leadTimeDays
              safetyStockDays now w Hp) as [E2 _].
  rewrite E1 in H1. rewrite E2 in H2. clear E1 E2.
  unfold predict in H1, H2. cbn [predictedRunoutDate] in H1, H2.
  unfold daysUntilStockoutAt in H1, H2.
  assert (Ht : (t1 <= t2)%Z).
  { destruct (adjustedDailyRate data now) as [a| | |]; unfold gtb in *;
      cbn [ltb] in *.
    - destruct (Qltb 0 a) eqn:Ea.
      + apply Qltb_lt in Ea. rewrite (div_pos stock1 _ Ea) in H1.
        rewrite (div_pos stock2 _ Ea) in H2.
        apply (Date_addDays_floor_le now (stock1 / a) (stock2 / a));
          [|assumption|assumption].
        apply Qmult_le_compat_r; [exact Hs|].
        apply Qlt_le_weak. now apply Qinv_lt_0_compat.
      + rewrite H1 in H2. inversion H2. lia.
    - cbn [div] in H1, H2. rewrite H1 in H2. inversion H2. lia.
    - rewrite H1 in H2. inversion H2. lia.
    - rewrite H1 in H2. inversion H2. lia. }
  split; [exact Ht|]. intro now'. rewrite !daysUntil_valid.
  apply classify_rank_le. rewrite <- Zle_Qle.
  assert (0 < msPerDay)%Z by reflexivity.
  apply Z.max_le_compat_l. apply Z.div_le_mono; lia.
Qed.

Lemma more_stock_not_more_urgent_witness :
  (30 * msPerDay + 3 * msPerDay <= 30 * msPerDay + 5 * msPerDay)%Z
  /\ forall now' : Z,
       (urgencyOrder
          (classify (daysUntil (Some (30 * msPerDay + 3 * msPerDay)%Z) now'))
        <= urgencyOrder
             (classify (daysUntil (Some (30 * msPerDay + 5 * msPerDay)%Z) now')))%Z.
Proof.
  apply (more_stock_not_more_urgent (constSeries 1 30 10) 30 50 (Fin 7) (Fin 3)
           (30 * msPerDay) day30).
  - intro n. reflexivity.
  - unfold Qle. simpl. lia.
  - vm_compute. reflexivity.
  - vm_compute. reflexivity.
Defined.

(** ** The tool [get_restock_recommendations] *)

Lemma passesFilter_monotone urgencyFilter a b :
  rank_le a b -> passesFilter urgencyFilter b = true ->
  passesFilter urgencyFilter a = true.
Proof.
  unfold rank_le, passesFilter.
  destruct (String.eqb urgencyFilter "critical");
    [|destruct (String.eqb urgencyFilter "high");
      [|destruct (String.eqb urgencyFilter "medium")]];
    destruct (urgency a), (urgency b); simpl; intros; try reflexivity;
      try discriminate; lia.
Qed.

Lemma filter_none {A} (p : A -> bool) l :
  (forall x, In x l -> p x = false) -> filter p l = [].
Proof.
  induction l as [|x l IH]; intro H; simpl; [reflexivity|].
  rewrite (H x) by (simpl; auto). apply IH. intros y Hy. apply H. simpl. auto.
Qed.

Lemma filter_sorted_prefix (p : StockForecast -> bool) l :
  (forall a b, rank_le a b -> p b = true -> p a = true) ->
  StronglySorted rank_le l ->
  exists rest, l = filter p l ++ rest.
Proof.
  intros Hmono. induction 1 as [|a l Hs IH Ha]; simpl.
  - exists []. reflexivity.
  - destruct (p a) eqn:E.
    + destruct IH as [rest IH]. exists rest. simpl. now rewrite <- IH.
    + assert (Hnone : filter p l = []).
      { apply filter_none. intros b Hb. rewrite Forall_forall in Ha.
        destruct (p b) eqn:Eb; [|reflexivity].
        rewrite (Hmono a b (Ha b Hb) Eb) in E. discriminate. }
      rewrite Hnone. exists (a :: l). reflexivity.
Qed.

Lemma Array_slice_0_prefix {A} (l : list A) stop :
  exists rest, l = Array_slice_0 l stop ++ rest.
Proof.
  unfold Array_slice_0. destruct stop as [q| | |].
  - destruct (Qtrunc q <? 0)%Z.
    + exists (skipn (length l - Z.to_nat (- Qtrunc q)) l).
      now rewrite firstn_skipn.
    + exists (skipn (Z.to_nat (Qtrunc q)) l). now rewrite firstn_skipn.
  - exists []. now rewrite app_nil_r.
  - exists l. reflexivity.
  - exists l. reflexivity.
Qed.

Lemma Array_slice_0_incl {A} (l : list A) stop x :
  In x (Array_slice_0 l stop) -> In x l.
Proof.
  destruct (Array_slice_0_prefix l stop) as [rest H]. intro Hx.
  rewrite H. apply in_or_app. now left.
Qed.

(** What the tool hands out of a batch: the batch is sorted by urgency, so
    the forecasts that pass the urgency filter are a leading part of it,
    and the tool returns a leading part of that.  Nothing is returned out
    of order or while a more urgent forecast is held back; every forecast
    returned passes the filter (by default, critical or high); and without
    a limit at most 20 are returned. *)
Theorem tool_get_restock_recommendations_prefix
    (supabase : Supabase) (args : RestockArgs) (w : World)
    (rows : list ProductRow) :
  products supabase = Rows rows ->
  exists batch selected rest,
    fst (getRestockRecommendations supabase (user_id args)
           (mkOptions None (Some true) (Some week)) w) = Return batch
    /\ fst (tool_get_restock_recommendations supabase args w) = Return selected
    /\ batch = selected ++ rest
    /\ (urgencyFilterOf args <> "all"%string ->
        Forall (fun f => passesFilter (urgencyFilterOf args) f = true) selected)
    /\ (limit args = None -> (length selected <= 20)%nat).
Proof.
  intro Hrows.
  pose proof (getRestockRecommendations_fetched supabase (user_id args)
                (mkOptions None (Some true) (Some week)) rows w Hrows) as Hbatch.
  rewrite Array_sort_byUrgency in Hbatch.
  match type of Hbatch with _ = Return ?l =>
    pose proof (buckets_sorted
                  (successes
                     (outcomes supabase (user_id args)
                        (daysAheadOf (mkOptions None (Some true) (Some week)))
                        (catalog rows (user_id args)
                           (mkOptions None (Some true) (Some week))) w)))
      as Hsorted;
    set (batch := l) in *
  end.
  exists batch, (selectRecommendations args batch).
  assert (Htool : fst (tool_get_restock_recommendations supabase args w)
                  = Return (selectRecommendations args batch)).
  { unfold tool_get_restock_recommendations, bindC, bind.
    destruct (getRestockRecommendations supabase (user_id args) _ w)
      as [r w1]. simpl in Hbatch. subst r. reflexivity. }
  unfold selectRecommendations in *.
  set (filtered :=
         if String.eqb (urgencyFilterOf args) "all" then batch
         else filter (passesFilter (urgencyFilterOf args)) batch) in *.
  assert (Hpre : exists rest, batch = filtered ++ rest).
  { unfold filtered. destruct (String.eqb (urgencyFilterOf args) "all").
    - exists []. now rewrite app_nil_r.
    - apply filter_sorted_prefix; [|exact Hsorted].
      intros a b. apply passesFilter_monotone. }
  destruct Hpre as [rest1 Hpre].
  destruct (Array_slice_0_prefix filtered (limitOf args)) as [rest2 Hsl].
  exists (rest2 ++ rest1). split; [exact Hbatch|]. split; [exact Htool|].
  split; [|split].
  - rewrite app_assoc, <- Hsl. exact Hpre.
  - intro Hnot. apply Forall_forall. intros f Hf.
    apply Array_slice_0_incl in Hf. unfold filtered in Hf.
    destruct (String.eqb (urgencyFilterOf args) "all") eqn:E.
    + apply String.eqb_eq in E. contradiction.
    + apply filter_In in Hf. apply Hf.
  - intro Hlim. unfold limitOf. rewrite Hlim.
    change (Array_slice_0 filtered (Fin 20)) with (firstn 20 filtered).
    apply firstn_le_length.
Qed.

Lemma tool_get_restock_recommendations_prefix_witness :
  exists batch selected rest,
    fst (getRestockRecommendations shop "v"
           (mkOptions None (Some true) (Some week)) day30) = Return batch
    /\ fst (tool_get_restock_recommendations shop
              (mkRestockArgs "v" None None) day30) = Return selected
    /\ batch = selected ++ rest
    /\ (urgencyFilterOf (mkRestockArgs "v" None None) <> "all"%string ->
        Forall (fun f =>
                  passesFilter (urgencyFilterOf (mkRestockArgs "v" None None)) f
                  = true) selected)
    /\ (limit (mkRestockArgs "v" None None) = None ->
        (length selected <= 20)%nat).
Proof.
  exact (tool_get_restock_recommendations_prefix shop
           (mkRestockArgs "v" None None) day30 _ eq_refl).
Defined.

Lemma predictStockNeeds_numeric_fields_witness :
  let r := fst (predictStockNeeds closedOnThursdays (Fin 5) (Fin 7) (Fin 3)
                  (pinnedWorld (14 * msPerDay))) in
  at_least 10 (suggestedReorderQuantity r)
  /\ between 0.1 0.95 (confidence r)
  /\ at_least 0 (dailyAverageSales r)
  /\ at_least 0 (seasonalFactor r).
Proof.
  apply (predictStockNeeds_numeric_fields closedOnThursdays 5 7 3).
  unfold closedOnThursdays. simpl.
  repeat constructor; simpl; discriminate.
Defined.

(** ** The seasonal factors of a week *)

Lemma getDay_shift now k :
  getDay (now + Z.of_nat k * msPerDay)
  = Z.to_nat (((dayOf now + 4) mod 7 + Z.of_nat k) mod 7).
Proof.
  unfold getDay, dayOf. f_equal.
  rewrite Z.div_add by discriminate.
  rewrite Zplus_mod_idemp_l. f_equal. lia.
Qed.

Lemma seven_finite (l : list number) :
  length l = 7%nat -> Forall finite l ->
  exists a0 a1 a2 a3 a4 a5 a6,
    l = [Fin a0; Fin a1; Fin a2; Fin a3; Fin a4; Fin a5; Fin a6].
Proof.
  intros Hl Hf.
  do 7 (destruct l as [|[?| | |] l];
        [discriminate | | exfalso; inversion Hf; contradiction ..];
        apply Forall_inv_tail in Hf).
  destruct l; [|discriminate].
  repeat eexists.
Qed.

(** The sum of the factors of the seven week days, in any of the seven
    orders that seven consecutive days give. *)
Lemma seasonalOfView_week data (r : nat) :
  (r < 7)%nat ->
  eqN (fold_left (fun sum x => add sum x)
         (map (fun k =>
                 seasonalOfView (weekView data)
                   (Z.to_nat ((Z.of_nat r + Z.of_nat k) mod 7)))
            (seq 0 7))
         (Fin 0))
      (Fin 7).
Proof.
  intro Hr.
  rewrite <- (map_map (fun k => Z.to_nat ((Z.of_nat r + Z.of_nat k) mod 7))
                (seasonalOfView (weekView data))).
  unfold seasonalOfView.
  rewrite <- groupByDay_weekView.
  destruct (groupByDay_sat (fun _ => True) I (fun _ _ _ _ => I) data
              (Forall_True data)) as (Ht & Hlt & Hlc).
  pose proof (dayAveragesOf_sat (fun _ => True) I (fun _ _ _ _ => I)
                (fst (groupByDay data)) (snd (groupByDay data)) Ht) as Ha.
  pose proof (dayAveragesOf_length (fst (groupByDay data))
                (snd (groupByDay data))) as Hl.
  rewrite Hlt, Hlc in Hl. simpl in Hl.
  destruct (seven_finite _ Hl Ha) as (a0 & a1 & a2 & a3 & a4 & a5 & a6 & ->).
  cbv zeta. unfold overallAvgOf. cbn [fold_left add].
  rewrite div_pos by reflexivity.
  set (o := (0 + a0 + a1 + a2 + a3 + a4 + a5 + a6) / 7).
  assert (Hsum : a0 + a1 + a2 + a3 + a4 + a5 + a6 == 7 * o)
    by (unfold o; field).
  unfold gtb. cbn [ltb].
  destruct r as [|[|[|[|[|[|[|r]]]]]]]; [| | | | | | | lia];
    match goal with
    | |- context [map ?f (seq 0 7)] =>
        let l := eval vm_compute in (map f (seq 0 7)) in
        change (map f (seq 0 7)) with l
    end;
    cbn [map nth];
    (destruct (Qltb 0 o) eqn:Eo;
     [ apply Qltb_lt in Eo; rewrite !(div_pos _ _ Eo);
       cbn [fold_left add eqN];
       match goal with
       | |- 0 + ?b0 / o + ?b1 / o + ?b2 / o + ?b3 / o + ?b4 / o + ?b5 / o
            + ?b6 / o == 7 =>
           setoid_replace
             (0 + b0 / o + b1 / o + b2 / o + b3 / o + b4 / o + b5 / o + b6 / o)
             with ((a0 + a1 + a2 + a3 + a4 + a5 + a6) / o) by (field; lra)
       end;
       rewrite Hsum; field; lra
     | cbn; reflexivity ]).
Qed.

(** Over any seven consecutive days the seasonal factors of one series add
    up to 7: the factor only redistributes the week's sales over its days
    (each factor is 1 when the series has fewer than fourteen points or no
    positive overall average). *)
Theorem seasonal_factors_of_a_week (data : list SalesDataPoint) (now : Z) :
  eqN (fold_left (fun sum x => add sum x)
         (map (fun k =>
                 fst (calculateSeasonalFactor data
                        (pinnedWorld (now + Z.of_nat k * msPerDay))))
            (seq 0 7))
         (Fin 0))
      (Fin 7).
Proof.
  assert (Hmap :
    map (fun k => fst (calculateSeasonalFactor data
                         (pinnedWorld (now + Z.of_nat k * msPerDay)))) (seq 0 7)
    = map (fun k => seasonalFactorAt data (now + Z.of_nat k * msPerDay))
        (seq 0 7)).
  { apply map_ext. intro k.
    apply (calculateSeasonalFactor_pinned data (now + Z.of_nat k * msPerDay)).
    intro n. reflexivity. }
  rewrite Hmap. clear Hmap.
  destruct (length data <? 14)%nat eqn:E.
  - assert (Hone : forall t, seasonalFactorAt data t = Fin 1)
      by (intro t; unfold seasonalFactorAt; now rewrite E).
    cbn [seq map]. rewrite !Hone. cbn. reflexivity.
  - assert (Hview : forall k,
               seasonalFactorAt data (now + Z.of_nat k * msPerDay)
               = seasonalOfView (weekView data)
                   (Z.to_nat ((Z.of_nat (Z.to_nat ((dayOf now + 4) mod 7))
                               + Z.of_nat k) mod 7))).
    { intro k. rewrite seasonalFactorAt_view, E, getDay_shift.
      pose proof (Z.mod_pos_bound (dayOf now + 4) 7 ltac:(lia)).
      now rewrite Z2Nat.id by lia. }
    rewrite (map_ext _ _ Hview).
    apply seasonalOfView_week.
    pose proof (Z.mod_pos_bound (dayOf now + 4) 7 ltac:(lia)). lia.
Qed.

(** ** An unavailable history *)

Lemma validNow_start now :
  validNow now ->
  TimeClip (now + (- 30) * msPerDay) = Some (now + (- 30) * msPerDay)%Z.
Proof.
  unfold validNow, TimeClip. intro H.
  assert (Hd : msPerDay = 86400000%Z) by reflexivity.
  assert (Hm : maxTime = 8640000000000000%Z) by reflexivity.
  destruct (Z.abs (now + -30 * msPerDay) <=? maxTime)%Z eqn:E; [reflexivity|].
  apply Z.leb_gt in E. lia.
Qed.

Lemma policy_finite rule :
  finite (leadTimeDaysOf rule) /\ finite (safetyStockDaysOf rule).
Proof.
  unfold leadTimeDaysOf, safetyStockDaysOf.
  destruct rule as [rule|]; [|split; exact I].
  destruct (truthy (lead_time_days rule)), (truthy (safety_stock rule));
    rewrite ?div_pos by reflexivity; split; exact I.
Qed.

(** A history that cannot be read does not fail the product: when the
    product is found and both the daily aggregates and the invoice items
    are unavailable, [predictSingleProduct] returns the forecast of the
    empty series (confidence 0.1, the minimum reorder quantity 10, 9999
    days until runout, urgency low), at a pinned clock within the range of
    dates. *)
Theorem history_unavailable_degrades
    (supabase : Supabase) (userId productId : string) (daysAhead : number)
    (w : World) (now : Z) (product : ProductRow) (m1 m2 : string) :
  findProduct supabase userId productId = mkResponse (Some product) None ->
  sales_history_daily supabase = Unavailable m1 ->
  invoice_items supabase = Unavailable m2 ->
  pinned now w -> validNow now ->
  fst (getSalesHistory supabase userId productId 30 w) = Return []
  /\ exists f,
       fst (predictSingleProduct supabase userId productId daysAhead w) = Return f
       /\ sf_confidence f = Fin 0.1
       /\ suggested_reorder_quantity f = Fin 10
       /\ days_until_runout f = Fin 9999
       /\ urgency f = low.
Proof.
  intros Hf Hs Hi Hp Hv.
  assert (Hh : fst (getSalesHistory supabase userId productId 30 w) = Return []).
  { unfold getSalesHistory, bind, Date_now.
    rewrite Date_addDays_of_Z, (Hp (tick w)).
    change (Z.opp 30) with (-30)%Z. rewrite (validNow_start now Hv).
    cbn [toISOString]. rewrite Hs, Hi. reflexivity. }
  split; [exact Hh|].
  rewrite (predictSingleProduct_pinned _ _ _ _ _ now product [] Hf Hh Hp).
  destruct (policy_finite (findReorderRule supabase userId productId))
    as [Hl Hsf].
  destruct (leadTimeDaysOf (findReorderRule supabase userId productId))
    as [l| | |]; try contradiction.
  destruct (safetyStockDaysOf (findReorderRule supabase userId productId))
    as [s| | |]; try contradiction.
  unfold emit.
  change (predictedRunoutDate
            (predict [] (Fin (p_quantity product)) (Fin l) (Fin s) now))
    with (TimeClip (now + 9999 * msPerDay)).
  rewrite TimeClip_valid by (auto; lia). cbn [toISOString].
  rewrite daysUntil_after. eexists. split; [reflexivity|].
  cbn [sf_confidence suggested_reorder_quantity days_until_runout urgency].
  repeat split.
Qed.

Lemma history_unavailable_degrades_witness :
  fst (getSalesHistory
         (mkSupabase (products shop) (Unavailable "timeout")
            (Unavailable "timeout") (Rows []))
         "u" "a" 30 day30) = Return []
  /\ exists f,
       fst (predictSingleProduct
              (mkSupabase (products shop) (Unavailable "timeout")
                 (Unavailable "timeout") (Rows []))
              "u" "a" (Fin 30) day30) = Return f
       /\ sf_confidence f = Fin 0.1
       /\ suggested_reorder_quantity f = Fin 10
       /\ days_until_runout f = Fin 9999
       /\ urgency f = low.
Proof.
  apply (history_unavailable_degrades
           (mkSupabase (products shop) (Unavailable "timeout")
              (Unavailable "timeout") (Rows []))
           "u" "a" (Fin 30) day30 (30 * msPerDay)
           (mkProduct "a" "u" "Atta" 50 5) "timeout" "timeout").
  - reflexivity.
  - reflexivity.
  - reflexivity.
  - intro n. reflexivity.
  - unfold validNow. vm_compute. split; discriminate.
Defined.
